(** * Algorithmic trading simulator: indicators, risk gates and execution

    Shallow embedding of [trading_simulator.py] (and of the market-data
    and order paths of [trading_dashboard.py]).

    Number model.  A Python [float] is an exact rational [Q]; a Python
    [int] is a [Z].  [int * float] goes through [inject_Z].  Results that
    the code computes are compared with [==] (equality of fractions),
    literals the code returns as they are with [=].  A [ZeroDivisionError]
    is the [None] of an [option]. *)

From Stdlib Require Import QArith Qabs Qminmax Lqa Lia ZArith List.
From stdpp Require Import gmap strings list fin_maps pretty.

Local Open Scope Q_scope.

(** ** Python arithmetic on floats *)

Definition Qltb (x y : Q) : bool := negb (Qle_bool y x).
Definition Qgtb (x y : Q) : bool := Qltb y x.
Definition Qleb (x y : Q) : bool := Qle_bool x y.
Definition Qgeb (x y : Q) : bool := Qle_bool y x.

(** [a / b], raising [ZeroDivisionError] when [b] is zero. *)
Definition fdiv (a b : Q) : option Q :=
  if Qeq_bool b 0 then None else Some (a / b).

(** [int(x)]: truncation towards zero. *)
Definition py_int (x : Q) : Z := Z.quot (Qnum x) (Z.pos (Qden x)).

(** [min(a, b)] and [max(a, b)] of two floats: the first argument wins ties. *)
Definition py_min (a b : Q) : Q := if Qltb b a then b else a.
Definition py_max (a b : Q) : Q := if Qgtb b a then b else a.

(** [sum(xs)] for floats and for ints. *)
Definition fsum (xs : list Q) : Q := fold_left Qplus xs 0.
Definition isum (xs : list Z) : Z := fold_left Z.add xs 0%Z.

(** [l[start:]] with Python's treatment of negative and out-of-range
    indices. *)
Definition py_slice_from {A} (start : Z) (l : list A) : list A :=
  let n := Z.of_nat (length l) in
  let i := if (start <? 0)%Z then Z.max (n + start) 0 else Z.min start n in
  drop (Z.to_nat i) l.

(** [l.pop(0)] on a list known to be non-empty. *)
Definition pop0 {A} (l : list A) : list A := tail l.

(** [len(l)] as a Python int. *)
Definition len {A} (l : list A) : Z := Z.of_nat (length l).

(** [x ** 2] *)
Definition sq (x : Q) : Q := x * x.

(** The random source.  [random.gauss(mu, sigma)] is [mu + z * sigma] for a
    standard normal deviate [z]; [random.uniform(a, b)] is
    [a + (b - a) * r] for [r = random()]. *)
Definition gauss (mu sigma z : Q) : Q := mu + z * sigma.
Definition uniform (a b r : Q) : Q := a + (b - a) * r.

(** ** Data model ([trading_simulator.py], lines 19-82) *)

Inductive AssetType := STOCK | CRYPTO | FOREX | COMMODITY.

Definition AssetType_eqb (a b : AssetType) : bool :=
  match a, b with
  | STOCK, STOCK | CRYPTO, CRYPTO | FOREX, FOREX | COMMODITY, COMMODITY => true
  | _, _ => false
  end.

Record Asset := mkAsset {
  a_symbol : string;
  a_name : string;
  asset_type : AssetType;
  base_price : Q;
  volatility : Q;
  correlation_matrix : gmap string Q;
  market_hours : Z * Z;
  timezone_offset : Z
}.

Record MarketData := mkMarketData {
  md_symbol : string;
  md_price : Q;
  md_volume : Z;
  md_high : Q;
  md_low : Q;
  open_price : Q;
  md_timestamp : Z;
  md_bid : Q;
  md_ask : Q;
  md_spread : Q
}.

Record Trade := mkTrade {
  t_id : string;
  t_symbol : string;
  t_side : string;
  t_quantity : Z;
  t_price : Q;
  t_timestamp : Z;
  t_strategy : string;
  t_pnl : Q;
  t_fees : Q
}.

Record Portfolio := mkPortfolio {
  cash : Q;
  positions : gmap string Z;
  total_value : Q;
  daily_pnl : Q;
  total_pnl : Q;
  sharpe_ratio : Q;
  max_drawdown : Q;
  win_rate : Q
}.

(** ** RiskManager (lines 267-296) *)

Record RiskManager := mkRiskManager {
  max_position_size : Q;
  max_daily_loss : Q;
  rm_daily_pnl : Q;
  correlation_threshold : Q
}.

(** [RiskManager()] with the constructor's defaults. *)
Definition RiskManager_init (max_position_size max_daily_loss : Q) : RiskManager :=
  mkRiskManager max_position_size max_daily_loss 0 (7#10).

Definition RiskManager_default : RiskManager := RiskManager_init (1#10) (5#100).

Definition check_position_limit (rm : RiskManager) (symbol : string)
    (quantity : Z) (price : Q) (portfolio_value : Q) : option bool :=
  let position_value := Qabs (inject_Z quantity * price) in
  position_ratio ← fdiv position_value portfolio_value;
  Some (Qleb position_ratio (max_position_size rm)).

Definition check_daily_loss_limit (rm : RiskManager) (new_pnl : Q) : bool :=
  Qgeb new_pnl (- max_daily_loss rm).

(** The loop over [existing_positions] returns [False] at the first
    offending symbol and [True] when there is none: a conjunction over the
    entries, whatever the iteration order. *)
Definition check_correlation_risk (rm : RiskManager) (new_symbol : string)
    (existing_positions : gmap string Z)
    (correlation_matrix : gmap string (gmap string Q)) : bool :=
  forallb
    (fun '(symbol, held) =>
       if negb (held =? 0)%Z then
         let correlation :=
           default 0 (default ∅ (correlation_matrix !! new_symbol) !! symbol) in
         negb (Qgtb (Qabs correlation) (correlation_threshold rm))
       else true)
    (map_to_list existing_positions).

(** ** Execution engine (lines 402-439) *)

Record Simulator := mkSimulator {
  assets : gmap string Asset;
  risk_manager : RiskManager;
  portfolio : Portfolio;
  trades : list Trade;
  market_data : gmap string MarketData;
  running : bool
}.

Definition set_portfolio (sim : Simulator) (p : Portfolio) : Simulator :=
  mkSimulator (assets sim) (risk_manager sim) p (trades sim)
              (market_data sim) (running sim).

Definition add_trade (sim : Simulator) (t : Trade) : Simulator :=
  mkSimulator (assets sim) (risk_manager sim) (portfolio sim)
              (trades sim ++ [t]) (market_data sim) (running sim).

Definition set_cash_position (p : Portfolio) (c : Q) (symbol : string) (q : Z)
    : Portfolio :=
  mkPortfolio c (<[symbol := q]> (positions p)) (total_value p) (daily_pnl p)
              (total_pnl p) (sharpe_ratio p) (max_drawdown p) (win_rate p).

(** [f"T{n:06d}"]: at least six decimal digits, padded with zeros. *)
Definition trade_id (n : nat) : string :=
  let digits := pretty (N.of_nat n) in
  "T" +:+ String.concat "" (replicate (6 - String.length digits) "0") +:+ digits.

(** [positions.get(symbol, 0)] *)
Definition held (p : Portfolio) (symbol : string) : Z :=
  default 0%Z (positions p !! symbol).

(** [execute_trade]; [now] is the clock reading [datetime.now()].  The
    result is the simulator after the call and the returned boolean, or
    [None] for the [ZeroDivisionError] of the position check. *)
Definition execute_trade (sim : Simulator) (now : Z) (symbol side : string)
    (quantity : Z) (price : Q) (strategy : string) : Simulator * option bool :=
  match check_position_limit (risk_manager sim) symbol quantity price
          (total_value (portfolio sim)) with
  | None => (sim, None)
  | Some false => (sim, Some false)
  | Some true =>
      let p := portfolio sim in
      let trade_value := inject_Z quantity * price in
      let fees := trade_value * (1 # 1000) in
      let record (sim' : Simulator) :=
        add_trade sim'
          (mkTrade (trade_id (length (trades sim) + 1)) symbol side quantity
                   price now strategy 0 fees) in
      if String.eqb side "BUY" then
        if Qltb (cash p) (trade_value + fees) then (sim, Some false)
        else
          (record (set_portfolio sim
             (set_cash_position p (cash p - (trade_value + fees)) symbol
                                (held p symbol + quantity)%Z)),
           Some true)
      else
        if (held p symbol <? quantity)%Z then (sim, Some false)
        else
          (record (set_portfolio sim
             (set_cash_position p (cash p + (trade_value - fees)) symbol
                                (held p symbol - quantity)%Z)),
           Some true)
  end.

(** ** Asset universe and market-data generator (lines 328-400) *)

Definition initialize_assets : gmap string Asset :=
  list_to_map
    [ ("AAPL", mkAsset "AAPL" "Apple Inc." STOCK 150 (25 # 100)
         (list_to_map [("MSFT", 6 # 10); ("GOOGL", 5 # 10); ("TSLA", 4 # 10)])
         (9, 16)%Z (-5));
      ("MSFT", mkAsset "MSFT" "Microsoft Corp." STOCK 300 (22 # 100)
         (list_to_map [("AAPL", 6 # 10); ("GOOGL", 7 # 10); ("TSLA", 3 # 10)])
         (9, 16)%Z (-5));
      ("GOOGL", mkAsset "GOOGL" "Alphabet Inc." STOCK 2800 (28 # 100)
         (list_to_map [("AAPL", 5 # 10); ("MSFT", 7 # 10); ("TSLA", 4 # 10)])
         (9, 16)%Z (-5));
      ("TSLA", mkAsset "TSLA" "Tesla Inc." STOCK 250 (45 # 100)
         (list_to_map [("AAPL", 4 # 10); ("MSFT", 3 # 10); ("GOOGL", 4 # 10)])
         (9, 16)%Z (-5));
      ("BTC", mkAsset "BTC" "Bitcoin" CRYPTO 45000 (65 # 100)
         (list_to_map [("ETH", 8 # 10); ("AAPL", 1 # 10); ("MSFT", 1 # 10)])
         (0, 24)%Z 0);
      ("ETH", mkAsset "ETH" "Ethereum" CRYPTO 3000 (70 # 100)
         (list_to_map [("BTC", 8 # 10); ("AAPL", 1 # 10); ("MSFT", 1 # 10)])
         (0, 24)%Z 0);
      ("EUR/USD", mkAsset "EUR/USD" "Euro/US Dollar" FOREX (108 # 100) (12 # 100)
         (list_to_map [("GBP/USD", 8 # 10); ("USD/JPY", 3 # 10); ("AAPL", 1 # 10)])
         (0, 24)%Z (-5));
      ("GBP/USD", mkAsset "GBP/USD" "British Pound/US Dollar" FOREX (126 # 100)
         (15 # 100)
         (list_to_map [("EUR/USD", 8 # 10); ("USD/JPY", 4 # 10); ("AAPL", 1 # 10)])
         (0, 24)%Z (-5));
      ("GOLD", mkAsset "GOLD" "Gold Futures" COMMODITY 1950 (20 # 100)
         (list_to_map [("SILVER", 7 # 10); ("AAPL", - (1 # 10)); ("MSFT", - (1 # 10))])
         (0, 24)%Z (-5));
      ("SILVER", mkAsset "SILVER" "Silver Futures" COMMODITY 24 (25 # 100)
         (list_to_map [("GOLD", 7 # 10); ("AAPL", - (1 # 10)); ("MSFT", - (1 # 10))])
         (0, 24)%Z (-5)) ].

(** The four draws one call of [generate_market_data] takes from the
    random source, in the order it takes them. *)
Record Draws := mkDraws {
  z_price : Q;     (* deviate of random.gauss(0, ...) *)
  r_volume : Q;    (* random() behind random.uniform(-0.3, 0.3) *)
  r_high : Q;      (* random() behind random.uniform(1.0, 1.02) *)
  r_low : Q        (* random() behind random.uniform(0.98, 1.0) *)
}.

Definition set_base_price (a : Asset) (p : Q) : Asset :=
  mkAsset (a_symbol a) (a_name a) (asset_type a) p (volatility a)
          (correlation_matrix a) (market_hours a) (timezone_offset a).

Definition set_asset (sim : Simulator) (symbol : string) (a : Asset) : Simulator :=
  mkSimulator (<[symbol := a]> (assets sim)) (risk_manager sim) (portfolio sim)
              (trades sim) (market_data sim) (running sim).

(** [generate_market_data(symbol)]: [current_hour] and [now] are the two
    readings of the clock, [rnd] the draws.  [None] is the [KeyError] of
    [self.assets[symbol]].  The asset object is shared with [self.assets],
    so the assignment to [asset.base_price] is a store into the map, and
    the later read [asset.base_price] sees it. *)
Definition generate_market_data (sim : Simulator) (current_hour now : Z)
    (rnd : Draws) (symbol : string) : option (Simulator * MarketData) :=
  asset ← assets sim !! symbol;
  let volatility := volatility asset in
  let time_factor :=
    if AssetType_eqb (asset_type asset) STOCK then
      if ((current_hour <? fst (market_hours asset))
          || (snd (market_hours asset) <? current_hour))%Z
      then 1 # 10 else 1
    else 1 in
  let price_change := gauss 0 (volatility * time_factor * (1 # 100)) (z_price rnd) in
  let new_price := base_price asset * (1 + price_change) in
  let base_volume : Z :=
    if AssetType_eqb (asset_type asset) STOCK then 1000000%Z else 100000%Z in
  let volume_change := uniform (- (3 # 10)) (3 # 10) (r_volume rnd) in
  let new_volume := py_int (inject_Z base_volume * (1 + volume_change)) in
  let high := new_price * uniform 1 (102 # 100) (r_high rnd) in
  let low := new_price * uniform (98 # 100) 1 (r_low rnd) in
  let spread_pct :=
    if AssetType_eqb (asset_type asset) STOCK then 1 # 1000 else 1 # 100 in
  let spread := new_price * spread_pct in
  let bid := new_price - spread / 2 in
  let ask := new_price + spread / 2 in
  let asset' := set_base_price asset new_price in
  Some (set_asset sim symbol asset',
        mkMarketData symbol new_price new_volume high low (base_price asset')
                     now bid ask spread).

(** ** Indicators and strategies (lines 85-264) *)

(** [math.sqrt] returns a rounded root.  The development is stated for any
    root function that is non-negative on non-negative arguments;
    [sqrt_floor] is one such function, the root rounded down to a multiple
    of [1 / (d * 2^52)] for an argument of denominator [d]. *)
Definition sqrt_floor (x : Q) : Q :=
  Z.sqrt (Qnum x * Z.pos (Qden x) * 4 ^ 52) # (Qden x * 2 ^ 52).

(** [statistics.stdev(xs)], the sample standard deviation, called on two
    or more values. *)
Definition stdev (math_sqrt : Q -> Q) (xs : list Q) : Q :=
  let n := len xs in
  let mean := fsum xs / inject_Z n in
  let ss := fsum (map (fun x => sq (x - mean)) xs) in
  math_sqrt (ss / inject_Z (n - 1)).

Record AdvancedVWAPStrategy := mkVWAP {
  vw_symbol : string;
  lookback_period : Z;
  vw_price_history : list Q;
  volume_history : list Z;
  vwap_values : list Q;
  momentum_scores : list Q;
  volatility_scores : list Q;
  signal_strength : Q
}.

Definition AdvancedVWAPStrategy_init (symbol : string) (lookback_period : Z)
    : AdvancedVWAPStrategy :=
  mkVWAP symbol lookback_period [] [] [] [] [] 0.

Definition calculate_vwap (prices : list Q) (volumes : list Z) : Q :=
  match prices, volumes with
  | [], _ | _, [] => 0
  | _, _ =>
      let total_pv := fsum (zip_with (fun p v => p * inject_Z v) prices volumes) in
      let total_volume := isum volumes in
      if (0 <? total_volume)%Z then total_pv / inject_Z total_volume else 0
  end.

(** [list(range(n))] *)
Definition range (n : nat) : list Z := map Z.of_nat (seq 0 n).

Definition calculate_momentum (prices : list Q) : option Q :=
  if (len prices <? 5)%Z then Some 0
  else
    let x := range (length prices) in
    let y := prices in
    let n := len x in
    let sum_x := isum x in
    let sum_y := fsum y in
    let sum_xy := fsum (zip_with (fun xi yi => inject_Z xi * yi) x y) in
    let sum_x2 := isum (map (fun xi => xi ^ 2)%Z x) in
    fdiv (inject_Z n * sum_xy - inject_Z sum_x * sum_y)
         (inject_Z (n * sum_x2 - sum_x ^ 2)).

(** [[(prices[i] - prices[i-1]) / prices[i-1] for i in range(1, len(prices))]],
    with [prev] the element before [rest]. *)
Fixpoint returns_from (prev : Q) (rest : list Q) : option (list Q) :=
  match rest with
  | [] => Some []
  | p :: rest' =>
      r ← fdiv (p - prev) prev;
      rs ← returns_from p rest';
      Some (r :: rs)
  end.

Definition calculate_volatility (math_sqrt : Q -> Q) (prices : list Q) : option Q :=
  if (len prices <? 2)%Z then Some 0
  else
    returns ← match prices with
              | [] => Some []
              | p0 :: rest => returns_from p0 rest
              end;
    Some (if (1 <? len returns)%Z then stdev math_sqrt returns else 0).

Definition vwap_append (s : AdvancedVWAPStrategy) (p : Q) (v : Z)
    : AdvancedVWAPStrategy :=
  mkVWAP (vw_symbol s) (lookback_period s) (vw_price_history s ++ [p])
         (volume_history s ++ [v]) (vwap_values s) (momentum_scores s)
         (volatility_scores s) (signal_strength s).

Definition vwap_trim (s : AdvancedVWAPStrategy) : AdvancedVWAPStrategy :=
  if (lookback_period s <? len (vw_price_history s))%Z then
    mkVWAP (vw_symbol s) (lookback_period s) (pop0 (vw_price_history s))
           (pop0 (volume_history s)) (vwap_values s) (momentum_scores s)
           (volatility_scores s) (signal_strength s)
  else s.

Definition vwap_log (s : AdvancedVWAPStrategy) (vwap momentum volatility : list Q)
    : AdvancedVWAPStrategy :=
  mkVWAP (vw_symbol s) (lookback_period s) (vw_price_history s) (volume_history s)
         (vwap_values s ++ vwap) (momentum_scores s ++ momentum)
         (volatility_scores s ++ volatility) (signal_strength s).

(** The score of the VWAP strategy from its three indicators (lines
    159-169). *)
Definition vwap_score (current_price vwap momentum volatility : Q) : option Q :=
  price_deviation ←
    (if Qgtb vwap 0 then fdiv (current_price - vwap) vwap else Some 0);
  momentum_factor ←
    (if Qgtb current_price 0 then fdiv momentum current_price else Some 0);
  vol_factor ←
    (if Qgtb volatility 0 then fdiv 1 (1 + volatility * 100) else Some 1);
  Some (price_deviation * (4 # 10) + momentum_factor * (4 # 10)
        + vol_factor * (2 # 10)).

(** [AdvancedVWAPStrategy.generate_signal]: the strategy after the call,
    and the returned (action, confidence), or [None] when the call raises
    [ZeroDivisionError]; the histories and logs keep what was stored before
    the exception. *)
Definition vwap_generate_signal (math_sqrt : Q -> Q) (s : AdvancedVWAPStrategy)
    (current_price : Q) (current_volume : Z)
    : AdvancedVWAPStrategy * option (string * Q) :=
  let s := vwap_trim (vwap_append s current_price current_volume) in
  if (len (vw_price_history s) <? 5)%Z then (s, Some ("HOLD", 0))
  else
    let vwap := calculate_vwap (vw_price_history s) (volume_history s) in
    let s := vwap_log s [vwap] [] [] in
    match calculate_momentum (vw_price_history s) with
    | None => (s, None)
    | Some momentum =>
        let s := vwap_log s [] [momentum] [] in
        match calculate_volatility math_sqrt (vw_price_history s) with
        | None => (s, None)
        | Some volatility =>
            let s := vwap_log s [] [] [volatility] in
            match vwap_score current_price vwap momentum volatility with
            | None => (s, None)
            | Some signal_strength =>
                if Qltb signal_strength (- (2 # 100)) then
                  (s, Some ("BUY", Qabs signal_strength))
                else if Qgtb signal_strength (2 # 100) then
                  (s, Some ("SELL", Qabs signal_strength))
                else (s, Some ("HOLD", Qabs signal_strength))
            end
        end
    end.

Record MeanReversionStrategy := mkMR {
  mr_symbol : string;
  period : Z;
  std_dev : Q;
  mr_price_history : list Q;
  rsi_values : list Q
}.

Definition MeanReversionStrategy_init (symbol : string) (period : Z) (std_dev : Q)
    : MeanReversionStrategy :=
  mkMR symbol period std_dev [] [].

Definition calculate_bollinger_bands (math_sqrt : Q -> Q)
    (s : MeanReversionStrategy) (prices : list Q) : option (Q * Q * Q) :=
  if (len prices <? period s)%Z then Some (0, 0, 0)
  else
    let recent_prices := py_slice_from (- period s) prices in
    sma ← fdiv (fsum recent_prices) (inject_Z (len recent_prices));
    variance ← fdiv (fsum (map (fun p => sq (p - sma)) recent_prices))
                    (inject_Z (len recent_prices));
    let std := math_sqrt variance in
    let upper_band := sma + std_dev s * std in
    let lower_band := sma - std_dev s * std in
    Some (upper_band, sma, lower_band).

(** [prices[i] - prices[i-1]] for [i] from 1. *)
Definition changes (prices : list Q) : list Q :=
  zip_with (fun prev cur => cur - prev) prices (tail prices).

Definition gain_of (change : Q) : Q := if Qgtb change 0 then change else 0.
Definition loss_of (change : Q) : Q := if Qgtb change 0 then 0 else Qabs change.

Definition calculate_rsi (prices : list Q) (period : Z) : option Q :=
  if (len prices <? period + 1)%Z then Some 50
  else
    let gains := map gain_of (changes prices) in
    let losses := map loss_of (changes prices) in
    avg_gain ← fdiv (fsum (py_slice_from (- period) gains)) (inject_Z period);
    avg_loss ← fdiv (fsum (py_slice_from (- period) losses)) (inject_Z period);
    if Qeq_bool avg_loss 0 then Some 100
    else
      rs ← fdiv avg_gain avg_loss;
      d ← fdiv 100 (1 + rs);
      Some (100 - d).

Definition mr_store (s : MeanReversionStrategy) (history rsi : list Q)
    : MeanReversionStrategy :=
  mkMR (mr_symbol s) (period s) (std_dev s) history (rsi_values s ++ rsi).

(** [MeanReversionStrategy.generate_signal], with the conventions of
    [vwap_generate_signal]. *)
Definition mr_generate_signal (math_sqrt : Q -> Q) (s : MeanReversionStrategy)
    (current_price : Q) : MeanReversionStrategy * option (string * Q) :=
  let history := mr_price_history s ++ [current_price] in
  let history := if (period s * 2 <? len history)%Z then pop0 history else history in
  let s := mr_store s history [] in
  if (len history <? period s)%Z then (s, Some ("HOLD", 0))
  else
    match calculate_bollinger_bands math_sqrt s history with
    | None => (s, None)
    | Some (upper, middle, lower) =>
        match calculate_rsi history 14 with
        | None => (s, None)
        | Some rsi =>
            let s := mr_store s history [rsi] in
            let signal :=
              price_position ←
                (if negb (Qeq_bool upper lower)
                 then fdiv (current_price - lower) (upper - lower)
                 else Some (1 # 2));
              if Qltb current_price lower && Qltb rsi 30 then
                x ← fdiv (lower - current_price) lower;
                Some ("BUY", py_min 1 (x * 2))
              else if Qgtb current_price upper && Qgtb rsi 70 then
                x ← fdiv (current_price - upper) upper;
                Some ("SELL", py_min 1 (x * 2))
              else Some ("HOLD", 0) in
            (s, signal)
        end
    end.

(** A simulator with no assets loaded, holding portfolio [p]. *)
Definition fresh_simulator (rm : RiskManager) (p : Portfolio) : Simulator :=
  mkSimulator ∅ rm p [] ∅ true.

(** The portfolio [AdvancedTradingSimulator.__init__] starts from. *)
Definition initial_portfolio : Portfolio :=
  mkPortfolio 1000000 ∅ 1000000 0 0 0 0 0.

(** Cash is not negative and no position is short. *)
Definition solvent (p : Portfolio) : Prop :=
  0 <= cash p /\ map_Forall (fun _ q => (0 <= q)%Z) (positions p).

(** [AdvancedTradingSimulator()] as far as the execution engine and the
    generator read it. *)
Definition AdvancedTradingSimulator_init : Simulator :=
  mkSimulator initialize_assets RiskManager_default initial_portfolio [] ∅ false.

(** The nested correlation table [{symbol: asset.correlation_matrix}] that
    [check_correlation_risk] expects. *)
Definition correlations (sim : Simulator) : gmap string (gmap string Q) :=
  correlation_matrix <$> assets sim.

Definition set_daily_pnl (p : Portfolio) (d : Q) : Portfolio :=
  mkPortfolio (cash p) (positions p) (total_value p) d (total_pnl p)
              (sharpe_ratio p) (max_drawdown p) (win_rate p).

(** Each price is above (below) the one before it. *)
Definition strictly_increasing (prices : list Q) : Prop :=
  forall i a b, prices !! i = Some a -> prices !! S i = Some b -> a < b.

Definition strictly_decreasing (prices : list Q) : Prop :=
  forall i a b, prices !! i = Some a -> prices !! S i = Some b -> b < a.

(** [n] prices in unit steps from [first]. *)
Definition unit_steps (first : Z) (n : nat) : list Q :=
  map (fun i => inject_Z (first + i)) (range n).

(** Successive calls of [generate_signal] of one VWAP strategy on a tick
    history: the signals returned, in order. *)
Fixpoint vwap_signals (math_sqrt : Q -> Q) (s : AdvancedVWAPStrategy)
    (ticks : list (Q * Z)) : list (option (string * Q)) :=
  match ticks with
  | [] => []
  | (price, volume) :: rest =>
      let out := vwap_generate_signal math_sqrt s price volume in
      snd out :: vwap_signals math_sqrt (fst out) rest
  end.

(** ** Signal fusion and order placement ([run_simulation_step], lines 523-543) *)

(** The fused (signal, confidence) of the two strategies' answers. *)
Definition combine_signals (vwap_signal : string) (vwap_confidence : Q)
    (mr_signal : string) (mr_confidence : Q) : string * Q :=
  if negb (String.eqb vwap_signal "HOLD") && negb (String.eqb mr_signal "HOLD") then
    if String.eqb vwap_signal mr_signal then
      (vwap_signal, (vwap_confidence + mr_confidence) / 2)
    else ("HOLD", 0)
  else
    (if negb (String.eqb vwap_signal "HOLD") then vwap_signal else mr_signal,
     py_max vwap_confidence mr_confidence).

(** The order the step places for one symbol, given its tick [data] and
    the fused signal: the simulator afterwards, and [None] when
    [execute_trade] raises. *)
Definition trade_on_signal (sim : Simulator) (now : Z) (symbol : string)
    (data : MarketData) (signal : string) (confidence : Q)
    : Simulator * option unit :=
  if negb (String.eqb signal "HOLD") && Qgtb confidence (3 # 10) then
    let quantity := py_int (1000 * confidence) in
    if String.eqb signal "BUY" then
      let out := execute_trade sim now symbol "BUY" quantity (md_ask data) "combined" in
      (fst out, _ ← snd out; Some tt)
    else if String.eqb signal "SELL" then
      let out := execute_trade sim now symbol "SELL" quantity (md_bid data) "combined" in
      (fst out, _ ← snd out; Some tt)
    else (sim, Some tt)
  else (sim, Some tt).

(** ** The dashboard's simulator ([trading_dashboard.py], lines 18-292)

    [TradingSimulator] keeps its assets and its portfolio in dictionaries;
    the fields below are the keys that the price update and the order path
    read or write. *)
Module Dashboard.

Record Asset := mkAsset {
  price : Q;
  volume : Z;
  type : string;
  vwap : Q;
  rsi : Q;
  sector : string
}.

Record Trade := mkTrade {
  id : string;
  symbol : string;
  side : string;
  quantity : Z;
  trade_price : Q;
  timestamp : Z;
  fees : Q;
  pnl : Q;
  vwap_at_trade : Q;
  rsi_at_trade : Q
}.

Record Portfolio := mkPortfolio {
  cash : Q;
  total_value : Q;
  daily_pnl : Q;
  positions : gmap string Z;
  trades : list Trade;
  max_position_size : Q;
  daily_loss_limit : Q
}.

Record TradingSimulator := mkTradingSimulator {
  assets : gmap string Asset;
  portfolio : Portfolio;
  trade_count : nat;
  market_sentiment : string
}.

(** The portfolio of [TradingSimulator.__init__]. *)
Definition initial_portfolio : Portfolio :=
  mkPortfolio 1000000 1000000 0 ∅ [] (15 # 100) (3 # 100).

(** The three volatility tables of [update_market_data], each with the
    default of its [.get]. *)
Definition base_volatility (type : string) : Q :=
  if String.eqb type "stock" then 15 # 1000
  else if String.eqb type "crypto" then 35 # 1000
  else if String.eqb type "forex" then 8 # 1000
  else if String.eqb type "commodity" then 12 # 1000
  else if String.eqb type "etf" then 10 # 1000
  else 20 # 1000.

Definition sentiment_multiplier (sentiment : string) : Q :=
  if String.eqb sentiment "bullish" then 12 # 10
  else if String.eqb sentiment "bearish" then 13 # 10
  else 1.

Definition sector_volatility (sector : string) : Q :=
  if String.eqb sector "Technology" then 13 # 10
  else if String.eqb sector "Automotive" then 14 # 10
  else if String.eqb sector "Digital Assets" then 15 # 10
  else if String.eqb sector "Currency" then 8 # 10
  else if String.eqb sector "Precious Metals" then 9 # 10
  else if String.eqb sector "Market Index" then 7 # 10
  else 1.

(** The new price [update_market_data] computes for one asset (lines
    85-128): [r] is the [random.random()] that selects the size of the
    move, [z] the deviate of the [random.gauss] that follows. *)
Definition new_price (market_sentiment : string) (asset : Asset) (r z : Q) : Q :=
  let final_volatility :=
    base_volatility (type asset) * sentiment_multiplier market_sentiment
    * sector_volatility (sector asset) in
  let price_change :=
    if Qltb r (7 # 10) then gauss 0 final_volatility z
    else gauss 0 (final_volatility * 2) z in
  let new_price := price asset * (1 + price_change) in
  if String.eqb (type asset) "stock" then py_max new_price 1
  else if String.eqb (type asset) "crypto" then py_max new_price (1 # 100)
  else new_price.

Definition set_cash_position (p : Portfolio) (c : Q) (symbol : string) (q : Z)
    : Portfolio :=
  mkPortfolio c (total_value p) (daily_pnl p) (<[symbol := q]> (positions p))
              (trades p) (max_position_size p) (daily_loss_limit p).

Definition set_trades (p : Portfolio) (ts : list Trade) : Portfolio :=
  mkPortfolio (cash p) (total_value p) (daily_pnl p) (positions p) ts
              (max_position_size p) (daily_loss_limit p).

(** [_record_trade]: the simulator after the call, and [None] when
    [self.assets[symbol]] raises [KeyError] (the counter is already
    incremented then). *)
Definition record_trade (sim : TradingSimulator) (now : Z) (symbol side : string)
    (quantity : Z) (price : Q) (fees : Q) : TradingSimulator * option unit :=
  let count := S (trade_count sim) in
  let sim1 :=
    mkTradingSimulator (assets sim) (portfolio sim) count (market_sentiment sim) in
  match assets sim !! symbol with
  | None => (sim1, None)
  | Some asset =>
      let pnl :=
        if String.eqb side "SELL"
           && bool_decide (is_Some (positions (portfolio sim) !! symbol))
        then inject_Z quantity * (price - vwap asset) else 0 in
      let trade :=
        mkTrade (trade_id count) symbol side quantity price now fees pnl
                (vwap asset) (rsi asset) in
      let ts := trades (portfolio sim) ++ [trade] in
      let ts := if (200 <? len ts)%Z then pop0 ts else ts in
      (mkTradingSimulator (assets sim) (set_trades (portfolio sim) ts) count
                          (market_sentiment sim),
       Some tt)
  end.

Definition set_portfolio (sim : TradingSimulator) (p : Portfolio)
    : TradingSimulator :=
  mkTradingSimulator (assets sim) p (trade_count sim) (market_sentiment sim).

(** The quantity after the position check of [_execute_trade] (lines
    249-252); [None] is the [ZeroDivisionError] of a zero price. *)
Definition clip_quantity (p : Portfolio) (quantity : Z) (price : Q) : option Z :=
  let position_value := Qabs (inject_Z quantity * price) in
  if Qgtb position_value (total_value p * max_position_size p) then
    q ← fdiv (total_value p * max_position_size p) price;
    Some (py_int q)
  else Some quantity.

(** [_execute_trade] (lines 247-268). *)
Definition execute_trade (sim : TradingSimulator) (now : Z) (symbol side : string)
    (quantity : Z) (price : Q) : TradingSimulator * option unit :=
  let p := portfolio sim in
  match clip_quantity p quantity price with
  | None => (sim, None)
  | Some quantity =>
      if Qltb (daily_pnl p) (- total_value p * daily_loss_limit p) then
        (sim, Some tt)
      else
        let trade_value := inject_Z quantity * price in
        let fees := trade_value * (1 # 1000) in
        let held := default 0%Z (positions p !! symbol) in
        if String.eqb side "BUY" then
          if Qgeb (cash p) (trade_value + fees) then
            record_trade
              (set_portfolio sim
                 (set_cash_position p (cash p - (trade_value + fees)) symbol
                                    (held + quantity)%Z))
              now symbol side quantity price fees
          else (sim, Some tt)
        else
          if (quantity <=? held)%Z then
            record_trade
              (set_portfolio sim
                 (set_cash_position p (cash p + (trade_value - fees)) symbol
                                    (held - quantity)%Z))
              now symbol side quantity price fees
          else (sim, Some tt)
  end.

End Dashboard.

(** The AAPL entry of the dashboard's asset table. *)
Definition dashboard_AAPL : Dashboard.Asset :=
  Dashboard.mkAsset (17550 # 100) 45000000 "stock" (17550 # 100) (523 # 10)
                    "Technology".

(** * Further definitions

    The parts of the two simulators that the statements of the second half
    of the development are about. *)

(** [n] prices on a line: [first + step * i] for [i] in [range(n)]. *)
Definition progression (first step : Q) (n : nat) : list Q :=
  map (fun i => first + step * inject_Z i) (range n).

(** ** Portfolio ledger ([update_portfolio_value], [_calculate_advanced_metrics],
    lines 441-501) *)

(** An entry of [performance_metrics]. *)
Record Snapshot := mkSnapshot {
  s_timestamp : Z;
  s_total_value : Q;
  s_cash : Q;
  s_daily_pnl : Q
}.

(** One turn of the loop over [positions.items()]: the running total after
    the entry [(symbol, quantity)]. *)
Definition add_position_value (market_data : gmap string MarketData)
    (symbol : string) (quantity : Z) (total_value : Q) : Q :=
  if negb (quantity =? 0)%Z then
    match market_data !! symbol with
    | Some data => total_value + inject_Z quantity * md_price data
    | None => total_value
    end
  else total_value.

(** The total value [update_portfolio_value] computes: cash plus every
    held position at its last tick price.  The loop runs in the
    dictionary's order and [map_fold] in the map's; the sum is the same
    rational in any order ([mark_to_market_insert] below never depends on
    it). *)
Definition mark_to_market (p : Portfolio) (market_data : gmap string MarketData) : Q :=
  map_fold (add_position_value market_data) (cash p) (positions p).

(** [statistics.mean] of a non-empty list. *)
Definition mean (xs : list Q) : Q := fsum xs / inject_Z (len xs).

(** The returns between consecutive total values, skipping the steps whose
    previous value is not positive; [prev] is the value before [rest]. *)
Fixpoint value_returns (prev : Q) (rest : list Q) : list Q :=
  match rest with
  | [] => []
  | curr :: rest' =>
      if Qgtb prev 0 then (curr - prev) / prev :: value_returns curr rest'
      else value_returns curr rest'
  end.

(** The drawdown loop over the total values, from the running [peak] and
    [max_dd]; [None] is the [ZeroDivisionError] of a zero peak. *)
Fixpoint drawdown_loop (values : list Q) (peak max_dd : Q) : option Q :=
  match values with
  | [] => Some max_dd
  | value :: rest =>
      let peak := if Qgtb value peak then value else peak in
      dd ← fdiv (peak - value) peak;
      drawdown_loop rest peak (py_max max_dd dd)
  end.

Definition set_sharpe (p : Portfolio) (sharpe : Q) : Portfolio :=
  mkPortfolio (cash p) (positions p) (total_value p) (daily_pnl p) (total_pnl p)
              sharpe (max_drawdown p) (win_rate p).

Definition set_drawdown_win_rate (p : Portfolio) (max_dd win_rate : Q) : Portfolio :=
  mkPortfolio (cash p) (positions p) (total_value p) (daily_pnl p) (total_pnl p)
              (sharpe_ratio p) max_dd win_rate.

(** [_calculate_advanced_metrics]: the portfolio afterwards, and [None]
    when the drawdown loop raises (the Sharpe ratio is stored by then). *)
Definition calculate_advanced_metrics (math_sqrt : Q -> Q) (p : Portfolio)
    (performance_metrics : list Snapshot) : Portfolio * option unit :=
  if (len performance_metrics <? 2)%Z then (p, Some tt)
  else
    let values := map s_total_value performance_metrics in
    let returns :=
      match values with
      | [] => []
      | first :: rest => value_returns first rest
      end in
    match returns with
    | [] => (p, Some tt)
    | _ =>
        let mean_return := mean returns in
        let std_return :=
          if (1 <? len returns)%Z then stdev math_sqrt returns else 0 in
        let sharpe := if Qgtb std_return 0 then mean_return / std_return else 0 in
        let p := set_sharpe p sharpe in
        match drawdown_loop values (hd 0 values) 0 with
        | None => (p, None)
        | Some max_dd =>
            let winning_days :=
              Z.of_nat (length (filter (fun r => Qgtb r 0 = true) returns)) in
            (set_drawdown_win_rate p max_dd
               (inject_Z winning_days / inject_Z (len returns)),
             Some tt)
        end
    end.

Definition set_value_pnl (p : Portfolio) (total_value daily_pnl : Q) : Portfolio :=
  mkPortfolio (cash p) (positions p) total_value daily_pnl (total_pnl p)
              (sharpe_ratio p) (max_drawdown p) (win_rate p).

(** [update_portfolio_value]: the simulator and [performance_metrics]
    afterwards, [now] being the clock reading. *)
Definition update_portfolio_value (math_sqrt : Q -> Q) (sim : Simulator)
    (performance_metrics : list Snapshot) (now : Z)
    : Simulator * list Snapshot * option unit :=
  let p := portfolio sim in
  let total_value := mark_to_market p (market_data sim) in
  let daily_pnl :=
    match last performance_metrics with
    | Some m => total_value - s_total_value m
    | None => 0
    end in
  let p := set_value_pnl p total_value daily_pnl in
  let performance_metrics :=
    performance_metrics ++ [mkSnapshot now total_value (cash p) daily_pnl] in
  let '(p, outcome) := calculate_advanced_metrics math_sqrt p performance_metrics in
  (set_portfolio sim p, performance_metrics, outcome).

(** ** The simulation step ([run_simulation_step], lines 503-546) *)

(** The simulator with its strategies and its performance history;
    [asset_order] is the order in which [self.assets] lists its symbols. *)
Record World := mkWorld {
  simulator : Simulator;
  strategies : gmap string (AdvancedVWAPStrategy * MeanReversionStrategy);
  performance_metrics : list Snapshot;
  asset_order : list string
}.

(** What a step reads from outside: per symbol the hour and the time at
    which its tick is generated and its draws, the time of its order, and
    the time of the closing snapshot. *)
Record StepInputs := mkStepInputs {
  hour_at : string -> Z;
  tick_time : string -> Z;
  draws_at : string -> Draws;
  order_time : string -> Z;
  snapshot_time : Z
}.

Definition set_market_data (sim : Simulator) (symbol : string) (data : MarketData)
    : Simulator :=
  mkSimulator (assets sim) (risk_manager sim) (portfolio sim) (trades sim)
              (<[symbol := data]> (market_data sim)) (running sim).

(** The first loop: a tick for every symbol. *)
Fixpoint generate_all (inputs : StepInputs) (symbols : list string) (sim : Simulator)
    : Simulator * option unit :=
  match symbols with
  | [] => (sim, Some tt)
  | symbol :: rest =>
      match generate_market_data sim (hour_at inputs symbol) (tick_time inputs symbol)
              (draws_at inputs symbol) symbol with
      | None => (sim, None)
      | Some (sim', tick) => generate_all inputs rest (set_market_data sim' symbol tick)
      end
  end.

(** The body of the second loop for one symbol. *)
Definition trade_symbol (math_sqrt : Q -> Q) (inputs : StepInputs) (symbol : string)
    (sim : Simulator)
    (strategies : gmap string (AdvancedVWAPStrategy * MeanReversionStrategy))
    : Simulator * gmap string (AdvancedVWAPStrategy * MeanReversionStrategy)
      * option unit :=
  match market_data sim !! symbol with
  | None => (sim, strategies, Some tt)
  | Some data =>
      match strategies !! symbol with
      | None => (sim, strategies, None)
      | Some (vwap, mean_reversion) =>
          let '(vwap', vwap_out) :=
            vwap_generate_signal math_sqrt vwap (md_price data) (md_volume data) in
          match vwap_out with
          | None => (sim, <[symbol := (vwap', mean_reversion)]> strategies, None)
          | Some (vwap_signal, vwap_confidence) =>
              let '(mean_reversion', mr_out) :=
                mr_generate_signal math_sqrt mean_reversion (md_price data) in
              let strategies := <[symbol := (vwap', mean_reversion')]> strategies in
              match mr_out with
              | None => (sim, strategies, None)
              | Some (mr_signal, mr_confidence) =>
                  let '(signal, confidence) :=
                    combine_signals vwap_signal vwap_confidence mr_signal
                                    mr_confidence in
                  let '(sim', outcome) :=
                    trade_on_signal sim (order_time inputs symbol) symbol data signal
                                    confidence in
                  (sim', strategies, outcome)
              end
          end
      end
  end.

(** The second loop. *)
Fixpoint trade_all (math_sqrt : Q -> Q) (inputs : StepInputs) (symbols : list string)
    (sim : Simulator)
    (strategies : gmap string (AdvancedVWAPStrategy * MeanReversionStrategy))
    : Simulator * gmap string (AdvancedVWAPStrategy * MeanReversionStrategy)
      * option unit :=
  match symbols with
  | [] => (sim, strategies, Some tt)
  | symbol :: rest =>
      match trade_symbol math_sqrt inputs symbol sim strategies with
      | (sim', strategies', Some _) => trade_all math_sqrt inputs rest sim' strategies'
      | stopped => stopped
      end
  end.

(** [run_simulation_step]: the world afterwards, and [None] when the step
    raises. *)
Definition run_simulation_step (math_sqrt : Q -> Q) (inputs : StepInputs) (w : World)
    : World * option unit :=
  if negb (running (simulator w)) then (w, Some tt)
  else
    match generate_all inputs (asset_order w) (simulator w) with
    | (sim, None) =>
        (mkWorld sim (strategies w) (performance_metrics w) (asset_order w), None)
    | (sim, Some _) =>
        match trade_all math_sqrt inputs (asset_order w) sim (strategies w) with
        | (sim, strats, None) =>
            (mkWorld sim strats (performance_metrics w) (asset_order w), None)
        | (sim, strats, Some _) =>
            let '(sim, metrics, outcome) :=
              update_portfolio_value math_sqrt sim (performance_metrics w)
                                     (snapshot_time inputs) in
            (mkWorld sim strats metrics (asset_order w), outcome)
        end
    end.

(** [start()] and [stop()]. *)
Definition set_running (w : World) (flag : bool) : World :=
  mkWorld (mkSimulator (assets (simulator w)) (risk_manager (simulator w))
                       (portfolio (simulator w)) (trades (simulator w))
                       (market_data (simulator w)) flag)
          (strategies w) (performance_metrics w) (asset_order w).

Definition start (w : World) : World := set_running w true.
Definition stop (w : World) : World := set_running w false.

(** [AdvancedTradingSimulator()]: the ten assets in the order of
    [_initialize_assets], a VWAP strategy (lookback 20) and a
    mean-reversion strategy (period 20, width 2.0) for each. *)
Definition initial_order : list string :=
  ["AAPL"; "MSFT"; "GOOGL"; "TSLA"; "BTC"; "ETH"; "EUR/USD"; "GBP/USD"; "GOLD";
   "SILVER"].

Definition AdvancedTradingSimulator_world : World :=
  mkWorld AdvancedTradingSimulator_init
          (list_to_map
             (map (fun symbol =>
                     (symbol, (AdvancedVWAPStrategy_init symbol 20,
                               MeanReversionStrategy_init symbol 20 2)))
                  initial_order))
          [] initial_order.

(** The books are sound: cash and positions are not negative, and no
    stored tick has a negative bid or ask. *)
Definition nonneg_ticks (market_data : gmap string MarketData) : Prop :=
  map_Forall (fun _ data => 0 <= md_bid data /\ 0 <= md_ask data) market_data.

(** Every asset has a base price that is not negative and a volatility in
    [0, 1]. *)
Definition assets_ok (assets : gmap string Asset) : Prop :=
  map_Forall (fun _ a => 0 <= base_price a /\ 0 <= volatility a <= 1) assets.

Definition healthy (sim : Simulator) : Prop :=
  solvent (portfolio sim) /\ nonneg_ticks (market_data sim) /\ assets_ok (assets sim).

(** No value is below the one before it. *)
Definition nondecreasing (values : list Q) : Prop :=
  forall i a b, values !! i = Some a -> values !! S i = Some b -> a <= b.

(** A short performance history: a dip and a recovery. *)
Definition three_snapshots : list Snapshot :=
  [mkSnapshot 0 1000000 1000000 0; mkSnapshot 1 990000 500000 (-10000);
   mkSnapshot 2 1010000 500000 20000].

(** Inputs of a quiet step: hour 10, every price draw one deviation down,
    every unit draw 1/2. *)
Definition quiet_inputs : StepInputs :=
  mkStepInputs (fun _ => 10%Z) (fun _ => 0%Z)
               (fun _ => mkDraws (-1) (1 # 2) (1 # 2) (1 # 2)) (fun _ => 1%Z) 2.

(** The dashboard's books are sound: cash and positions are not negative. *)
Definition dashboard_solvent (p : Dashboard.Portfolio) : Prop :=
  0 <= Dashboard.cash p /\
  map_Forall (fun _ q => (0 <= q)%Z) (Dashboard.positions p).

(** * Properties *)

(** ** Python arithmetic *)

Lemma Qltb_lt x y : Qltb x y = true <-> x < y.
Proof.
  unfold Qltb. rewrite negb_true_iff.
  split; intros H.
  - apply Qnot_le_lt. intros Hle. apply Qle_bool_iff in Hle. congruence.
  - apply not_true_is_false. intros Hle. apply Qle_bool_iff in Hle. lra.
Qed.

Lemma Qltb_ge x y : Qltb x y = false <-> y <= x.
Proof.
  unfold Qltb. rewrite negb_false_iff. apply Qle_bool_iff.
Qed.

Lemma fdiv_Some a b : ~ b == 0 -> fdiv a b = Some (a / b).
Proof.
  intros Hb. unfold fdiv.
  destruct (Qeq_bool b 0) eqn:E; [|reflexivity].
  apply Qeq_bool_iff in E. contradiction.
Qed.

(** ** Properties of the execution engine *)

Lemma held_nonneg p symbol : solvent p -> (0 <= held p symbol)%Z.
Proof.
  intros [_ Hpos]. unfold held.
  destruct (positions p !! symbol) as [q|] eqn:E; simpl; [|lia].
  exact (Hpos _ _ E).
Qed.

Lemma solvent_set_cash_position p c symbol q :
  solvent p -> 0 <= c -> (0 <= q)%Z -> solvent (set_cash_position p c symbol q).
Proof.
  intros [_ Hpos] Hc Hq. split; simpl; [exact Hc|].
  apply map_Forall_insert_2; assumption.
Qed.

Lemma trade_value_nonneg quantity price :
  (0 <= quantity)%Z -> 0 <= price -> 0 <= inject_Z quantity * price.
Proof.
  intros Hq Hp. apply Qmult_le_0_compat; [|exact Hp].
  change 0 with (inject_Z 0). rewrite <- Zle_Qle. exact Hq.
Qed.

Lemma check_position_limit_total rm symbol quantity price v :
  ~ v == 0 -> is_Some (check_position_limit rm symbol quantity price v).
Proof.
  intros Hv. unfold check_position_limit.
  rewrite (fdiv_Some _ _ Hv). simpl. eauto.
Qed.

(** C1 (refuted as stated). [execute_trade] checks no sign.  From books
    with cash >= 0 and no short position, a BUY of -5 units at 10 is
    executed and leaves a position of -5; a SELL of 5 held units at a price
    of -10 is executed and leaves cash at 10 - 49.95 < 0. *)
Lemma execute_trade_negative_order_not_solvent :
  (let sim := fresh_simulator RiskManager_default initial_portfolio in
   let out := execute_trade sim 0 "AAPL" "BUY" (-5) 10 "combined" in
   solvent (portfolio sim) /\ snd out = Some true /\
   positions (portfolio (fst out)) !! "AAPL" = Some (-5)%Z /\
   ~ solvent (portfolio (fst out))) /\
  (let p := mkPortfolio 10 {[ "AAPL" := 5%Z ]} 1000000 0 0 0 0 0 in
   let sim := fresh_simulator RiskManager_default p in
   let out := execute_trade sim 0 "AAPL" "SELL" 5 (-10) "combined" in
   solvent (portfolio sim) /\ snd out = Some true /\
   cash (portfolio (fst out)) == - (3995 # 100) /\
   ~ solvent (portfolio (fst out))).
Proof.
  split; cbv zeta.
  - split; [|split; [|split]].
    + split; simpl; [lra | apply map_Forall_empty].
    + vm_compute. reflexivity.
    + vm_compute. reflexivity.
    + intros [_ Hpos].
      assert (H : positions (portfolio (fst (execute_trade
                    (fresh_simulator RiskManager_default initial_portfolio)
                    0 "AAPL" "BUY" (-5) 10 "combined"))) !! "AAPL" = Some (-5)%Z)
        by (vm_compute; reflexivity).
      specialize (Hpos _ _ H). simpl in Hpos. lia.
  - split; [|split; [|split]].
    + split; simpl; [lra | apply map_Forall_singleton; lia].
    + vm_compute. reflexivity.
    + vm_compute. reflexivity.
    + intros [Hcash _]. revert Hcash. vm_compute. intros H. apply H. reflexivity.
Qed.

(** C1 (amended). From a state with cash >= 0 and every position >= 0, a
    call of execute_trade for a quantity and a price that are not negative
    leaves cash >= 0 and every position >= 0.  In every call, whatever the
    signs, a BUY whose trade value plus fees exceeds cash, and a SELL (any
    side other than BUY) of more than the held quantity, leave the simulator
    as it was and do not return True: they return False when the
    portfolio's total value is not zero, and raise the ZeroDivisionError of
    the position check when it is zero. *)
Theorem execute_trade_keeps_solvent sim now symbol side quantity price strategy :
  let trade_value := inject_Z quantity * price in
  let fees := trade_value * (1 # 1000) in
  let out := execute_trade sim now symbol side quantity price strategy in
  (solvent (portfolio sim) -> (0 <= quantity)%Z -> 0 <= price ->
     solvent (portfolio (fst out))) /\
  (side = "BUY" -> cash (portfolio sim) < trade_value + fees ->
     fst out = sim /\ snd out <> Some true /\
     (~ total_value (portfolio sim) == 0 -> snd out = Some false) /\
     (total_value (portfolio sim) == 0 -> snd out = None)) /\
  (side <> "BUY" -> (held (portfolio sim) symbol < quantity)%Z ->
     fst out = sim /\ snd out <> Some true /\
     (~ total_value (portfolio sim) == 0 -> snd out = Some false) /\
     (total_value (portfolio sim) == 0 -> snd out = None)).
Proof.
  cbv zeta.
  pose proof (check_position_limit_total (risk_manager sim) symbol quantity price
                (total_value (portfolio sim))) as Htot.
  assert (Hzero : total_value (portfolio sim) == 0 ->
                  check_position_limit (risk_manager sim) symbol quantity price
                    (total_value (portfolio sim)) = None).
  { intros Hz. unfold check_position_limit, fdiv.
    apply Qeq_bool_iff in Hz. rewrite Hz. reflexivity. }
  unfold execute_trade.
  set (trade_value := inject_Z quantity * price) in *.
  destruct (check_position_limit _ _ _ _ _) as [[|]|] eqn:Hlim; simpl.
  - destruct (String.eqb side "BUY") eqn:Hside.
    + apply String.eqb_eq in Hside.
      destruct (Qltb (cash (portfolio sim)) _) eqn:Hcash; simpl.
      * split; [tauto|]. split; intros; [|congruence].
        split; [reflexivity|]. split; [congruence|].
        split; [reflexivity|]. intros Hz. specialize (Hzero Hz). discriminate.
      * apply Qltb_ge in Hcash. split; [|split].
        -- intros Hsolv Hq Hp.
           pose proof (trade_value_nonneg _ _ Hq Hp) as Htv.
           pose proof (held_nonneg _ symbol Hsolv) as Hheld.
           fold trade_value in Htv.
           apply solvent_set_cash_position; [assumption | lra | lia].
        -- intros _ Hlt. lra.
        -- intros Hne. congruence.
    + apply String.eqb_neq in Hside.
      destruct (held (portfolio sim) symbol <? quantity)%Z eqn:Hh; simpl.
      * split; [tauto|]. split; intros; [congruence|].
        split; [reflexivity|]. split; [congruence|].
        split; [reflexivity|]. intros Hz. specialize (Hzero Hz). discriminate.
      * apply Z.ltb_ge in Hh. split; [|split].
        -- intros Hsolv Hq Hp.
           pose proof (trade_value_nonneg _ _ Hq Hp) as Htv.
           pose proof (proj1 Hsolv) as Hc.
           fold trade_value in Htv.
           apply solvent_set_cash_position; [assumption | lra | lia].
        -- intros Hb. congruence.
        -- intros _ Hlt. lia.
  - split; [tauto|].
    split; intros; (split; [reflexivity|]; split; [congruence|];
      split; [reflexivity|]; intros Hz; specialize (Hzero Hz); discriminate).
  - split; [tauto|].
    split; intros; (split; [reflexivity|]; split; [congruence|];
      split; [|reflexivity]; intros Hne; destruct (Htot Hne) as [? ?]; congruence).
Qed.

(** The scenario of the specification: cash 1,000,000, BUY 100 at 100 with
    the 0.1% commission. *)
Example execute_trade_buy_100_at_100 :
  let out := execute_trade (fresh_simulator RiskManager_default initial_portfolio)
               0 "AAPL" "BUY" 100 100 "combined" in
  snd out = Some true /\
  cash (portfolio (fst out)) == 989990 /\
  positions (portfolio (fst out)) !! "AAPL" = Some 100%Z /\
  (t_fees <$> trades (fst out)) = [10.000] /\
  (t_id <$> trades (fst out)) = ["T000001"].
Proof. vm_compute. repeat split; reflexivity. Qed.

Lemma execute_trade_keeps_solvent_witness :
  let p := mkPortfolio 5000 {[ "AAPL" := 50%Z ]} 1000000 0 0 0 0 0 in
  let sim := fresh_simulator RiskManager_default p in
  solvent (portfolio (fst (execute_trade sim 0 "AAPL" "BUY" 40 100 "combined"))) /\
  fst (execute_trade sim 0 "AAPL" "BUY" 80 100 "combined") = sim /\
  fst (execute_trade sim 0 "AAPL" "SELL" 80 100 "combined") = sim.
Proof.
  intros p sim.
  assert (Hs : solvent (portfolio sim)).
  { split; simpl; [lra|]. apply map_Forall_singleton. lia. }
  split; [|split].
  - destruct (execute_trade_keeps_solvent sim 0 "AAPL" "BUY" 40 100 "combined")
      as (Hsolvent & _ & _).
    apply Hsolvent; [exact Hs | lia | lra].
  - destruct (execute_trade_keeps_solvent sim 0 "AAPL" "BUY" 80 100 "combined")
      as (_ & Hbuy & _).
    apply Hbuy; [reflexivity | vm_compute; reflexivity].
  - destruct (execute_trade_keeps_solvent sim 0 "AAPL" "SELL" 80 100 "combined")
      as (_ & _ & Hsell).
    apply Hsell; [discriminate | vm_compute; reflexivity].
Defined.

(** A proposed trade above the position limit is turned down by the guard
    at the head of [execute_trade]. *)
Lemma check_position_limit_exceeded rm symbol quantity price v :
  0 < v -> max_position_size rm * v < Qabs (inject_Z quantity * price) ->
  check_position_limit rm symbol quantity price v = Some false.
Proof.
  intros Hv Hex. unfold check_position_limit.
  rewrite fdiv_Some by lra. simpl. f_equal.
  unfold Qleb. apply not_true_is_false. intros Hle.
  apply Qle_bool_iff in Hle.
  apply (Qlt_shift_div_l _ _ _ Hv) in Hex.
  exact (Qlt_not_le _ _ Hex Hle).
Qed.

(** C2 (refuted as stated). With total value 1,000,000 and
    max_position_size 0.15, a proposed BUY of 2000 at 100 (position value
    200,000) is not clipped to 150,000: execute_trade returns False, and
    neither cash, positions nor the trade log change. *)
Lemma position_limit_scenario_not_clipped :
  let sim := fresh_simulator (RiskManager_init (15 # 100) (3 # 100))
               initial_portfolio in
  let out := execute_trade sim 0 "AAPL" "BUY" 2000 100 "combined" in
  Qabs (inject_Z 2000 * 100) == 200000 /\
  snd out = Some false /\ fst out = sim /\ trades (fst out) = [] /\
  positions (portfolio (fst out)) !! "AAPL" = None.
Proof. vm_compute. repeat split; reflexivity. Qed.

(** C2 (amended). When |quantity * price| exceeds max_position_size times
    the (positive) total value, execute_trade rejects the trade outright:
    it returns False and the simulator, with its cash, positions and trade
    log, is unchanged. *)
Theorem execute_trade_rejects_over_position_limit
    sim now symbol side quantity price strategy :
  0 < total_value (portfolio sim) ->
  max_position_size (risk_manager sim) * total_value (portfolio sim)
    < Qabs (inject_Z quantity * price) ->
  execute_trade sim now symbol side quantity price strategy = (sim, Some false).
Proof.
  intros Hv Hex. unfold execute_trade.
  rewrite (check_position_limit_exceeded _ symbol _ _ _ Hv Hex). reflexivity.
Qed.

Lemma execute_trade_rejects_over_position_limit_witness :
  let sim := fresh_simulator (RiskManager_init (15 # 100) (3 # 100))
               initial_portfolio in
  execute_trade sim 0 "AAPL" "SELL" 2000 100 "combined" = (sim, Some false).
Proof.
  intros sim.
  apply (execute_trade_rejects_over_position_limit sim 0 "AAPL" "SELL" 2000 100
           "combined"); vm_compute; reflexivity.
Defined.

(** ** The gates that [execute_trade] does not consult *)

(** The outcome of [execute_trade] does not depend on the portfolio's
    daily P&L: the daily-loss gate is not part of it. *)
Lemma execute_trade_daily_pnl_irrelevant sim d now symbol side quantity price strategy :
  let out := execute_trade sim now symbol side quantity price strategy in
  let out_d := execute_trade (set_portfolio sim (set_daily_pnl (portfolio sim) d))
                 now symbol side quantity price strategy in
  snd out_d = snd out /\
  cash (portfolio (fst out_d)) = cash (portfolio (fst out)) /\
  positions (portfolio (fst out_d)) = positions (portfolio (fst out)) /\
  trades (fst out_d) = trades (fst out).
Proof.
  cbv zeta. unfold execute_trade. simpl.
  destruct (check_position_limit _ _ _ _ _) as [[|]|]; simpl; auto.
  destruct (String.eqb side "BUY").
  - destruct (Qltb _ _); simpl; auto.
  - change (held (set_daily_pnl (portfolio sim) d) symbol)
      with (held (portfolio sim) symbol).
    destruct (held _ _ <? quantity)%Z; simpl; auto.
Qed.

(** C3 (the code at the failing input). With daily_pnl = -40,000 on a
    1,000,000 portfolio and max_daily_loss = 0.03 the loss limit is
    exceeded, and check_daily_loss_limit says so, yet execute_trade
    executes a BUY of 100 at 100: it returns True, debits cash to 989,990,
    opens the position and records the trade. *)
Theorem execute_trade_trades_past_daily_loss_limit :
  let rm := RiskManager_init (15 # 100) (3 # 100) in
  let p := set_daily_pnl initial_portfolio (-40000) in
  let out := execute_trade (fresh_simulator rm p) 0 "AAPL" "BUY" 100 100 "combined" in
  daily_pnl p < - max_daily_loss rm * total_value p /\
  check_daily_loss_limit rm (daily_pnl p) = false /\
  snd out = Some true /\
  cash (portfolio (fst out)) == 989990 /\
  positions (portfolio (fst out)) !! "AAPL" = Some 100%Z /\
  length (trades (fst out)) = 1%nat.
Proof. vm_compute. repeat split; reflexivity. Qed.

(** The outcome of [execute_trade] does not depend on the asset table, the
    only place where correlations are stored. *)
Lemma execute_trade_assets_irrelevant sim A now symbol side quantity price strategy :
  let with_assets s :=
    mkSimulator A (risk_manager s) (portfolio s) (trades s) (market_data s)
                (running s) in
  let out := execute_trade sim now symbol side quantity price strategy in
  execute_trade (with_assets sim) now symbol side quantity price strategy
  = (with_assets (fst out), snd out).
Proof.
  cbv zeta. unfold execute_trade. simpl.
  destruct (check_position_limit _ _ _ _ _) as [[|]|]; simpl; auto.
  destruct (String.eqb side "BUY").
  - destruct (Qltb _ _); simpl; auto.
  - destruct (held _ _ <? quantity)%Z; simpl; auto.
Qed.

(** C4 (the code at the failing input). Holding 10 BTC, whose correlation
    with ETH is 0.8 > 0.7, check_correlation_risk refuses a new ETH
    position, yet execute_trade executes a BUY of 10 ETH at 3000: it
    returns True, debits cash and opens the position. *)
Theorem execute_trade_trades_correlated_symbol :
  let p := mkPortfolio 550000 {[ "BTC" := 10%Z ]} 1000000 0 0 0 0 0 in
  let sim := set_portfolio AdvancedTradingSimulator_init p in
  let out := execute_trade sim 0 "ETH" "BUY" 10 3000 "combined" in
  check_correlation_risk (risk_manager sim) "ETH" (positions p) (correlations sim)
    = false /\
  snd out = Some true /\
  cash (portfolio (fst out)) == 519970 /\
  positions (portfolio (fst out)) !! "ETH" = Some 10%Z /\
  positions (portfolio (fst out)) !! "BTC" = Some 10%Z /\
  length (trades (fst out)) = 1%nat.
Proof. vm_compute. repeat split; reflexivity. Qed.

(** The same at the level of the simulation step: holding 1000 GBP/USD
    (correlation 0.8 with EUR/USD), a fused BUY signal of confidence 0.5 on
    an EUR/USD tick places and executes an order for 500 EUR/USD. *)
Example trade_on_signal_trades_correlated_symbol :
  let p := mkPortfolio 998000 {[ "GBP/USD" := 1000%Z ]} 1000000 0 0 0 0 0 in
  let sim := set_portfolio AdvancedTradingSimulator_init p in
  let tick := mkMarketData "EUR/USD" (108 # 100) 100000 (109 # 100) (107 # 100)
                (108 # 100) 0 (10746 # 10000) (10854 # 10000) (108 # 10000) in
  let '(signal, confidence) := combine_signals "BUY" (1 # 2) "HOLD" 0 in
  let out := trade_on_signal sim 0 "EUR/USD" tick signal confidence in
  check_correlation_risk (risk_manager sim) "EUR/USD" (positions p) (correlations sim)
    = false /\
  snd out = Some tt /\
  positions (portfolio (fst out)) !! "EUR/USD" = Some 500%Z /\
  (t_quantity <$> trades (fst out)) = [500%Z].
Proof. vm_compute. repeat split; reflexivity. Qed.

(** What [check_correlation_risk] computes: it accepts exactly when no
    held symbol is correlated with the new one beyond the threshold. *)
Lemma check_correlation_risk_spec rm new_symbol (existing : gmap string Z) matrix :
  check_correlation_risk rm new_symbol existing matrix = true <->
  forall symbol q, existing !! symbol = Some q -> q <> 0%Z ->
    Qabs (default 0 (default ∅ (matrix !! new_symbol) !! symbol))
      <= correlation_threshold rm.
Proof.
  unfold check_correlation_risk. rewrite forallb_forall. split.
  - intros H symbol q Hq Hne.
    specialize (H (symbol, q)). simpl in H.
    assert (Hin : In (symbol, q) (map_to_list existing)).
    { apply list_elem_of_In, elem_of_map_to_list. exact Hq. }
    specialize (H Hin).
    destruct (q =? 0)%Z eqn:E; [apply Z.eqb_eq in E; contradiction|].
    simpl in H. apply negb_true_iff in H. apply Qltb_ge in H. exact H.
  - intros H [symbol q] Hin.
    apply list_elem_of_In, elem_of_map_to_list in Hin.
    destruct (q =? 0)%Z eqn:E; simpl; [reflexivity|].
    apply Z.eqb_neq in E. apply negb_true_iff, Qltb_ge. eauto.
Qed.

(** ** Market-data generator *)

(** C10. Every tick returned by generate_market_data carries its own
    price as open_price, which is also the base price the asset is left
    with; the call returns a tick for every symbol of the asset table (and
    raises KeyError for no other). *)
Theorem generate_market_data_open_price_is_price
    sim current_hour now rnd symbol :
  match generate_market_data sim current_hour now rnd symbol with
  | Some (sim', tick) =>
      open_price tick = md_price tick /\
      base_price <$> (assets sim' !! symbol) = Some (md_price tick) /\
      is_Some (assets sim !! symbol)
  | None => assets sim !! symbol = None
  end.
Proof.
  unfold generate_market_data.
  destruct (assets sim !! symbol) as [asset|] eqn:Ha; simpl; [|reflexivity].
  split; [reflexivity|]. split; [|eauto].
  rewrite lookup_insert_eq. reflexivity.
Qed.

(** The opening price of the move, the base price before the call, is not
    what the tick reports once the price has moved. *)
Example generate_market_data_open_price_AAPL :
  let out := generate_market_data AdvancedTradingSimulator_init 10 0
               (mkDraws (-2) (1 # 2) (1 # 2) (1 # 2)) "AAPL" in
  (base_price <$> assets AdvancedTradingSimulator_init !! "AAPL") = Some 150 /\
  (md_price ∘ snd <$> out) = Some 149.2500 /\
  (open_price ∘ snd <$> out) = Some 149.2500.
Proof. vm_compute. repeat split; reflexivity. Qed.

(** C5 (the code at the failing input). For a stock whose base price is
    1.0, during market hours, a price draw two standard deviations down
    gives a tick price, and a stored base price, of 0.991 < 1.0:
    generate_market_data applies no floor. *)
Theorem generate_market_data_stock_below_floor :
  let penny := mkAsset "TSLA" "Tesla Inc." STOCK 1 (45 # 100) ∅ (9, 16)%Z (-5) in
  let sim := set_asset AdvancedTradingSimulator_init "TSLA" penny in
  let out := generate_market_data sim 10 0 (mkDraws (-2) (1 # 2) (1 # 2) (1 # 2))
               "TSLA" in
  exists sim' tick,
    out = Some (sim', tick) /\
    asset_type penny = STOCK /\
    md_price tick == 991 # 1000 /\ md_price tick < 1 /\
    (exists a, assets sim' !! "TSLA" = Some a /\ base_price a < 1).
Proof.
  eexists _, _. split; [reflexivity|].
  split; [reflexivity|]. split; [reflexivity|]. split; [reflexivity|].
  eexists. split; [vm_compute; reflexivity | reflexivity].
Qed.

(** ** Sums *)

Lemma fold_left_Qplus_acc xs a : fold_left Qplus xs a == a + fsum xs.
Proof.
  unfold fsum. revert a. induction xs as [|x xs IH]; intros a; simpl.
  - lra.
  - rewrite (IH (a + x)), (IH (0 + x)). lra.
Qed.

Lemma fsum_cons x xs : fsum (x :: xs) == x + fsum xs.
Proof. unfold fsum at 1. simpl. rewrite fold_left_Qplus_acc. lra. Qed.

Lemma fsum_nil : fsum [] = 0.
Proof. reflexivity. Qed.

Lemma fold_left_Zadd_acc xs a : (fold_left Z.add xs a = a + isum xs)%Z.
Proof.
  unfold isum. revert a. induction xs as [|x xs IH]; intros a; simpl.
  - lia.
  - rewrite (IH (a + x)%Z), (IH (0 + x)%Z). lia.
Qed.

Lemma isum_cons x xs : (isum (x :: xs) = x + isum xs)%Z.
Proof. unfold isum at 1. simpl. rewrite fold_left_Zadd_acc. lia. Qed.

Lemma fsum_nonneg xs : Forall (fun x => 0 <= x) xs -> 0 <= fsum xs.
Proof.
  induction 1 as [|x xs Hx _ IH]; [discriminate|].
  rewrite fsum_cons. lra.
Qed.

Lemma fsum_pos xs : xs <> [] -> Forall (fun x => 0 < x) xs -> 0 < fsum xs.
Proof.
  intros Hne H. destruct H as [|x xs Hx Hxs]; [congruence|].
  rewrite fsum_cons.
  assert (0 <= fsum xs).
  { apply fsum_nonneg. eapply Forall_impl; [exact Hxs|]. simpl. intros. lra. }
  lra.
Qed.

Lemma fsum_zero xs : Forall (fun x => x == 0) xs -> fsum xs == 0.
Proof.
  induction 1 as [|x xs Hx _ IH]; [reflexivity|].
  rewrite fsum_cons, Hx, IH. lra.
Qed.

(** ** VWAP *)

Lemma total_pv_constant p prices volumes :
  Forall (fun x => x == p) prices -> length prices = length volumes ->
  fsum (zip_with (fun p v => p * inject_Z v) prices volumes)
  == p * inject_Z (isum volumes).
Proof.
  intros H. revert volumes.
  induction H as [|x prices Hx _ IH]; intros [|v volumes] Hlen;
    try discriminate; simpl.
  - change (inject_Z (isum [])) with 0. rewrite fsum_nil. lra.
  - rewrite fsum_cons, isum_cons, inject_Z_plus, IH, Hx by (simpl in Hlen; lia).
    lra.
Qed.

(** C7 (refuted as stated). For the constant prices 100, ..., 100 of the
    specification's scenario and volumes that are all zero, calculate_vwap
    returns 0, not 100. *)
Lemma calculate_vwap_constant_zero_volume :
  calculate_vwap [100; 100; 100; 100; 100] [0; 0; 0; 0; 0]%Z == 0 /\
  ~ calculate_vwap [100; 100; 100; 100; 100] [0; 0; 0; 0; 0]%Z == 100.
Proof. split; vm_compute; [reflexivity | discriminate]. Qed.

(** C7 (amended). For every constant price sequence whose elements all
    equal p and every volume sequence of the same length, calculate_vwap
    equals p when the total volume is positive, and 0 otherwise. *)
Theorem calculate_vwap_constant p prices volumes :
  Forall (fun x => x == p) prices -> length prices = length volumes ->
  calculate_vwap prices volumes == if (0 <? isum volumes)%Z then p else 0.
Proof.
  intros Hp Hlen. unfold calculate_vwap.
  destruct prices as [|x prices]; [|destruct volumes as [|v volumes]].
  - destruct volumes; [|discriminate]. reflexivity.
  - discriminate.
  - destruct (0 <? isum (v :: volumes))%Z eqn:Hvol; [|reflexivity].
    apply Z.ltb_lt in Hvol.
    rewrite (total_pv_constant p) by assumption.
    field. change 0 with (inject_Z 0). rewrite inject_Z_injective. lia.
Qed.

Lemma calculate_vwap_constant_witness :
  calculate_vwap [100; 100; 100; 100; 100] [1; 1; 1; 1; 1]%Z == 100.
Proof.
  exact (calculate_vwap_constant 100 [100; 100; 100; 100; 100] [1; 1; 1; 1; 1]%Z
           ltac:(repeat constructor) eq_refl).
Defined.

(** ** Slices and price changes *)

Lemma py_slice_from_Forall {A} (P : A -> Prop) k (l : list A) :
  Forall P l -> Forall P (py_slice_from k l).
Proof. intros H. unfold py_slice_from. apply Forall_drop. exact H. Qed.

Lemma py_slice_from_last_length {A} k (l : list A) :
  (0 < k)%Z -> (k <= len l)%Z -> length (py_slice_from (- k) l) = Z.to_nat k.
Proof.
  intros Hk Hlen. unfold py_slice_from, len in *.
  destruct (- k <? 0)%Z eqn:E; [|apply Z.ltb_ge in E; lia].
  rewrite length_drop. lia.
Qed.

Lemma changes_cons a b tl : changes (a :: b :: tl) = (b - a) :: changes (b :: tl).
Proof. reflexivity. Qed.

Lemma changes_length prices : length (changes prices) = (length prices - 1)%nat.
Proof.
  unfold changes. rewrite length_zip_with.
  destruct prices as [|a tl]; [reflexivity|].
  cbn [tail length]. lia.
Qed.

Lemma strictly_increasing_changes prices :
  strictly_increasing prices -> Forall (fun c => 0 < c) (changes prices).
Proof.
  induction prices as [|a [|b tl] IH]; intros H; try constructor.
  - specialize (H 0%nat a b eq_refl eq_refl). lra.
  - apply IH. intros i x y Hx Hy. exact (H (S i) x y Hx Hy).
Qed.

Lemma strictly_decreasing_changes prices :
  strictly_decreasing prices -> Forall (fun c => c < 0) (changes prices).
Proof.
  induction prices as [|a [|b tl] IH]; intros H; try constructor.
  - specialize (H 0%nat a b eq_refl eq_refl). lra.
  - apply IH. intros i x y Hx Hy. exact (H (S i) x y Hx Hy).
Qed.

Lemma Qgtb_pos c : 0 < c -> Qgtb c 0 = true.
Proof. intros H. apply Qltb_lt. exact H. Qed.

Lemma Qgtb_nonpos c : c <= 0 -> Qgtb c 0 = false.
Proof. intros H. apply Qltb_ge. exact H. Qed.

Lemma gain_of_nonneg c : 0 <= gain_of c.
Proof.
  unfold gain_of. destruct (Qgtb c 0) eqn:E; [|lra].
  apply Qltb_lt in E. lra.
Qed.

Lemma loss_of_nonneg c : 0 <= loss_of c.
Proof.
  unfold loss_of. destruct (Qgtb c 0); [lra | apply Qabs_nonneg].
Qed.

Lemma losses_of_rises cs :
  Forall (fun c => 0 < c) cs -> Forall (fun x => x == 0) (map loss_of cs).
Proof.
  intros H. apply Forall_map. eapply Forall_impl; [exact H|].
  intros c Hc. cbv beta in *. unfold loss_of. rewrite Qgtb_pos by exact Hc. reflexivity.
Qed.

Lemma gains_of_falls cs :
  Forall (fun c => c < 0) cs -> Forall (fun x => x == 0) (map gain_of cs).
Proof.
  intros H. apply Forall_map. eapply Forall_impl; [exact H|].
  intros c Hc. cbv beta in *. unfold gain_of. rewrite Qgtb_nonpos by lra. reflexivity.
Qed.

Lemma losses_of_falls cs :
  Forall (fun c => c < 0) cs -> Forall (fun x => 0 < x) (map loss_of cs).
Proof.
  intros H. apply Forall_map. eapply Forall_impl; [exact H|].
  intros c Hc. cbv beta in *. unfold loss_of. rewrite Qgtb_nonpos by lra.
  rewrite Qabs_neg by lra. lra.
Qed.

Lemma inject_Z_nonzero k : k <> 0%Z -> ~ inject_Z k == 0.
Proof.
  intros Hk H. unfold Qeq in H. simpl in H. lia.
Qed.

Lemma inject_Z_pos k : (0 < k)%Z -> 0 < inject_Z k.
Proof. intros Hk. change 0 with (inject_Z 0). rewrite <- Zlt_Qlt. exact Hk. Qed.

(** ** RSI *)

Lemma calculate_rsi_no_loss prices period :
  (0 < period)%Z -> (period + 1 <= len prices)%Z ->
  fsum (py_slice_from (- period) (map loss_of (changes prices)))
    / inject_Z period == 0 ->
  calculate_rsi prices period = Some 100.
Proof.
  intros Hp Hlen Hloss. unfold calculate_rsi.
  destruct (len prices <? period + 1)%Z eqn:E; [apply Z.ltb_lt in E; lia|].
  rewrite !fdiv_Some by (apply inject_Z_nonzero; lia). simpl.
  apply Qeq_bool_iff in Hloss. rewrite Hloss. reflexivity.
Qed.

Lemma calculate_rsi_increasing prices period :
  (0 < period)%Z -> (period + 1 <= len prices)%Z ->
  strictly_increasing prices -> calculate_rsi prices period = Some 100.
Proof.
  intros Hp Hlen Hinc. apply calculate_rsi_no_loss; try assumption.
  rewrite fsum_zero; [field; apply inject_Z_nonzero; lia|].
  apply py_slice_from_Forall, losses_of_rises, strictly_increasing_changes.
  exact Hinc.
Qed.

Lemma calculate_rsi_decreasing prices period :
  (0 < period)%Z -> (period + 1 <= len prices)%Z ->
  strictly_decreasing prices ->
  exists r, calculate_rsi prices period = Some r /\ r == 0.
Proof.
  intros Hp Hlen Hdec. unfold calculate_rsi.
  destruct (len prices <? period + 1)%Z eqn:E; [apply Z.ltb_lt in E; lia|].
  pose proof (strictly_decreasing_changes _ Hdec) as Hch.
  set (gains := py_slice_from (- period) (map gain_of (changes prices))).
  set (losses := py_slice_from (- period) (map loss_of (changes prices))).
  assert (Hg : fsum gains == 0).
  { apply fsum_zero, py_slice_from_Forall, gains_of_falls, Hch. }
  assert (Hl : 0 < fsum losses).
  { apply fsum_pos.
    - intros Hnil. apply (f_equal length) in Hnil. subst losses.
      rewrite py_slice_from_last_length in Hnil; [simpl in Hnil; lia|lia|].
      unfold len in *. rewrite length_map, changes_length. lia.
    - apply py_slice_from_Forall, losses_of_falls, Hch. }
  pose proof (inject_Z_pos _ Hp) as Hpq.
  rewrite !fdiv_Some by lra. simpl.
  assert (Havg : 0 < fsum losses / inject_Z period).
  { apply Qlt_shift_div_l; lra. }
  destruct (Qeq_bool (fsum losses / inject_Z period) 0) eqn:Hz.
  { apply Qeq_bool_iff in Hz. lra. }
  rewrite fdiv_Some by lra. simpl.
  assert (Hrs : fsum gains / inject_Z period / (fsum losses / inject_Z period) == 0).
  { rewrite Hg. field. split; lra. }
  rewrite fdiv_Some by (rewrite Hrs; lra). simpl.
  eexists. split; [reflexivity|]. rewrite Hrs. reflexivity.
Qed.

Lemma unit_steps_increasing first n : strictly_increasing (unit_steps first n).
Proof.
  intros i a b Ha Hb. unfold unit_steps, range in *.
  rewrite !list_lookup_fmap in Ha, Hb.
  destruct (seq 0 n !! i) as [x|] eqn:Hx; [|discriminate].
  destruct (seq 0 n !! S i) as [y|] eqn:Hy; [|discriminate].
  apply lookup_seq in Hx, Hy. simpl in *.
  injection Ha as <-. injection Hb as <-.
  rewrite <- Zlt_Qlt. lia.
Qed.

(** C6. With fewer than period+1 prices calculate_rsi returns 50. With at
    least period+1 prices (period positive) it returns 100 when the
    trailing average loss is 0, hence for every strictly increasing
    sequence, and a value equal to 0 for every strictly decreasing one;
    15 unit-step increasing prices give 100 with the default period 14. *)
Theorem calculate_rsi_cases prices period :
  ((len prices < period + 1)%Z -> calculate_rsi prices period = Some 50) /\
  ((0 < period)%Z -> (period + 1 <= len prices)%Z ->
     (fsum (py_slice_from (- period) (map loss_of (changes prices)))
        / inject_Z period == 0 ->
      calculate_rsi prices period = Some 100) /\
     (strictly_increasing prices -> calculate_rsi prices period = Some 100) /\
     (strictly_decreasing prices ->
      exists r, calculate_rsi prices period = Some r /\ r == 0)) /\
  (forall first, calculate_rsi (unit_steps first 15) 14 = Some 100).
Proof.
  split; [|split].
  - intros Hlen. unfold calculate_rsi.
    apply Z.ltb_lt in Hlen. rewrite Hlen. reflexivity.
  - intros Hp Hlen. split; [|split].
    + apply calculate_rsi_no_loss; assumption.
    + apply calculate_rsi_increasing; assumption.
    + apply calculate_rsi_decreasing; assumption.
  - intros first. apply calculate_rsi_increasing.
    + lia.
    + unfold len, unit_steps, range. rewrite !length_map, length_seq. lia.
    + apply unit_steps_increasing.
Qed.

Lemma calculate_rsi_cases_witness :
  calculate_rsi [3; 2; 1] 14 = Some 50 /\
  calculate_rsi [1; 2; 3] 2 = Some 100 /\
  (exists r, calculate_rsi [3; 2; 1] 2 = Some r /\ r == 0).
Proof.
  split; [|split].
  - apply (proj1 (calculate_rsi_cases [3; 2; 1] 14)). reflexivity.
  - destruct (calculate_rsi_cases [1; 2; 3] 2) as (_ & H & _).
    apply H; [reflexivity | discriminate |].
    intros [|[|[|i]]] a b Ha Hb; simpl in *; try discriminate;
      injection Ha as <-; injection Hb as <-; reflexivity.
  - destruct (calculate_rsi_cases [3; 2; 1] 2) as (_ & H & _).
    apply H; [reflexivity | discriminate |].
    intros [|[|[|i]]] a b Ha Hb; simpl in *; try discriminate;
      injection Ha as <-; injection Hb as <-; reflexivity.
Defined.

(** ** Bollinger bands *)

Lemma sqrt_floor_nonneg x : 0 <= sqrt_floor x.
Proof.
  unfold sqrt_floor, Qle. simpl. pose proof (Z.sqrt_nonneg (Qnum x * Z.pos (Qden x) * 4 ^ 52)).
  lia.
Qed.

Lemma sq_nonneg x : 0 <= sq x.
Proof. unfold sq. nra. Qed.

Lemma fdiv_len_Some a {A} (l : list A) :
  l <> [] -> fdiv a (inject_Z (len l)) = Some (a / inject_Z (len l)).
Proof.
  intros Hl. apply fdiv_Some, inject_Z_nonzero. unfold len.
  destruct l; [congruence|]. simpl. lia.
Qed.

Section Bollinger.
Variable math_sqrt : Q -> Q.
Hypothesis math_sqrt_nonneg : forall x, 0 <= x -> 0 <= math_sqrt x.

(** The bands around a non-empty window. *)
Lemma bollinger_window s prices :
  (0 < period s)%Z -> (period s <= len prices)%Z ->
  let recent := py_slice_from (- period s) prices in
  let n := inject_Z (len recent) in
  let sma := fsum recent / n in
  let std := math_sqrt (fsum (map (fun p => sq (p - sma)) recent) / n) in
  recent <> [] /\ 0 <= std /\
  calculate_bollinger_bands math_sqrt s prices
  = Some (sma + std_dev s * std, sma, sma - std_dev s * std).
Proof.
  intros Hp Hlen recent n sma std.
  assert (Hne : recent <> []).
  { intros Hnil. apply (f_equal length) in Hnil. subst recent.
    rewrite py_slice_from_last_length in Hnil by assumption.
    simpl in Hnil. lia. }
  assert (Hn : 0 < n).
  { subst n. apply inject_Z_pos. unfold len. destruct recent; [congruence|].
    simpl. lia. }
  split; [exact Hne|]. split.
  - apply math_sqrt_nonneg. apply Qle_shift_div_l; [exact Hn|].
    rewrite Qmult_0_l. apply fsum_nonneg, Forall_map, Forall_forall.
    intros p _. apply sq_nonneg.
  - unfold calculate_bollinger_bands.
    destruct (len prices <? period s)%Z eqn:E; [apply Z.ltb_lt in E; lia|].
    fold recent. rewrite fdiv_len_Some by exact Hne. simpl.
    rewrite fdiv_len_Some by exact Hne. reflexivity.
Qed.
End Bollinger.

(** C8. For every list of prices (period positive, band width std_dev not
    negative, any root function that is not negative), calculate_bollinger_bands
    returns a triple (upper, middle, lower) with upper >= middle >= lower;
    with fewer than period prices the triple is (0, 0, 0). *)
Theorem calculate_bollinger_bands_ordered math_sqrt s prices :
  (forall x, 0 <= x -> 0 <= math_sqrt x) ->
  (0 < period s)%Z -> 0 <= std_dev s ->
  exists upper middle lower,
    calculate_bollinger_bands math_sqrt s prices = Some (upper, middle, lower) /\
    lower <= middle /\ middle <= upper /\
    ((len prices < period s)%Z -> (upper, middle, lower) = (0, 0, 0)).
Proof.
  intros Hsqrt Hp Hk.
  destruct (Z.lt_ge_cases (len prices) (period s)) as [Hshort|Hlong].
  - exists 0, 0, 0. unfold calculate_bollinger_bands.
    apply Z.ltb_lt in Hshort. rewrite Hshort.
    repeat split; [discriminate | discriminate].
  - destruct (bollinger_window math_sqrt Hsqrt s prices Hp Hlong)
      as (_ & Hstd & Heq).
    eexists _, _, _. split; [exact Heq|].
    assert (0 <= std_dev s * math_sqrt
              (fsum (map (fun p => sq (p - fsum (py_slice_from (- period s) prices)
                                          / inject_Z (len (py_slice_from (- period s) prices))))
                         (py_slice_from (- period s) prices))
               / inject_Z (len (py_slice_from (- period s) prices))))
      by (apply Qmult_le_0_compat; assumption).
    repeat split; try lra. intros Hshort. lia.
Qed.

Lemma calculate_bollinger_bands_ordered_witness :
  exists upper middle lower,
    calculate_bollinger_bands sqrt_floor (MeanReversionStrategy_init "AAPL" 20 2)
      (unit_steps 100 25) = Some (upper, middle, lower) /\
    lower <= middle /\ middle <= upper.
Proof.
  destruct (calculate_bollinger_bands_ordered sqrt_floor
              (MeanReversionStrategy_init "AAPL" 20 2) (unit_steps 100 25)
              (fun x _ => sqrt_floor_nonneg x) eq_refl ltac:(discriminate))
    as (u & m & l & Heq & Hlm & Hmu & _).
  exists u, m, l. auto.
Defined.

(** ** Momentum: the regression denominator *)

Lemma isum_app xs ys : (isum (xs ++ ys) = isum xs + isum ys)%Z.
Proof.
  unfold isum. rewrite fold_left_app, fold_left_Zadd_acc. reflexivity.
Qed.

Lemma range_S n : range (S n) = range n ++ [Z.of_nat n].
Proof. unfold range. rewrite seq_S, map_app. reflexivity. Qed.

Lemma sum_range n : (2 * isum (range n) = Z.of_nat n * (Z.of_nat n - 1))%Z.
Proof.
  induction n as [|n IH]; [reflexivity|].
  rewrite range_S, isum_app, isum_cons. change (isum []) with 0%Z. nia.
Qed.

Lemma sum_range_squares n :
  (6 * isum (map (fun xi => xi ^ 2) (range n))
   = (Z.of_nat n - 1) * Z.of_nat n * (2 * Z.of_nat n - 1))%Z.
Proof.
  induction n as [|n IH]; [reflexivity|].
  rewrite range_S, map_app, isum_app. simpl map. rewrite isum_cons.
  change (isum []) with 0%Z. nia.
Qed.

Lemma regression_denominator n :
  (2 <= n)%nat ->
  let x := range n in
  (0 < len x * isum (map (fun xi => xi ^ 2) x) - isum x ^ 2)%Z.
Proof.
  intros Hn x. subst x. unfold len, range at 1. rewrite length_map, length_seq.
  pose proof (sum_range n) as H1. pose proof (sum_range_squares n) as H2.
  set (s1 := isum (range n)) in *.
  set (s2 := isum (map (fun xi => (xi ^ 2)%Z) (range n))) in *.
  assert (H : (12 * (Z.of_nat n * s2 - s1 ^ 2)
               = Z.of_nat n * Z.of_nat n * (Z.of_nat n - 1) * (Z.of_nat n + 1))%Z)
    by nia.
  assert (0 < Z.of_nat n * Z.of_nat n * (Z.of_nat n - 1) * (Z.of_nat n + 1))%Z
    by (repeat apply Z.mul_pos_pos; lia).
  lia.
Qed.

Lemma calculate_momentum_total prices : is_Some (calculate_momentum prices).
Proof.
  unfold calculate_momentum.
  destruct (len prices <? 5)%Z eqn:E; [eauto|].
  apply Z.ltb_ge in E. unfold len in E.
  rewrite fdiv_Some; [eauto|].
  apply inject_Z_nonzero.
  pose proof (regression_denominator (length prices) ltac:(lia)) as H.
  simpl in H. lia.
Qed.

(** ** Volatility *)

Lemma returns_from_total prev rest :
  ~ prev == 0 -> Forall (fun p => ~ p == 0) rest -> is_Some (returns_from prev rest).
Proof.
  intros Hprev H. revert prev Hprev.
  induction H as [|p rest Hp _ IH]; intros prev Hprev; simpl; [eauto|].
  rewrite fdiv_Some by exact Hprev. simpl.
  destruct (IH p Hp) as [rs ->]. simpl. eauto.
Qed.

Lemma calculate_volatility_total math_sqrt prices :
  Forall (fun p => 0 < p) prices -> is_Some (calculate_volatility math_sqrt prices).
Proof.
  intros H. unfold calculate_volatility.
  destruct (len prices <? 2)%Z; [eauto|].
  destruct H as [|p0 rest Hp0 Hrest]; simpl; [eauto|].
  destruct (returns_from_total p0 rest) as [rs ->]; simpl; [lra| |eauto].
  eapply Forall_impl; [exact Hrest|]. cbv beta. intros. lra.
Qed.

Lemma calculate_volatility_nonneg math_sqrt prices v :
  (forall x, 0 <= x -> 0 <= math_sqrt x) ->
  calculate_volatility math_sqrt prices = Some v -> 0 <= v.
Proof.
  intros Hsqrt. unfold calculate_volatility.
  destruct (len prices <? 2)%Z; [intros [= <-]; lra|].
  destruct (match prices with [] => Some [] | p0 :: rest => returns_from p0 rest end)
    as [rs|]; simpl; [|discriminate].
  intros [= <-]. destruct (1 <? len rs)%Z eqn:Hrs; [|lra].
  apply Z.ltb_lt in Hrs. unfold stdev. apply Hsqrt.
  apply Qle_shift_div_l; [apply inject_Z_pos; lia|].
  rewrite Qmult_0_l. apply fsum_nonneg, Forall_map, Forall_forall.
  intros x _. apply sq_nonneg.
Qed.

(** ** The VWAP strategy *)

Lemma vwap_score_total current_price vwap momentum volatility :
  is_Some (vwap_score current_price vwap momentum volatility).
Proof.
  unfold vwap_score.
  assert (H1 : is_Some (if Qgtb vwap 0 then fdiv (current_price - vwap) vwap
                        else Some 0)).
  { destruct (Qgtb vwap 0) eqn:Hv; [|eauto].
    apply Qltb_lt in Hv. rewrite fdiv_Some by lra. eauto. }
  assert (H2 : is_Some (if Qgtb current_price 0 then fdiv momentum current_price
                        else Some 0)).
  { destruct (Qgtb current_price 0) eqn:Hc; [|eauto].
    apply Qltb_lt in Hc. rewrite fdiv_Some by lra. eauto. }
  assert (H3 : is_Some (if Qgtb volatility 0 then fdiv 1 (1 + volatility * 100)
                        else Some 1)).
  { destruct (Qgtb volatility 0) eqn:Hs; [|eauto].
    apply Qltb_lt in Hs. rewrite fdiv_Some by lra. eauto. }
  destruct H1 as [x1 ->], H2 as [x2 ->], H3 as [x3 ->]. simpl. eauto.
Qed.

Lemma vwap_history_positive s current_price current_volume :
  Forall (fun p => 0 < p) (vw_price_history s) -> 0 < current_price ->
  Forall (fun p => 0 < p)
    (vw_price_history (vwap_trim (vwap_append s current_price current_volume))).
Proof.
  intros Hh Hc.
  assert (H : Forall (fun p => 0 < p) (vw_price_history s ++ [current_price])).
  { apply Forall_app. split; [exact Hh|]. constructor; [exact Hc|constructor]. }
  unfold vwap_trim. simpl.
  destruct (lookback_period s <? len (vw_price_history s ++ [current_price]))%Z;
    simpl; [|exact H].
  unfold pop0. destruct (vw_price_history s ++ [current_price]); simpl;
    [constructor|]. inversion H; assumption.
Qed.

Lemma vwap_generate_signal_nonneg math_sqrt s current_price current_volume
    action confidence :
  snd (vwap_generate_signal math_sqrt s current_price current_volume)
    = Some (action, confidence) ->
  0 <= confidence.
Proof.
  unfold vwap_generate_signal.
  destruct (len _ <? 5)%Z; simpl.
  { intros [= _ <-]. lra. }
  destruct (calculate_momentum _) as [momentum|]; simpl; [|discriminate].
  destruct (calculate_volatility _ _) as [vol|]; simpl; [|discriminate].
  destruct (vwap_score _ _ _ _) as [score|]; simpl; [|discriminate].
  destruct (Qltb score _); [|destruct (Qgtb score _)]; simpl;
    intros [= _ <-]; apply Qabs_nonneg.
Qed.

Lemma vwap_generate_signal_total math_sqrt s current_price current_volume :
  Forall (fun p => 0 < p) (vw_price_history s) -> 0 < current_price ->
  is_Some (snd (vwap_generate_signal math_sqrt s current_price current_volume)).
Proof.
  intros Hh Hc.
  pose proof (vwap_history_positive s current_price current_volume Hh Hc) as Hpos.
  unfold vwap_generate_signal.
  set (s1 := vwap_trim (vwap_append s current_price current_volume)) in *.
  destruct (len (vw_price_history s1) <? 5)%Z; simpl; [eauto|].
  destruct (calculate_momentum_total (vw_price_history s1)) as [m ->]. simpl.
  destruct (calculate_volatility_total math_sqrt (vw_price_history s1) Hpos)
    as [v ->]. simpl.
  destruct (vwap_score_total current_price
              (calculate_vwap (vw_price_history s1) (volume_history s1)) m v)
    as [score ->]. simpl.
  destruct (Qltb score _); [|destruct (Qgtb score _)]; simpl; eauto.
Qed.

(** What the last lines of the VWAP strategy return: HOLD at 0 during the
    warm-up, afterwards the action read off the score and the absolute
    value of the score as confidence. *)
Lemma vwap_generate_signal_score math_sqrt s current_price current_volume
    action confidence :
  let out := vwap_generate_signal math_sqrt s current_price current_volume in
  let prices := vw_price_history (fst out) in
  let volumes := volume_history (fst out) in
  snd out = Some (action, confidence) ->
  ((len prices < 5)%Z /\ action = "HOLD" /\ confidence = 0) \/
  ((5 <= len prices)%Z /\
   exists momentum volatility score,
     calculate_momentum prices = Some momentum /\
     calculate_volatility math_sqrt prices = Some volatility /\
     vwap_score current_price (calculate_vwap prices volumes) momentum volatility
       = Some score /\
     confidence = Qabs score /\
     action = (if Qltb score (- (2 # 100)) then "BUY"
               else if Qgtb score (2 # 100) then "SELL" else "HOLD")).
Proof.
  cbv zeta. unfold vwap_generate_signal.
  set (s1 := vwap_trim (vwap_append s current_price current_volume)).
  destruct (len (vw_price_history s1) <? 5)%Z eqn:Hwarm; simpl.
  { intros [= <- <-]. left. apply Z.ltb_lt in Hwarm. auto. }
  apply Z.ltb_ge in Hwarm.
  destruct (calculate_momentum (vw_price_history s1)) as [momentum|] eqn:Hm; simpl;
    [|discriminate].
  destruct (calculate_volatility math_sqrt (vw_price_history s1)) as [volatility|]
    eqn:Hv; simpl; [|discriminate].
  destruct (vwap_score current_price _ momentum volatility) as [score|] eqn:Hs; simpl;
    [|discriminate].
  destruct (Qltb score (- (2 # 100))) eqn:Hbuy;
    [|destruct (Qgtb score (2 # 100)) eqn:Hsell];
    simpl; intros [= <- <-]; right; (split; [exact Hwarm|]);
    exists momentum, volatility, score; rewrite Hbuy, ?Hsell; auto.
Qed.

(** Four ticks at 1 and then one at 10: the price deviation alone weighs
    0.4 * 18/7 > 1, whatever the root function makes of the volatility. *)
Lemma vwap_generate_signal_above_one math_sqrt :
  (forall x, 0 <= x -> 0 <= math_sqrt x) ->
  exists confidence,
    snd (vwap_generate_signal math_sqrt
           (mkVWAP "AAPL" 20 [1; 1; 1; 1] [1; 1; 1; 1]%Z [] [] [] 0) 10 1)
    = Some ("SELL", confidence) /\ 1 < confidence.
Proof.
  intros Hsqrt. unfold vwap_generate_signal.
  set (s1 := vwap_trim _).
  assert (Hs1 : s1 = mkVWAP "AAPL" 20 [1; 1; 1; 1; 10] [1; 1; 1; 1; 1]%Z [] [] [] 0)
    by reflexivity.
  clearbody s1. subst s1.
  cbn [vw_price_history volume_history vwap_log].
  set (prices := [1; 1; 1; 1; 10]).
  set (volumes := [1; 1; 1; 1; 1]%Z).
  replace (len prices <? 5)%Z with false by reflexivity.
  assert (Hm : exists m, calculate_momentum prices = Some m /\ m == 9 # 5)
    by (eexists; split; [vm_compute; reflexivity | reflexivity]).
  destruct Hm as (m & -> & Hm).
  destruct (calculate_volatility_total math_sqrt prices) as [v Hv];
    [repeat constructor|].
  pose proof (calculate_volatility_nonneg math_sqrt prices v Hsqrt Hv) as Hv0.
  rewrite Hv. clear Hv.
  assert (Hvwap : calculate_vwap prices volumes == 14 # 5) by reflexivity.
  set (vwap := calculate_vwap prices volumes) in *. clearbody vwap.
  unfold vwap_score.
  replace (Qgtb vwap 0) with true by (symmetry; apply Qltb_lt; lra).
  rewrite (fdiv_Some (10 - vwap) vwap) by lra.
  replace (Qgtb 10 0) with true by reflexivity.
  rewrite (fdiv_Some m 10) by lra. simpl.
  assert (Hdev : (10 - vwap) / vwap == 18 # 7) by (rewrite Hvwap; reflexivity).
  assert (Hmf : m / 10 == 9 # 50) by (rewrite Hm; reflexivity).
  set (dev := (10 - vwap) / vwap) in *. set (mf := m / 10) in *.
  clearbody dev mf.
  assert (Hvf : exists vf,
            (if Qgtb v 0 then fdiv 1 (1 + v * 100) else Some 1) = Some vf /\ 0 <= vf).
  { destruct (Qgtb v 0).
    - rewrite fdiv_Some by lra. eexists. split; [reflexivity|].
      apply Qle_shift_div_l; lra.
    - exists 1. split; [reflexivity | lra]. }
  destruct Hvf as (vf & -> & Hvf). simpl.
  set (score := dev * (4 # 10) + mf * (4 # 10) + vf * (2 # 10)).
  assert (Hscore : 11 # 10 < score) by (subst score; lra).
  replace (Qltb score (- (2 # 100))) with false by (symmetry; apply Qltb_ge; lra).
  replace (Qgtb score (2 # 100)) with true by (symmetry; apply Qltb_lt; lra).
  exists (Qabs score). split; [reflexivity|].
  pose proof (Qle_Qabs score). lra.
Qed.

(** ** RSI is defined and stays in [0, 100] *)

Lemma calculate_rsi_range prices period :
  (0 < period)%Z ->
  exists r, calculate_rsi prices period = Some r /\ 0 <= r <= 100.
Proof.
  intros Hp. unfold calculate_rsi.
  destruct (len prices <? period + 1)%Z.
  { exists 50. split; [reflexivity | lra]. }
  pose proof (inject_Z_pos _ Hp) as Hpq.
  set (G := fsum (py_slice_from (- period) (map gain_of (changes prices)))).
  set (L := fsum (py_slice_from (- period) (map loss_of (changes prices)))).
  assert (HG : 0 <= G).
  { apply fsum_nonneg, py_slice_from_Forall, Forall_map, Forall_forall.
    intros c _. apply gain_of_nonneg. }
  assert (HL : 0 <= L).
  { apply fsum_nonneg, py_slice_from_Forall, Forall_map, Forall_forall.
    intros c _. apply loss_of_nonneg. }
  rewrite (fdiv_Some G) by lra. simpl. rewrite (fdiv_Some L) by lra. simpl.
  assert (Hag : 0 <= G / inject_Z period) by (apply Qle_shift_div_l; lra).
  assert (Hal : 0 <= L / inject_Z period) by (apply Qle_shift_div_l; lra).
  destruct (Qeq_bool (L / inject_Z period) 0) eqn:Hz.
  { exists 100. split; [reflexivity | lra]. }
  assert (Hnz : ~ L / inject_Z period == 0).
  { intros H. apply Qeq_bool_iff in H. congruence. }
  rewrite fdiv_Some by exact Hnz. simpl.
  set (rs := G / inject_Z period / (L / inject_Z period)).
  assert (Hrs : 0 <= rs) by (apply Qle_shift_div_l; lra).
  rewrite fdiv_Some by lra. simpl.
  eexists. split; [reflexivity|].
  assert (0 <= 100 / (1 + rs)) by (apply Qle_shift_div_l; lra).
  assert (100 / (1 + rs) <= 100) by (apply Qle_shift_div_r; nra).
  lra.
Qed.

(** ** The mean-reversion strategy *)

Lemma py_min_one_bounds x : 0 <= x -> 0 <= py_min 1 x <= 1.
Proof.
  intros Hx. unfold py_min. destruct (Qltb x 1) eqn:E.
  - apply Qltb_lt in E. lra.
  - lra.
Qed.

Lemma pop0_Forall {A} (P : A -> Prop) (l : list A) : Forall P l -> Forall P (pop0 l).
Proof. intros H. destruct H; simpl; [constructor | assumption]. Qed.

Section MeanReversion.
Variable math_sqrt : Q -> Q.
Hypothesis math_sqrt_nonneg : forall x, 0 <= x -> 0 <= math_sqrt x.

Lemma mr_generate_signal_bounds s current_price :
  (0 < period s)%Z -> 0 <= std_dev s ->
  Forall (fun p => 0 < p) (mr_price_history s) -> 0 < current_price ->
  exists action confidence,
    snd (mr_generate_signal math_sqrt s current_price) = Some (action, confidence)
    /\ 0 <= confidence <= 1.
Proof.
  intros Hp Hk Hh Hc. unfold mr_generate_signal.
  set (history := if (period s * 2 <? len (mr_price_history s ++ [current_price]))%Z
                  then pop0 (mr_price_history s ++ [current_price])
                  else mr_price_history s ++ [current_price]).
  assert (Hpos : Forall (fun p => 0 < p) history).
  { assert (H : Forall (fun p => 0 < p) (mr_price_history s ++ [current_price])).
    { apply Forall_app. split; [exact Hh|]. constructor; [exact Hc|constructor]. }
    subst history. destruct (_ <? _)%Z; [apply pop0_Forall|]; exact H. }
  change (period (mr_store s history [])) with (period s).
  destruct (len history <? period s)%Z eqn:Hlen.
  { exists "HOLD", 0. split; [reflexivity | lra]. }
  apply Z.ltb_ge in Hlen.
  destruct (bollinger_window math_sqrt math_sqrt_nonneg
              (mr_store s history []) history Hp Hlen) as (Hne & Hstd & Hbb).
  rewrite Hbb. clear Hbb.
  change (period (mr_store s history [])) with (period s) in *.
  change (std_dev (mr_store s history [])) with (std_dev s) in *.
  set (recent := py_slice_from (- period s) history) in *.
  set (sma := fsum recent / inject_Z (len recent)) in *.
  set (std := math_sqrt (fsum (map (fun p => sq (p - sma)) recent)
                         / inject_Z (len recent))) in *.
  assert (Hsma : 0 < sma).
  { subst sma. apply Qlt_shift_div_l.
    - apply inject_Z_pos. unfold len. destruct recent; [congruence|]. simpl. lia.
    - rewrite Qmult_0_l. apply fsum_pos; [exact Hne|].
      subst recent. apply py_slice_from_Forall. exact Hpos. }
  assert (Hband : 0 <= std_dev s * std) by (apply Qmult_le_0_compat; assumption).
  destruct (calculate_rsi_range history 14 eq_refl) as (rsi & -> & _). simpl.
  set (upper := sma + std_dev s * std) in *.
  set (lower := sma - std_dev s * std) in *.
  assert (Hpp : is_Some (if negb (Qeq_bool upper lower)
                         then fdiv (current_price - lower) (upper - lower)
                         else Some (1 # 2))).
  { destruct (Qeq_bool upper lower) eqn:E; simpl; [eauto|].
    rewrite fdiv_Some; [eauto|]. intros H.
    assert (Heq : upper == lower) by lra.
    apply Qeq_bool_iff in Heq. congruence. }
  destruct Hpp as [pp ->]. simpl.
  destruct (Qltb current_price lower && Qltb rsi 30) eqn:Hbuy.
  - apply andb_true_iff in Hbuy. destruct Hbuy as [Hlow _].
    apply Qltb_lt in Hlow.
    rewrite (fdiv_Some (lower - current_price) lower) by lra. simpl.
    eexists _, _. split; [reflexivity|].
    apply py_min_one_bounds.
    assert (0 <= (lower - current_price) / lower)
      by (apply Qle_shift_div_l; lra).
    lra.
  - destruct (Qgtb current_price upper && Qgtb rsi 70) eqn:Hsell.
    + apply andb_true_iff in Hsell. destruct Hsell as [Hup _].
      apply Qltb_lt in Hup.
      assert (Hup0 : 0 < upper) by (subst upper; lra).
      rewrite (fdiv_Some (current_price - upper) upper) by lra. simpl.
      eexists _, _. split; [reflexivity|].
      apply py_min_one_bounds.
      assert (0 <= (current_price - upper) / upper)
        by (apply Qle_shift_div_l; lra).
      lra.
    + exists "HOLD", 0. split; [reflexivity | lra].
Qed.

(** The same bounds for whatever the call returns, whatever the period. *)
Lemma mr_generate_signal_returned s current_price action confidence :
  0 <= std_dev s ->
  Forall (fun p => 0 < p) (mr_price_history s) -> 0 < current_price ->
  snd (mr_generate_signal math_sqrt s current_price) = Some (action, confidence) ->
  0 <= confidence <= 1.
Proof.
  intros Hk Hh Hc. unfold mr_generate_signal.
  set (history := if (period s * 2 <? len (mr_price_history s ++ [current_price]))%Z
                  then pop0 (mr_price_history s ++ [current_price])
                  else mr_price_history s ++ [current_price]).
  assert (Hpos : Forall (fun p => 0 < p) history).
  { assert (H : Forall (fun p => 0 < p) (mr_price_history s ++ [current_price])).
    { apply Forall_app. split; [exact Hh|]. constructor; [exact Hc|constructor]. }
    subst history. destruct (_ <? _)%Z; [apply pop0_Forall|]; exact H. }
  change (period (mr_store s history [])) with (period s).
  destruct (len history <? period s)%Z eqn:Hlen.
  { simpl. intros [= _ <-]. lra. }
  unfold calculate_bollinger_bands.
  change (period (mr_store s history [])) with (period s).
  change (std_dev (mr_store s history [])) with (std_dev s).
  rewrite Hlen.
  set (recent := py_slice_from (- period s) history).
  assert (Hrecent : Forall (fun p => 0 < p) recent)
    by (subst recent; apply py_slice_from_Forall; exact Hpos).
  assert (Hcases : recent = [] \/ recent <> [])
    by (destruct recent; [left | right]; congruence).
  destruct Hcases as [Hnil|Hne].
  { rewrite Hnil. change (fdiv (fsum []) (inject_Z (len (@nil Q)))) with (@None Q).
    simpl. discriminate. }
  rewrite fdiv_len_Some by exact Hne. simpl.
  rewrite fdiv_len_Some by exact Hne. simpl.
  set (sma := fsum recent / inject_Z (len recent)) in *.
  set (std := math_sqrt (fsum (map (fun p => sq (p - sma)) recent)
                         / inject_Z (len recent))) in *.
  assert (Hn : 0 < inject_Z (len recent)).
  { apply inject_Z_pos. unfold len. destruct recent; [congruence|]. simpl. lia. }
  assert (Hsma : 0 < sma).
  { subst sma. apply Qlt_shift_div_l; [exact Hn|].
    rewrite Qmult_0_l. apply fsum_pos; assumption. }
  assert (Hstd : 0 <= std).
  { apply math_sqrt_nonneg. apply Qle_shift_div_l; [exact Hn|].
    rewrite Qmult_0_l. apply fsum_nonneg, Forall_map, Forall_forall.
    intros p _. apply sq_nonneg. }
  assert (Hband : 0 <= std_dev s * std) by (apply Qmult_le_0_compat; assumption).
  destruct (calculate_rsi_range history 14 eq_refl) as (rsi & -> & _). simpl.
  set (upper := sma + std_dev s * std) in *.
  set (lower := sma - std_dev s * std) in *.
  destruct (if negb (Qeq_bool upper lower)
            then fdiv (current_price - lower) (upper - lower)
            else Some (1 # 2)) as [pp|]; simpl; [|discriminate].
  destruct (Qltb current_price lower && Qltb rsi 30) eqn:Hbuy.
  - apply andb_true_iff in Hbuy. destruct Hbuy as [Hlow _].
    apply Qltb_lt in Hlow.
    rewrite (fdiv_Some (lower - current_price) lower) by lra. simpl.
    intros [= _ <-]. apply py_min_one_bounds.
    assert (0 <= (lower - current_price) / lower)
      by (apply Qle_shift_div_l; lra).
    lra.
  - destruct (Qgtb current_price upper && Qgtb rsi 70) eqn:Hsell.
    + apply andb_true_iff in Hsell. destruct Hsell as [Hup _].
      apply Qltb_lt in Hup.
      assert (Hup0 : 0 < upper) by (subst upper; lra).
      rewrite (fdiv_Some (current_price - upper) upper) by lra. simpl.
      intros [= _ <-]. apply py_min_one_bounds.
      assert (0 <= (current_price - upper) / upper)
        by (apply Qle_shift_div_l; lra).
      lra.
    + intros [= _ <-]. lra.
Qed.
End MeanReversion.

(** ** Confidence of the strategies' signals *)

(** C9 (refuted as stated). A fresh VWAP strategy fed four ticks at price
    1 and then one at price 10 (volume 1 each) answers the fifth with SELL
    at a confidence above 1 (434488/394625, about 1.10). *)
Lemma vwap_generate_signal_confidence_above_one :
  exists confidence,
    vwap_signals sqrt_floor (AdvancedVWAPStrategy_init "AAPL" 20)
      [(1, 1%Z); (1, 1%Z); (1, 1%Z); (1, 1%Z); (10, 1%Z)]
    = [Some ("HOLD", 0); Some ("HOLD", 0); Some ("HOLD", 0); Some ("HOLD", 0);
       Some ("SELL", confidence)]
    /\ confidence == 434488 # 394625 /\ ~ (0 <= confidence <= 1).
Proof.
  eexists. split; [vm_compute; reflexivity|].
  split; [reflexivity|]. intros [_ H]. revert H. vm_compute. intros H. apply H.
  reflexivity.
Qed.

(** C9 (amended). Every pair returned by
    MeanReversionStrategy.generate_signal on positive prices, for a std_dev
    that is not negative, has a confidence in [0, 1], and for a positive
    period a pair is returned.  Every pair returned by
    AdvancedVWAPStrategy.generate_signal has a confidence that is not
    negative: it is HOLD at 0 while fewer than five prices are stored, and
    otherwise the confidence is the absolute value of the score
    0.4 * price_deviation + 0.4 * momentum_factor + 0.2 * vol_factor, the
    action being BUY below -0.02, SELL above 0.02 and HOLD in between; on
    positive prices a pair is returned.  That confidence is not capped:
    some input makes it exceed 1. *)
Theorem signal_confidence_bounds math_sqrt :
  (forall x, 0 <= x -> 0 <= math_sqrt x) ->
  (forall s current_price current_volume,
     let out := vwap_generate_signal math_sqrt s current_price current_volume in
     let prices := vw_price_history (fst out) in
     let volumes := volume_history (fst out) in
     (forall action confidence,
        snd out = Some (action, confidence) ->
        0 <= confidence /\
        (((len prices < 5)%Z /\ action = "HOLD" /\ confidence = 0) \/
         ((5 <= len prices)%Z /\
          exists momentum volatility score,
            calculate_momentum prices = Some momentum /\
            calculate_volatility math_sqrt prices = Some volatility /\
            vwap_score current_price (calculate_vwap prices volumes) momentum
              volatility = Some score /\
            confidence = Qabs score /\
            action = (if Qltb score (- (2 # 100)) then "BUY"
                      else if Qgtb score (2 # 100) then "SELL" else "HOLD")))) /\
     (Forall (fun p => 0 < p) (vw_price_history s) -> 0 < current_price ->
      is_Some (snd out)))
  /\
  (exists s current_price current_volume action confidence,
     snd (vwap_generate_signal math_sqrt s current_price current_volume)
       = Some (action, confidence) /\ 1 < confidence)
  /\
  (forall s current_price,
     0 <= std_dev s ->
     Forall (fun p => 0 < p) (mr_price_history s) -> 0 < current_price ->
     (forall action confidence,
        snd (mr_generate_signal math_sqrt s current_price) = Some (action, confidence) ->
        0 <= confidence <= 1) /\
     ((0 < period s)%Z ->
      is_Some (snd (mr_generate_signal math_sqrt s current_price)))).
Proof.
  intros Hsqrt. split; [|split].
  - intros s current_price current_volume. cbv zeta. split.
    + intros action confidence Hout. split.
      * exact (vwap_generate_signal_nonneg _ _ _ _ _ _ Hout).
      * exact (vwap_generate_signal_score _ _ _ _ _ _ Hout).
    + apply vwap_generate_signal_total.
  - destruct (vwap_generate_signal_above_one math_sqrt Hsqrt) as (confidence & H1 & H2).
    eexists _, _, _, _, _. split; [exact H1 | exact H2].
  - intros s current_price Hk Hh Hc. split.
    + intros action confidence.
      apply (mr_generate_signal_returned math_sqrt Hsqrt); assumption.
    + intros Hp.
      destruct (mr_generate_signal_bounds math_sqrt Hsqrt s current_price Hp Hk Hh Hc)
        as (action & confidence & Hout & _).
      rewrite Hout. eauto.
Qed.

Lemma signal_confidence_bounds_witness :
  is_Some (snd (vwap_generate_signal sqrt_floor
                  (mkVWAP "AAPL" 20 [1; 1; 1; 1] [1; 1; 1; 1]%Z [] [] [] 0) 10 1))
  /\
  (forall action confidence,
     snd (mr_generate_signal sqrt_floor
            (mkMR "AAPL" 20 2 (unit_steps 100 19) []) 90) = Some (action, confidence) ->
     0 <= confidence <= 1)
  /\
  is_Some (snd (mr_generate_signal sqrt_floor
                  (mkMR "AAPL" 20 2 (unit_steps 100 19) []) 90)).
Proof.
  destruct (signal_confidence_bounds sqrt_floor (fun x _ => sqrt_floor_nonneg x))
    as (Hvwap & _ & Hmr).
  split.
  - apply (Hvwap (mkVWAP "AAPL" 20 [1; 1; 1; 1] [1; 1; 1; 1]%Z [] [] [] 0) 10 1%Z);
      [repeat constructor | reflexivity].
  - destruct (Hmr (mkMR "AAPL" 20 2 (unit_steps 100 19) []) 90)
      as [Hbounds Hreturns]; [discriminate | repeat constructor | reflexivity |].
    split; [exact Hbounds | apply Hreturns; reflexivity].
Defined.

(** Outside those conditions the mean-reversion confidence leaves [0, 1]:
    with std_dev = -10 the upper band of the prices 1, ..., 20 is negative
    and the SELL confidence with it; on negative prices the lower band is
    negative and the BUY confidence with it. *)
Example mr_generate_signal_negative_std_dev :
  exists confidence,
    snd (mr_generate_signal sqrt_floor (mkMR "AAPL" 20 (-10) (unit_steps 1 19) []) 20)
    = Some ("SELL", confidence) /\ confidence < 0.
Proof. eexists. split; [vm_compute; reflexivity | reflexivity]. Qed.

Example mr_generate_signal_negative_prices :
  exists confidence,
    snd (mr_generate_signal sqrt_floor
           (mkMR "AAPL" 20 2 (replicate 19 (-100)) []) (-250))
    = Some ("BUY", confidence) /\ confidence < 0.
Proof. eexists. split; [vm_compute; reflexivity | reflexivity]. Qed.

(** A mean-reversion BUY: nineteen prices at 100, then a drop to 50. *)
Example mr_generate_signal_buy :
  exists confidence,
    snd (mr_generate_signal sqrt_floor (mkMR "AAPL" 20 2 (replicate 19 100) []) 50)
    = Some ("BUY", confidence) /\ 67 # 100 < confidence < 68 # 100.
Proof. eexists. split; [vm_compute; reflexivity|]. split; reflexivity. Qed.

(** ** The dashboard's simulator: floor, clipping and daily-loss gate *)

Lemma py_max_ge a b : b <= py_max a b /\ a <= py_max a b.
Proof.
  unfold py_max, Qgtb. destruct (Qltb a b) eqn:E.
  - apply Qltb_lt in E. lra.
  - apply Qltb_ge in E. lra.
Qed.

(** The dashboard's price update floors a stock at 1.0 and a crypto asset
    at 0.01, whatever the draws. *)
Lemma dashboard_new_price_floor sentiment asset r z :
  (Dashboard.type asset = "stock" -> 1 <= Dashboard.new_price sentiment asset r z) /\
  (Dashboard.type asset = "crypto" ->
     1 # 100 <= Dashboard.new_price sentiment asset r z).
Proof.
  unfold Dashboard.new_price. split; intros ->; simpl; apply py_max_ge.
Qed.

Lemma py_int_floor x : 0 <= x -> (0 <= py_int x)%Z /\ inject_Z (py_int x) <= x.
Proof.
  destruct x as [n d]. unfold Qle, py_int. simpl. intros Hn.
  assert (Hn' : (0 <= n)%Z) by lia.
  rewrite Z.quot_div_nonneg by lia.
  split.
  - apply Z.div_pos; lia.
  - rewrite Z.mul_1_r. rewrite Z.mul_comm. apply Z.mul_div_le. lia.
Qed.

(** The dashboard clips an oversized order: the clipped quantity is worth
    at most max_position_size times the total value. *)
Lemma dashboard_clip_quantity_bound p quantity price :
  0 < price ->
  0 <= Dashboard.total_value p * Dashboard.max_position_size p ->
  Dashboard.total_value p * Dashboard.max_position_size p
    < Qabs (inject_Z quantity * price) ->
  exists clipped,
    Dashboard.clip_quantity p quantity price = Some clipped /\
    clipped = py_int (Dashboard.total_value p * Dashboard.max_position_size p / price)
    /\ (0 <= clipped)%Z /\
    inject_Z clipped * price
      <= Dashboard.total_value p * Dashboard.max_position_size p.
Proof.
  intros Hprice Hcap Hover. unfold Dashboard.clip_quantity.
  apply Qltb_lt in Hover. unfold Qgtb. rewrite Hover.
  rewrite fdiv_Some by lra. simpl.
  set (cap := Dashboard.total_value p * Dashboard.max_position_size p) in *.
  assert (Hx : 0 <= cap / price) by (apply Qle_shift_div_l; lra).
  destruct (py_int_floor _ Hx) as [H0 Hfloor].
  eexists. split; [reflexivity|]. split; [reflexivity|]. split; [exact H0|].
  apply (Qmult_le_compat_r _ _ price) in Hfloor; [|lra].
  assert (Hcancel : cap / price * price == cap) by (field; lra).
  lra.
Qed.

(** The clipping scenario on the dashboard: total value 1,000,000,
    max_position_size 0.15, a proposed BUY of 2000 at 100 (200,000) is
    executed for 1500 (150,000). *)
Example dashboard_execute_trade_clips :
  let sim := Dashboard.mkTradingSimulator {[ "AAPL" := dashboard_AAPL ]}
               Dashboard.initial_portfolio 0 "neutral" in
  let out := Dashboard.execute_trade sim 0 "AAPL" "BUY" 2000 100 in
  Dashboard.positions (Dashboard.portfolio (fst out)) !! "AAPL" = Some 1500%Z /\
  (Dashboard.quantity <$> Dashboard.trades (Dashboard.portfolio (fst out)))
    = [1500%Z] /\
  Dashboard.cash (Dashboard.portfolio (fst out)) == 849850.
Proof. vm_compute. repeat split; reflexivity. Qed.

(** The dashboard's daily-loss gate: past the limit, [_execute_trade]
    changes nothing. *)
Lemma dashboard_execute_trade_daily_loss sim now symbol side quantity price :
  Dashboard.daily_pnl (Dashboard.portfolio sim)
    < - Dashboard.total_value (Dashboard.portfolio sim)
      * Dashboard.daily_loss_limit (Dashboard.portfolio sim) ->
  fst (Dashboard.execute_trade sim now symbol side quantity price) = sim.
Proof.
  intros Hloss. unfold Dashboard.execute_trade.
  destruct (Dashboard.clip_quantity _ _ _); [|reflexivity].
  apply Qltb_lt in Hloss. rewrite Hloss. reflexivity.
Qed.

Example dashboard_execute_trade_daily_loss_scenario :
  let p := Dashboard.mkPortfolio 1000000 1000000 (-40000) ∅ [] (15 # 100) (3 # 100) in
  let sim := Dashboard.mkTradingSimulator {[ "AAPL" := dashboard_AAPL ]} p 0
               "neutral" in
  Dashboard.execute_trade sim 0 "AAPL" "BUY" 100 100 = (sim, Some tt).
Proof. vm_compute. reflexivity. Qed.

(** ** Outside the domain of the statements above *)

(** With a portfolio of total value 0 the position check divides by zero. *)
Example execute_trade_zero_total_value :
  let p := mkPortfolio 0 ∅ 0 0 0 0 0 0 in
  execute_trade (fresh_simulator RiskManager_default p) 0 "AAPL" "BUY" 1 10
    "combined"
  = (fresh_simulator RiskManager_default p, None).
Proof. vm_compute. reflexivity. Qed.

(** [calculate_rsi] with period 0 divides by zero once a price is there. *)
Example calculate_rsi_zero_period : calculate_rsi [1; 2; 3] 0 = None.
Proof. reflexivity. Qed.

(** A negative band width turns the bands over. *)
Example calculate_bollinger_bands_negative_width :
  exists upper middle lower,
    calculate_bollinger_bands sqrt_floor (MeanReversionStrategy_init "AAPL" 2 (-1))
      [1; 3] = Some (upper, middle, lower) /\ upper < middle /\ middle < lower.
Proof. eexists _, _, _. split; [vm_compute; reflexivity|]. split; reflexivity. Qed.

(** * Further properties of the code *)

(** ** Execution engine: what a call does to the books *)

(** Case analysis along the guards of [execute_trade]. *)
Ltac execute_trade_cases :=
  unfold execute_trade;
  destruct (check_position_limit _ _ _ _ _) as [[|]|] eqn:Hlimit; simpl;
  [ destruct (String.eqb _ "BUY") eqn:Hside;
    [ destruct (Qltb _ _) eqn:Hfunds | destruct (_ <? _)%Z eqn:Hheld ];
    simpl
  | | ].

Lemma execute_trade_records_iff_applied_aux sim now symbol side quantity price strategy :
  let out := execute_trade sim now symbol side quantity price strategy in
  (snd out = Some true /\
   trades (fst out)
   = trades sim
     ++ [mkTrade (trade_id (length (trades sim) + 1)) symbol side quantity price
                 now strategy 0 (inject_Z quantity * price * (1 # 1000))])
  \/ (snd out <> Some true /\ fst out = sim).
Proof.
  cbv zeta. execute_trade_cases;
    solve [ left; split; reflexivity
          | right; split; [congruence | reflexivity] ].
Qed.

(** X1. A trade is recorded exactly when it is applied.  Either the call
    returns True, the log grows by the one trade it describes (next id,
    fee of 0.1%, pnl 0) and the books move by exactly that trade: cash by
    minus the signed quantity times the price minus the fee, the symbol's
    position by the signed quantity (the quantity for a BUY, its opposite
    for any other side), every other position and every other field of the
    portfolio and of the simulator staying as it was.  Or the call does not
    return True and the simulator, log and books alike, is as before. *)
Theorem execute_trade_records_iff_applied sim now symbol side quantity price strategy :
  let out := execute_trade sim now symbol side quantity price strategy in
  let p := portfolio sim in
  let p' := portfolio (fst out) in
  let trade := mkTrade (trade_id (length (trades sim) + 1)) symbol side quantity price
                 now strategy 0 (inject_Z quantity * price * (1 # 1000)) in
  let signed := if String.eqb side "BUY" then quantity else (- quantity)%Z in
  (snd out = Some true /\
   trades (fst out) = trades sim ++ [trade] /\
   cash p' == cash p - inject_Z signed * t_price trade - t_fees trade /\
   positions p' = <[symbol := (held p symbol + signed)%Z]> (positions p) /\
   (total_value p' = total_value p /\ daily_pnl p' = daily_pnl p /\
    total_pnl p' = total_pnl p /\ sharpe_ratio p' = sharpe_ratio p /\
    max_drawdown p' = max_drawdown p /\ win_rate p' = win_rate p) /\
   (assets (fst out) = assets sim /\ risk_manager (fst out) = risk_manager sim /\
    market_data (fst out) = market_data sim /\ running (fst out) = running sim))
  \/ (snd out <> Some true /\ fst out = sim).
Proof.
  cbv zeta. unfold execute_trade.
  destruct (check_position_limit _ _ _ _ _) as [[|]|]; simpl;
    [|right; split; [congruence | reflexivity]..].
  destruct (String.eqb side "BUY") eqn:Hside.
  - destruct (Qltb _ _); simpl; [right; split; [congruence | reflexivity]|].
    left. split; [reflexivity|]. split; [reflexivity|].
    split; [ring|]. split; [reflexivity|]. split; repeat split; reflexivity.
  - destruct (_ <? _)%Z; simpl; [right; split; [congruence | reflexivity]|].
    left. split; [reflexivity|]. split; [reflexivity|].
    split; [rewrite inject_Z_opp; ring|].
    split; [reflexivity|]. split; repeat split; reflexivity.
Qed.

(** X2. The accounting of an executed trade: a BUY had the cash for value
    plus fee, debits exactly that and adds the quantity to the symbol's
    position; any other side (SELL) had the position, credits value minus
    fee and subtracts the quantity; no other position changes. *)
Theorem execute_trade_accounting sim now symbol side quantity price strategy :
  let out := execute_trade sim now symbol side quantity price strategy in
  let p := portfolio sim in
  let p' := portfolio (fst out) in
  let trade_value := inject_Z quantity * price in
  snd out = Some true ->
  (forall other, other <> symbol -> positions p' !! other = positions p !! other) /\
  (side = "BUY" ->
     trade_value * (1001 # 1000) <= cash p /\
     cash p' == cash p - trade_value * (1001 # 1000) /\
     held p' symbol = (held p symbol + quantity)%Z) /\
  (side <> "BUY" ->
     (quantity <= held p symbol)%Z /\
     cash p' == cash p + trade_value * (999 # 1000) /\
     held p' symbol = (held p symbol - quantity)%Z).
Proof.
  cbv zeta. execute_trade_cases; try discriminate; intros _.
  - apply String.eqb_eq in Hside. apply Qltb_ge in Hfunds.
    split; [|split].
    + intros other Hne. apply lookup_insert_ne. congruence.
    + intros _. split; [lra|]. split; [lra|].
      unfold held at 1. simpl. rewrite lookup_insert_eq. reflexivity.
    + congruence.
  - apply String.eqb_neq in Hside. apply Z.ltb_ge in Hheld.
    split; [|split].
    + intros other Hne. apply lookup_insert_ne. congruence.
    + congruence.
    + intros _. split; [exact Hheld|]. split; [lra|].
      unfold held at 1. simpl. rewrite lookup_insert_eq. reflexivity.
Qed.

Lemma execute_trade_accounting_witness :
  let out := execute_trade (fresh_simulator RiskManager_default initial_portfolio)
               0 "AAPL" "BUY" 100 100 "combined" in
  cash (portfolio (fst out)) == 1000000 - 100 * 100 * (1001 # 1000) /\
  held (portfolio (fst out)) "AAPL" = 100%Z.
Proof.
  intros out.
  destruct (execute_trade_accounting
              (fresh_simulator RiskManager_default initial_portfolio)
              0 "AAPL" "BUY" 100 100 "combined" eq_refl) as (_ & Hbuy & _).
  destruct (Hbuy eq_refl) as (_ & Hcash & Hheld).
  split; [exact Hcash | exact Hheld].
Defined.

Lemma execute_trade_buy_applied sim now symbol quantity price strategy :
  snd (execute_trade sim now symbol "BUY" quantity price strategy) = Some true ->
  check_position_limit (risk_manager sim) symbol quantity price
    (total_value (portfolio sim)) = Some true /\
  fst (execute_trade sim now symbol "BUY" quantity price strategy)
  = add_trade
      (set_portfolio sim
         (set_cash_position (portfolio sim)
            (cash (portfolio sim)
             - (inject_Z quantity * price + inject_Z quantity * price * (1 # 1000)))
            symbol (held (portfolio sim) symbol + quantity)%Z))
      (mkTrade (trade_id (length (trades sim) + 1)) symbol "BUY" quantity price now
               strategy 0 (inject_Z quantity * price * (1 # 1000))).
Proof.
  unfold execute_trade.
  destruct (check_position_limit _ _ _ _ _) as [[|]|]; simpl; try discriminate.
  destruct (Qltb _ _); simpl; try discriminate.
  intros _. split; reflexivity.
Qed.

(** X3. Round trip: after an executed BUY, a SELL of the same quantity at
    the same price (position before the BUY not short) is executed too,
    restores the position, and leaves cash lower by twice the fee; two
    trades are logged. *)
Theorem execute_trade_buy_then_sell sim now now' symbol quantity price strategy :
  let bought := execute_trade sim now symbol "BUY" quantity price strategy in
  let sold := execute_trade (fst bought) now' symbol "SELL" quantity price strategy in
  snd bought = Some true -> (0 <= held (portfolio sim) symbol)%Z ->
  snd sold = Some true /\
  held (portfolio (fst sold)) symbol = held (portfolio sim) symbol /\
  cash (portfolio (fst sold))
    == cash (portfolio sim) - 2 * (inject_Z quantity * price * (1 # 1000)) /\
  length (trades (fst sold)) = (length (trades sim) + 2)%nat.
Proof.
  cbv zeta. intros Hbought Hheld.
  destruct (execute_trade_buy_applied _ _ _ _ _ _ Hbought) as [Hlimit ->].
  unfold execute_trade. simpl. rewrite Hlimit. simpl.
  assert (Hnew : held (set_cash_position (portfolio sim)
                         (cash (portfolio sim)
                          - (inject_Z quantity * price
                             + inject_Z quantity * price * (1 # 1000)))
                         symbol (held (portfolio sim) symbol + quantity)%Z) symbol
                 = (held (portfolio sim) symbol + quantity)%Z).
  { unfold held at 1. simpl. rewrite lookup_insert_eq. reflexivity. }
  rewrite Hnew.
  destruct (_ <? _)%Z eqn:Hshort; [apply Z.ltb_lt in Hshort; lia|]. simpl.
  split; [reflexivity|]. split; [|split].
  - unfold held at 1. simpl. rewrite lookup_insert_eq. simpl. lia.
  - lra.
  - rewrite !length_app. simpl. lia.
Qed.

Lemma execute_trade_buy_then_sell_witness :
  let sim := fresh_simulator RiskManager_default initial_portfolio in
  let bought := execute_trade sim 0 "AAPL" "BUY" 100 100 "combined" in
  let sold := execute_trade (fst bought) 1 "AAPL" "SELL" 100 100 "combined" in
  snd sold = Some true /\
  cash (portfolio (fst sold)) == 1000000 - 2 * (100 * 100 * (1 # 1000)).
Proof.
  intros sim bought sold.
  destruct (execute_trade_buy_then_sell sim 0 1 "AAPL" 100 100 "combined" eq_refl
              ltac:(vm_compute; discriminate)) as (Hs & _ & Hc & _).
  split; [exact Hs | exact Hc].
Defined.

(** X4. The position check against a portfolio value v: for v > 0 it
    accepts exactly when |quantity * price| <= max_position_size * v; for
    v = 0 it raises ZeroDivisionError; for v < 0 (and a limit that is not
    negative) it accepts every size. *)
Theorem check_position_limit_cases rm symbol quantity price v :
  (0 < v ->
     exists b, check_position_limit rm symbol quantity price v = Some b /\
       (b = true <-> Qabs (inject_Z quantity * price) <= max_position_size rm * v))
  /\ (v == 0 -> check_position_limit rm symbol quantity price v = None)
  /\ (v < 0 -> 0 <= max_position_size rm ->
        check_position_limit rm symbol quantity price v = Some true).
Proof.
  unfold check_position_limit. split; [|split].
  - intros Hv. rewrite fdiv_Some by lra. simpl. eexists. split; [reflexivity|].
    unfold Qleb. rewrite Qle_bool_iff. split; intros H.
    + apply (Qmult_le_compat_r _ _ v) in H; [|lra].
      assert (Hc : Qabs (inject_Z quantity * price) / v * v
                   == Qabs (inject_Z quantity * price)) by (field; lra).
      rewrite Hc in H. exact H.
    + apply Qle_shift_div_r; assumption.
  - intros Hv. unfold fdiv. apply Qeq_bool_iff in Hv. rewrite Hv. reflexivity.
  - intros Hv Hm. rewrite fdiv_Some by lra. simpl. f_equal.
    unfold Qleb. apply Qle_bool_iff.
    pose proof (Qabs_nonneg (inject_Z quantity * price)) as Habs.
    set (a := Qabs (inject_Z quantity * price)) in *.
    assert (Hneg : a / v <= 0).
    { assert (Hpos : 0 <= a / - v) by (apply Qle_shift_div_l; lra).
      assert (Heq : a / v == - (a / - v)) by (field; lra).
      rewrite Heq. lra. }
    exact (Qle_trans _ _ _ Hneg Hm).
Qed.

Lemma check_position_limit_cases_witness :
  check_position_limit RiskManager_default "AAPL" 5000 100 (-1) = Some true /\
  check_position_limit RiskManager_default "AAPL" 1 100 0 = None.
Proof.
  destruct (check_position_limit_cases RiskManager_default "AAPL" 5000 100 (-1))
    as (_ & _ & Hneg).
  destruct (check_position_limit_cases RiskManager_default "AAPL" 1 100 0)
    as (_ & Hzero & _).
  split; [apply Hneg; [reflexivity | discriminate] | apply Hzero; reflexivity].
Defined.

(** X5. The correlation check accepts a new symbol exactly when no symbol
    held in a non-zero quantity has a correlation with it above the
    threshold in absolute value; a symbol missing from the table counts as
    correlation 0, so an empty table or an empty book accepts everything. *)
Theorem check_correlation_risk_accepts_iff rm new_symbol (existing : gmap string Z)
    matrix :
  check_correlation_risk rm new_symbol existing matrix = true <->
  forall symbol q, existing !! symbol = Some q -> q <> 0%Z ->
    Qabs (default 0 (default ∅ (matrix !! new_symbol) !! symbol))
      <= correlation_threshold rm.
Proof. apply check_correlation_risk_spec. Qed.

Lemma check_correlation_risk_accepts_iff_witness :
  check_correlation_risk RiskManager_default "ETH" {[ "BTC" := 10%Z ]} ∅ = true.
Proof.
  apply check_correlation_risk_accepts_iff. intros symbol q _ _.
  rewrite lookup_empty. simpl. rewrite lookup_empty. discriminate.
Defined.

(** ** Indicators *)

Lemma fsum_app xs ys : fsum (xs ++ ys) == fsum xs + fsum ys.
Proof.
  unfold fsum at 1. rewrite fold_left_app, fold_left_Qplus_acc.
  unfold fsum. lra.
Qed.

(** X6. RSI is defined for every positive period and every list of prices,
    and lies in [0, 100]. *)
Theorem calculate_rsi_in_range prices period :
  (0 < period)%Z ->
  exists r, calculate_rsi prices period = Some r /\ 0 <= r <= 100.
Proof. apply calculate_rsi_range. Qed.

Lemma calculate_rsi_in_range_witness :
  exists r, calculate_rsi [1; 3; 2; 5] 3 = Some r /\ 0 <= r <= 100.
Proof. exact (calculate_rsi_in_range [1; 3; 2; 5] 3 eq_refl). Defined.

Lemma total_pv_bounds lo hi prices volumes :
  Forall (fun p => lo <= p <= hi) prices -> Forall (fun v => (0 <= v)%Z) volumes ->
  length prices = length volumes ->
  lo * inject_Z (isum volumes)
    <= fsum (zip_with (fun p v => p * inject_Z v) prices volumes)
    <= hi * inject_Z (isum volumes).
Proof.
  intros Hp. revert volumes.
  induction Hp as [|p prices [Hlo Hhi] _ IH]; intros [|v volumes] Hv Hlen;
    try discriminate.
  - change (inject_Z (isum [])) with 0. simpl. rewrite fsum_nil. lra.
  - inversion Hv as [|? ? Hv0 Hvs]; subst. simpl.
    rewrite fsum_cons, isum_cons, inject_Z_plus.
    specialize (IH volumes Hvs ltac:(simpl in Hlen; lia)).
    assert (0 <= inject_Z v) by (change 0 with (inject_Z 0); rewrite <- Zle_Qle; lia).
    nra.
Qed.

(** X7. VWAP is a weighted mean: with as many volumes as prices, no
    negative volume and a positive total volume, it lies between any lower
    and upper bound of the prices. *)
Theorem calculate_vwap_between lo hi prices volumes :
  Forall (fun p => lo <= p <= hi) prices -> Forall (fun v => (0 <= v)%Z) volumes ->
  length prices = length volumes -> (0 < isum volumes)%Z ->
  lo <= calculate_vwap prices volumes <= hi.
Proof.
  intros Hp Hv Hlen Hvol.
  pose proof (total_pv_bounds lo hi prices volumes Hp Hv Hlen) as [Hl Hh].
  pose proof (inject_Z_pos _ Hvol) as HV.
  unfold calculate_vwap.
  destruct prices as [|p prices]; [|destruct volumes as [|v volumes]].
  - destruct volumes; [|discriminate]. unfold isum in Hvol. simpl in Hvol. lia.
  - discriminate.
  - apply Z.ltb_lt in Hvol. rewrite Hvol. split.
    + apply Qle_shift_div_l; assumption.
    + apply Qle_shift_div_r; assumption.
Qed.

Lemma calculate_vwap_between_witness :
  100 <= calculate_vwap [100; 110; 105] [10; 0; 30]%Z <= 110.
Proof.
  apply calculate_vwap_between; [| | reflexivity | reflexivity].
  - repeat constructor; discriminate.
  - repeat constructor; discriminate.
Defined.

Lemma progression_S first step n :
  progression first step (S n)
  = progression first step n ++ [first + step * inject_Z (Z.of_nat n)].
Proof. unfold progression. rewrite range_S, map_app. reflexivity. Qed.

Lemma sum_progression first step n :
  fsum (progression first step n)
  == inject_Z (Z.of_nat n) * first + step * inject_Z (isum (range n)).
Proof.
  induction n as [|n IH].
  - unfold progression, range, fsum, isum. simpl. ring.
  - rewrite progression_S, fsum_app, fsum_cons, fsum_nil, IH.
    rewrite range_S, isum_app, isum_cons. change (isum []) with 0%Z.
    rewrite Nat2Z.inj_succ. unfold Z.succ. rewrite !inject_Z_plus. simpl inject_Z.
    ring.
Qed.

Lemma sum_xy_progression first step n :
  fsum (zip_with (fun xi yi => inject_Z xi * yi) (range n) (progression first step n))
  == first * inject_Z (isum (range n))
     + step * inject_Z (isum (map (fun xi => xi ^ 2)%Z (range n))).
Proof.
  unfold progression. rewrite zip_with_fmap_r, zip_with_diag.
  induction n as [|n IH].
  - unfold range, fsum, isum. simpl. ring.
  - rewrite range_S, fmap_app, map_app, fsum_app, !isum_app. simpl.
    rewrite fsum_cons, fsum_nil, !isum_cons. change (isum []) with 0%Z.
    rewrite IH, !inject_Z_plus, Z.pow_2_r, inject_Z_mult.
    change (inject_Z 0) with 0. ring.
Qed.

(** X8. Momentum never raises: the regression denominator
    n * sum(x^2) - sum(x)^2 is positive for the five or more points it is
    computed on; with fewer than five prices the momentum is 0. *)
Theorem calculate_momentum_defined prices :
  (exists m, calculate_momentum prices = Some m) /\
  ((len prices < 5)%Z -> calculate_momentum prices = Some 0).
Proof.
  split.
  - destruct (calculate_momentum_total prices) as [m Hm]. eauto.
  - intros Hlen. unfold calculate_momentum. apply Z.ltb_lt in Hlen.
    rewrite Hlen. reflexivity.
Qed.

Lemma calculate_momentum_defined_witness :
  calculate_momentum [100; 101; 99] = Some 0.
Proof. apply (proj2 (calculate_momentum_defined [100; 101; 99])). reflexivity. Defined.

(** X9. Momentum recovers the slope: on five or more prices that lie on a
    line, first + step * i, it equals step. *)
Theorem calculate_momentum_progression first step n :
  (5 <= n)%nat ->
  exists m, calculate_momentum (progression first step n) = Some m /\ m == step.
Proof.
  intros Hn. unfold calculate_momentum.
  assert (Hlen : length (progression first step n) = n).
  { unfold progression, range. rewrite !length_map, length_seq. reflexivity. }
  assert (Hx : length (range n) = n).
  { unfold range. rewrite length_map, length_seq. reflexivity. }
  unfold len. rewrite Hlen, Hx.
  destruct (Z.of_nat n <? 5)%Z eqn:E; [apply Z.ltb_lt in E; lia|].
  pose proof (regression_denominator n ltac:(lia)) as Hden. simpl in Hden.
  unfold len in Hden. rewrite Hx in Hden.
  set (S1 := isum (range n)) in *.
  set (S2 := isum (map (fun xi => xi ^ 2)%Z (range n))) in *.
  rewrite fdiv_Some by (apply inject_Z_nonzero; lia).
  eexists. split; [reflexivity|].
  rewrite sum_xy_progression, sum_progression. fold S1 S2.
  pose proof (inject_Z_pos _ Hden) as HDpos.
  assert (HD : inject_Z (Z.of_nat n * S2 - S1 ^ 2)
               == inject_Z (Z.of_nat n) * inject_Z S2 - inject_Z S1 * inject_Z S1).
  { unfold Qminus. rewrite <- !inject_Z_mult, <- inject_Z_opp, <- inject_Z_plus.
    rewrite Z.pow_2_r. reflexivity. }
  set (D := inject_Z (Z.of_nat n * S2 - S1 ^ 2)) in *.
  apply (Qmult_inj_r _ _ D); [lra|].
  assert (Hcancel : forall a, a / D * D == a) by (intros a; field; lra).
  rewrite Hcancel, HD. ring.
Qed.

Lemma calculate_momentum_progression_witness :
  exists m, calculate_momentum (progression 100 (1 # 2) 6) = Some m /\ m == 1 # 2.
Proof. exact (calculate_momentum_progression 100 (1 # 2) 6 ltac:(lia)). Defined.

Lemma returns_from_None prev rest :
  returns_from prev rest = None <->
  Exists (fun p => p == 0) (removelast (prev :: rest)).
Proof.
  revert prev. induction rest as [|p rest IH]; intros prev.
  - simpl. split; [discriminate | intros H; inversion H].
  - change (removelast (prev :: p :: rest)) with (prev :: removelast (p :: rest)).
    rewrite Exists_cons. simpl. unfold fdiv at 1.
    destruct (Qeq_bool prev 0) eqn:E; simpl.
    + apply Qeq_bool_iff in E. split; [intros _; left; exact E | reflexivity].
    + destruct (returns_from p rest) as [rs|] eqn:Hrs; simpl.
      * split; [discriminate|]. intros [H|H].
        -- apply Qeq_bool_iff in H. congruence.
        -- apply IH in H. congruence.
      * split; [intros _; right; apply IH; exact Hrs | reflexivity].
Qed.

(** X10. Volatility raises ZeroDivisionError exactly when a price other
    than the last one is 0; otherwise it returns a value that is not
    negative (for a root function that is not negative). *)
Theorem calculate_volatility_defined math_sqrt prices :
  (forall x, 0 <= x -> 0 <= math_sqrt x) ->
  (calculate_volatility math_sqrt prices = None <->
   Exists (fun p => p == 0) (removelast prices)) /\
  (forall v, calculate_volatility math_sqrt prices = Some v -> 0 <= v).
Proof.
  intros Hsqrt. unfold calculate_volatility.
  destruct prices as [|p0 rest].
  { simpl. split; [|intros v [= <-]; lra].
    split; [discriminate | intros H; inversion H]. }
  destruct (len (p0 :: rest) <? 2)%Z eqn:Hlen.
  { apply Z.ltb_lt in Hlen. unfold len in Hlen. destruct rest; [|simpl in Hlen; lia].
    simpl. split; [|intros v [= <-]; lra].
    split; [discriminate | intros H; inversion H]. }
  pose proof (returns_from_None p0 rest) as Hnone.
  destruct (returns_from p0 rest) as [rs|]; simpl.
  - split.
    + split; [discriminate|]. intros H. apply Hnone in H. discriminate.
    + intros v [= <-]. destruct (1 <? len rs)%Z eqn:Hrs; [|lra].
      apply Z.ltb_lt in Hrs. unfold stdev. apply Hsqrt.
      apply Qle_shift_div_l; [apply inject_Z_pos; lia|].
      rewrite Qmult_0_l. apply fsum_nonneg, Forall_map, Forall_forall.
      intros x _. apply sq_nonneg.
  - split; [|discriminate]. split; [intros _; apply Hnone; reflexivity | reflexivity].
Qed.

Lemma calculate_volatility_defined_witness :
  calculate_volatility sqrt_floor [100; 0; 50] = None /\
  (forall v, calculate_volatility sqrt_floor [100; 50; 0] = Some v -> 0 <= v).
Proof.
  destruct (calculate_volatility_defined sqrt_floor [100; 0; 50]
              (fun x _ => sqrt_floor_nonneg x)) as [Hnone _].
  destruct (calculate_volatility_defined sqrt_floor [100; 50; 0]
              (fun x _ => sqrt_floor_nonneg x)) as [_ Hpos].
  split; [|exact Hpos].
  apply Hnone. simpl. right. left. reflexivity.
Defined.

(** ** Rolling windows *)

Lemma py_slice_from_all {A} k (l : list A) :
  (0 < k)%Z -> len l = k -> py_slice_from (- k) l = l.
Proof.
  intros Hk Hlen. unfold py_slice_from, len in *.
  destruct (- k <? 0)%Z eqn:E; [|apply Z.ltb_ge in E; lia].
  replace (Z.to_nat _) with 0%nat by lia. reflexivity.
Qed.

Lemma py_slice_from_app {A} k (old recent : list A) :
  (0 < k)%Z -> len recent = k -> py_slice_from (- k) (old ++ recent) = recent.
Proof.
  intros Hk Hlen. unfold py_slice_from, len in *.
  destruct (- k <? 0)%Z eqn:E; [|apply Z.ltb_ge in E; lia].
  rewrite length_app. apply drop_app_length'. lia.
Qed.

Lemma changes_drop n prices : drop n (changes prices) = changes (drop n prices).
Proof.
  assert (Htail : forall l : list Q, tail l = drop 1 l) by (intros []; reflexivity).
  unfold changes. rewrite zip_with_drop. f_equal.
  rewrite !Htail, !drop_drop. f_equal. lia.
Qed.

Lemma changes_app_slice k old recent :
  (0 < k)%Z -> len recent = (k + 1)%Z ->
  py_slice_from (- k) (changes (old ++ recent)) = changes recent.
Proof.
  intros Hk Hlen. unfold py_slice_from, len in *.
  destruct (- k <? 0)%Z eqn:E; [|apply Z.ltb_ge in E; lia].
  rewrite changes_length, length_app.
  replace (Z.to_nat _) with (length old) by lia.
  rewrite changes_drop, drop_app_length. reflexivity.
Qed.

(** X11. The Bollinger bands look at the last [period] prices only: older
    prices in front of a full window do not change the result. *)
Theorem calculate_bollinger_bands_window math_sqrt s old recent :
  (0 < period s)%Z -> len recent = period s ->
  calculate_bollinger_bands math_sqrt s (old ++ recent)
  = calculate_bollinger_bands math_sqrt s recent.
Proof.
  intros Hp Hlen. unfold calculate_bollinger_bands.
  rewrite py_slice_from_app, py_slice_from_all by assumption.
  assert (H1 : (len (old ++ recent) <? period s)%Z = false).
  { apply Z.ltb_ge. unfold len in *. rewrite length_app. lia. }
  assert (H2 : (len recent <? period s)%Z = false) by (apply Z.ltb_ge; lia).
  rewrite H1, H2. reflexivity.
Qed.

Lemma calculate_bollinger_bands_window_witness :
  calculate_bollinger_bands sqrt_floor (MeanReversionStrategy_init "AAPL" 3 2)
    ([500; 1] ++ [10; 11; 12])
  = calculate_bollinger_bands sqrt_floor (MeanReversionStrategy_init "AAPL" 3 2)
      [10; 11; 12].
Proof.
  exact (calculate_bollinger_bands_window sqrt_floor
           (MeanReversionStrategy_init "AAPL" 3 2) [500; 1] [10; 11; 12]
           eq_refl eq_refl).
Defined.

(** X12. RSI looks at the last [period + 1] prices only: older prices in
    front of them do not change the result. *)
Theorem calculate_rsi_window old recent period :
  (0 < period)%Z -> len recent = (period + 1)%Z ->
  calculate_rsi (old ++ recent) period = calculate_rsi recent period.
Proof.
  intros Hp Hlen. unfold calculate_rsi.
  assert (H1 : (len (old ++ recent) <? period + 1)%Z = false).
  { apply Z.ltb_ge. unfold len in *. rewrite length_app. lia. }
  assert (H2 : (len recent <? period + 1)%Z = false) by (apply Z.ltb_ge; lia).
  rewrite H1, H2.
  assert (Hslice : forall f : Q -> Q,
            py_slice_from (- period) (map f (changes (old ++ recent)))
            = py_slice_from (- period) (map f (changes recent))).
  { intros f.
    assert (Hmap : forall l : list Q,
              py_slice_from (- period) (map f l) = map f (py_slice_from (- period) l)).
    { intros l. unfold py_slice_from. rewrite length_map. symmetry. apply fmap_drop. }
    rewrite !Hmap, changes_app_slice by assumption.
    pose proof (changes_app_slice period [] recent Hp Hlen) as Hnil.
    simpl in Hnil. rewrite Hnil. reflexivity. }
  rewrite !Hslice. reflexivity.
Qed.

Lemma calculate_rsi_window_witness :
  calculate_rsi ([9; 1; 7] ++ [1; 3; 2; 5]) 3 = calculate_rsi [1; 3; 2; 5] 3.
Proof. exact (calculate_rsi_window [9; 1; 7] [1; 3; 2; 5] 3 eq_refl eq_refl). Defined.

(** ** Strategy state *)

Lemma vwap_generate_signal_state math_sqrt s current_price current_volume :
  let s1 := vwap_trim (vwap_append s current_price current_volume) in
  let s' := fst (vwap_generate_signal math_sqrt s current_price current_volume) in
  vw_price_history s' = vw_price_history s1 /\
  volume_history s' = volume_history s1 /\
  lookback_period s' = lookback_period s.
Proof.
  cbv zeta. unfold vwap_generate_signal.
  assert (Hl : lookback_period
                 (vwap_trim (vwap_append s current_price current_volume))
               = lookback_period s).
  { unfold vwap_trim. destruct (_ <? _)%Z; reflexivity. }
  destruct (len _ <? 5)%Z; simpl; [auto|].
  destruct (calculate_momentum _); simpl; [|auto].
  destruct (calculate_volatility _ _); simpl; [|auto].
  destruct (vwap_score _ _ _ _); simpl; [|auto].
  destruct (Qltb _ _); [|destruct (Qgtb _ _)]; simpl; auto.
Qed.

(** X13. The VWAP strategy's buffers stay aligned and bounded: if the
    price and volume histories have the same length, at most
    lookback_period, they still do after a call of generate_signal (also
    one that raises), the lookback is unchanged, and for a positive
    lookback the newest stored price is the current one. *)
Theorem vwap_generate_signal_buffers math_sqrt s current_price current_volume :
  let s' := fst (vwap_generate_signal math_sqrt s current_price current_volume) in
  length (vw_price_history s) = length (volume_history s) ->
  (len (vw_price_history s) <= lookback_period s)%Z ->
  length (vw_price_history s') = length (volume_history s') /\
  (len (vw_price_history s') <= lookback_period s')%Z /\
  lookback_period s' = lookback_period s /\
  ((0 < lookback_period s)%Z -> last (vw_price_history s') = Some current_price).
Proof.
  cbv zeta. intros Heq Hlen.
  destruct (vwap_generate_signal_state math_sqrt s current_price current_volume)
    as (-> & -> & ->).
  unfold vwap_trim, vwap_append, len in *. simpl.
  rewrite !length_app. simpl.
  destruct (lookback_period s <? Z.of_nat (length (vw_price_history s) + 1))%Z eqn:E;
    simpl.
  - apply Z.ltb_lt in E. unfold pop0.
    destruct (vw_price_history s) as [|p0 ph]; destruct (volume_history s) as [|v0 vh];
      simpl in *; try discriminate.
    + repeat split; try lia.
    + rewrite !length_app. simpl. repeat split; try lia.
      intros _. apply last_snoc.
  - apply Z.ltb_ge in E. rewrite !length_app. simpl.
    repeat split; try lia. intros _. apply last_snoc.
Qed.

Lemma vwap_generate_signal_buffers_witness :
  let s := mkVWAP "AAPL" 3 [1; 2; 3] [10; 20; 30]%Z [] [] [] 0 in
  let s' := fst (vwap_generate_signal sqrt_floor s 4 40) in
  length (vw_price_history s') = length (volume_history s') /\
  (len (vw_price_history s') <= 3)%Z.
Proof.
  intros s s'.
  destruct (vwap_generate_signal_buffers sqrt_floor s 4 40 eq_refl
              ltac:(vm_compute; discriminate)) as (H1 & H2 & _).
  split; [exact H1 | exact H2].
Defined.

(** Warm-up of the VWAP strategy: with fewer than four stored prices
    the answer is HOLD with confidence 0, and a strategy whose
    lookback_period is below 5 (history within the lookback) never
    answers anything else. *)
Theorem vwap_generate_signal_warmup math_sqrt s current_price current_volume :
  (len (vw_price_history s) < 4)%Z \/
  ((lookback_period s < 5)%Z /\ (len (vw_price_history s) <= lookback_period s)%Z) ->
  snd (vwap_generate_signal math_sqrt s current_price current_volume)
  = Some ("HOLD", 0).
Proof.
  intros H. unfold vwap_generate_signal.
  assert (Hshort : (len (vw_price_history
                           (vwap_trim (vwap_append s current_price current_volume)))
                    <? 5)%Z = true).
  { apply Z.ltb_lt. unfold vwap_trim, vwap_append, len in *. simpl.
    rewrite length_app. simpl.
    destruct (lookback_period s <? Z.of_nat (length (vw_price_history s) + 1))%Z
      eqn:E; simpl.
    - apply Z.ltb_lt in E. unfold pop0.
      destruct (vw_price_history s) as [|p0 ph]; simpl in *; [lia|].
      rewrite length_app. simpl. lia.
    - apply Z.ltb_ge in E. rewrite length_app. simpl. lia. }
  rewrite Hshort. reflexivity.
Qed.

Lemma vwap_generate_signal_warmup_witness :
  snd (vwap_generate_signal sqrt_floor
         (mkVWAP "AAPL" 4 [1; 2; 30; 400] [1; 1; 1; 1]%Z [] [] [] 0) 5000 1)
  = Some ("HOLD", 0).
Proof.
  apply vwap_generate_signal_warmup. right. split; [reflexivity | discriminate].
Defined.


Lemma mr_history_step math_sqrt s current_price :
  let history := mr_price_history s ++ [current_price] in
  mr_price_history (fst (mr_generate_signal math_sqrt s current_price))
  = if (period s * 2 <? len history)%Z then pop0 history else history.
Proof.
  cbv zeta. unfold mr_generate_signal.
  destruct (len _ <? period (mr_store _ _ _))%Z; simpl; [reflexivity|].
  destruct (calculate_bollinger_bands _ _ _) as [[[u m] l]|]; simpl; [|reflexivity].
  destruct (calculate_rsi _ _); reflexivity.
Qed.

(** X14. The mean-reversion strategy keeps at most 2 * period prices: a
    history within that bound stays within it after generate_signal (also
    when the call raises), and period and std_dev are never changed. *)
Theorem mr_generate_signal_history math_sqrt s current_price :
  let s' := fst (mr_generate_signal math_sqrt s current_price) in
  (len (mr_price_history s) <= period s * 2)%Z ->
  (len (mr_price_history s') <= period s * 2)%Z /\
  period s' = period s /\ std_dev s' = std_dev s.
Proof.
  cbv zeta. intros Hlen. split.
  - rewrite mr_history_step. unfold len in *.
    destruct (_ <? _)%Z eqn:E.
    + unfold pop0. destruct (mr_price_history s) as [|p0 ph]; simpl in *; [lia|].
      rewrite length_app in *. simpl in *. lia.
    + apply Z.ltb_ge in E. exact E.
  - unfold mr_generate_signal.
    destruct (len _ <? period (mr_store _ _ _))%Z; simpl; [auto|].
    destruct (calculate_bollinger_bands _ _ _) as [[[u m] l]|]; simpl; [|auto].
    destruct (calculate_rsi _ _); auto.
Qed.

Lemma mr_generate_signal_history_witness :
  let s := mkMR "AAPL" 2 2 [1; 2; 3; 4] [] in
  (len (mr_price_history (fst (mr_generate_signal sqrt_floor s 5))) <= 2 * 2)%Z.
Proof.
  intros s.
  exact (proj1 (mr_generate_signal_history sqrt_floor s 5
                  ltac:(vm_compute; discriminate))).
Defined.

Section FlatMarket.
Variable math_sqrt : Q -> Q.
Hypothesis math_sqrt_nonneg : forall x, 0 <= x -> 0 <= math_sqrt x.

End FlatMarket.



(** ** Signal fusion and order placement *)

Lemma py_max_comm a b : py_max a b == py_max b a.
Proof.
  unfold py_max, Qgtb. destruct (Qltb a b) eqn:E1, (Qltb b a) eqn:E2;
    try apply Qltb_lt in E1; try apply Qltb_lt in E2;
    try apply Qltb_ge in E1; try apply Qltb_ge in E2; lra.
Qed.

(** X16. Fusion treats the two strategies alike: swapping their answers
    gives the same fused action and an equal fused confidence. *)
Theorem combine_signals_symmetric vwap_signal vwap_confidence mr_signal mr_confidence :
  fst (combine_signals vwap_signal vwap_confidence mr_signal mr_confidence)
  = fst (combine_signals mr_signal mr_confidence vwap_signal vwap_confidence) /\
  snd (combine_signals vwap_signal vwap_confidence mr_signal mr_confidence)
  == snd (combine_signals mr_signal mr_confidence vwap_signal vwap_confidence).
Proof.
  unfold combine_signals. rewrite (String.eqb_sym mr_signal vwap_signal).
  destruct (String.eqb vwap_signal "HOLD") eqn:Hv,
           (String.eqb mr_signal "HOLD") eqn:Hm; simpl.
  - apply String.eqb_eq in Hv, Hm. subst. split; [reflexivity | apply py_max_comm].
  - split; [reflexivity | apply py_max_comm].
  - split; [reflexivity | apply py_max_comm].
  - destruct (String.eqb vwap_signal mr_signal) eqn:E; simpl.
    + apply String.eqb_eq in E. subst. split; [reflexivity | field].
    + split; reflexivity.
Qed.

(** X17. A fused action other than HOLD is backed by at least one strategy
    and opposed by none (the other strategy says the same or HOLD), and
    fusing confidences from [0, 1] gives a confidence in [0, 1]. *)
Theorem combine_signals_sound vwap_signal vwap_confidence mr_signal mr_confidence :
  let out := combine_signals vwap_signal vwap_confidence mr_signal mr_confidence in
  (fst out <> "HOLD" ->
     (vwap_signal = fst out \/ mr_signal = fst out) /\
     (vwap_signal = fst out \/ vwap_signal = "HOLD") /\
     (mr_signal = fst out \/ mr_signal = "HOLD")) /\
  (0 <= vwap_confidence <= 1 -> 0 <= mr_confidence <= 1 -> 0 <= snd out <= 1).
Proof.
  cbv zeta. unfold combine_signals.
  assert (Hmax : 0 <= vwap_confidence <= 1 -> 0 <= mr_confidence <= 1 ->
                 0 <= py_max vwap_confidence mr_confidence <= 1).
  { intros Hvc Hmc. unfold py_max. destruct (Qgtb _ _); lra. }
  destruct (String.eqb vwap_signal "HOLD") eqn:Hv,
           (String.eqb mr_signal "HOLD") eqn:Hm; simpl.
  - apply String.eqb_eq in Hv, Hm. split; [auto | exact Hmax].
  - apply String.eqb_eq in Hv. split; [auto | exact Hmax].
  - apply String.eqb_eq in Hm. split; [auto | exact Hmax].
  - destruct (String.eqb vwap_signal mr_signal) eqn:E; simpl.
    + apply String.eqb_eq in E. subst. split; [auto|].
      intros Hvc Hmc. split.
      * apply Qle_shift_div_l; lra.
      * apply Qle_shift_div_r; lra.
    + split; [congruence | intros; lra].
Qed.

Lemma combine_signals_sound_witness :
  0 <= snd (combine_signals "BUY" (1 # 2) "BUY" (3 # 4)) <= 1.
Proof.
  apply (proj2 (combine_signals_sound "BUY" (1 # 2) "BUY" (3 # 4)));
    split; discriminate.
Defined.

Lemma py_int_ge k x : (0 <= k)%Z -> inject_Z k <= x -> (k <= py_int x)%Z.
Proof.
  destruct x as [n d]. unfold Qle, py_int. simpl. intros Hk H.
  rewrite Z.mul_1_r in H.
  assert (0 <= n)%Z by nia.
  rewrite Z.quot_div_nonneg by lia.
  apply Z.div_le_lower_bound; lia.
Qed.

(** X18. What the step's order placement does for one symbol: on HOLD or a
    confidence of at most 0.3 nothing changes; otherwise at most one trade
    is appended, tagged "combined", for int(1000 * confidence) >= 300
    units, a BUY at the tick's ask or a SELL at its bid. *)
Theorem trade_on_signal_orders sim now symbol data signal confidence :
  let out := trade_on_signal sim now symbol data signal confidence in
  (signal = "HOLD" \/ confidence <= 3 # 10 -> out = (sim, Some tt)) /\
  (trades (fst out) = trades sim \/
   exists t, trades (fst out) = trades sim ++ [t] /\
     t_symbol t = symbol /\ t_strategy t = "combined" /\
     t_quantity t = py_int (1000 * confidence) /\ (300 <= t_quantity t)%Z /\
     ((t_side t = "BUY" /\ signal = "BUY" /\ t_price t = md_ask data) \/
      (t_side t = "SELL" /\ signal = "SELL" /\ t_price t = md_bid data))).
Proof.
  cbv zeta. unfold trade_on_signal. split.
  - intros [-> | Hc]; [reflexivity|].
    apply Qltb_ge in Hc. unfold Qgtb. rewrite Hc, andb_false_r. reflexivity.
  - destruct (negb (String.eqb signal "HOLD") && Qgtb confidence (3 # 10)) eqn:Hgo;
      [|left; reflexivity].
    apply andb_true_iff in Hgo. destruct Hgo as [_ Hc]. apply Qltb_lt in Hc.
    assert (Hq : (300 <= py_int (1000 * confidence))%Z).
    { apply py_int_ge; [lia|]. change (inject_Z 300) with 300. lra. }
    destruct (String.eqb signal "BUY") eqn:Hbuy;
      [|destruct (String.eqb signal "SELL") eqn:Hsell; [|left; reflexivity]].
    + apply String.eqb_eq in Hbuy.
      destruct (execute_trade_records_iff_applied_aux sim now symbol "BUY"
                  (py_int (1000 * confidence)) (md_ask data) "combined")
        as [(_ & Ht) | (_ & ->)]; [|left; reflexivity].
      right. eexists. split; [exact Ht|]. simpl. repeat split; try assumption.
      left. auto.
    + apply String.eqb_eq in Hsell.
      destruct (execute_trade_records_iff_applied_aux sim now symbol "SELL"
                  (py_int (1000 * confidence)) (md_bid data) "combined")
        as [(_ & Ht) | (_ & ->)]; [|left; reflexivity].
      right. eexists. split; [exact Ht|]. simpl. repeat split; try assumption.
      right. auto.
Qed.

Lemma trade_on_signal_orders_witness :
  let sim := fresh_simulator RiskManager_default initial_portfolio in
  let tick := mkMarketData "AAPL" 100 1000000 101 99 100 0 (9995 # 100)
                (10005 # 100) (1 # 10) in
  trade_on_signal sim 0 "AAPL" tick "BUY" (1 # 4) = (sim, Some tt).
Proof.
  intros sim tick.
  apply (proj1 (trade_on_signal_orders sim 0 "AAPL" tick "BUY" (1 # 4))).
  right. discriminate.
Defined.

(** ** Market-data generator: the shape of a tick *)

Lemma py_int_le k x : 0 <= x -> x <= inject_Z k -> (py_int x <= k)%Z.
Proof.
  destruct x as [n d]. unfold Qle, py_int. simpl. intros Hn H.
  rewrite Z.mul_1_r in *.
  rewrite Z.quot_div_nonneg by lia.
  apply Z.div_le_upper_bound; lia.
Qed.

(** X19. A tick with a price that is not negative, drawn with unit draws
    in [0, 1], is well formed: bid <= price <= ask with ask - bid equal to
    the spread (0.1% of the price for a stock, 1% otherwise), and
    0.98 * price <= low <= price <= high <= 1.02 * price; it carries the
    requested symbol and the clock reading. *)
Theorem generate_market_data_tick sim current_hour now rnd symbol sim' tick :
  generate_market_data sim current_hour now rnd symbol = Some (sim', tick) ->
  0 <= md_price tick -> 0 <= r_high rnd <= 1 -> 0 <= r_low rnd <= 1 ->
  md_symbol tick = symbol /\ md_timestamp tick = now /\
  0 <= md_bid tick /\ md_bid tick <= md_price tick /\ md_price tick <= md_ask tick /\
  md_ask tick - md_bid tick == md_spread tick /\
  (exists asset, assets sim !! symbol = Some asset /\
     md_spread tick
     == md_price tick
        * (if AssetType_eqb (asset_type asset) STOCK then 1 # 1000 else 1 # 100)) /\
  (98 # 100) * md_price tick <= md_low tick /\ md_low tick <= md_price tick /\
  md_price tick <= md_high tick /\ md_high tick <= (102 # 100) * md_price tick.
Proof.
  unfold generate_market_data.
  destruct (assets sim !! symbol) as [asset|]; simpl; [|discriminate].
  intros [= <- <-]. simpl. unfold uniform.
  set (np := base_price asset * (1 + gauss 0 _ (z_price rnd))).
  intros Hnp Hh Hl.
  assert (Hpct : 0 < (if AssetType_eqb (asset_type asset) STOCK
                      then 1 # 1000 else 1 # 100) <= 1 # 100)
    by (destruct (AssetType_eqb _ _); split; reflexivity || discriminate).
  set (pct := if AssetType_eqb (asset_type asset) STOCK then 1 # 1000 else 1 # 100)
    in *.
  assert (Hs : 0 <= np * pct) by (apply Qmult_le_0_compat; lra).
  assert (Hs' : np * pct <= np * (1 # 100)) by nra.
  assert (Hhalf : np * pct / 2 == np * pct * (1 # 2)) by field.
  clearbody np.
  split; [reflexivity|]. split; [reflexivity|].
  split; [rewrite Hhalf; nra|]. split; [rewrite Hhalf; nra|].
  split; [rewrite Hhalf; nra|]. split; [field|].
  split; [exists asset; split; reflexivity|].
  split; [nra|]. split; [nra|]. split; nra.
Qed.

Lemma generate_market_data_tick_witness :
  exists tick,
    snd <$> generate_market_data AdvancedTradingSimulator_init 10 7
              (mkDraws (-2) (1 # 2) (1 # 4) (3 # 4)) "BTC" = Some tick /\
    md_bid tick <= md_price tick /\ md_price tick <= md_ask tick /\
    md_low tick <= md_price tick /\ md_price tick <= md_high tick.
Proof.
  destruct (generate_market_data AdvancedTradingSimulator_init 10 7
              (mkDraws (-2) (1 # 2) (1 # 4) (3 # 4)) "BTC") as [[sim' tick]|] eqn:E;
    [|vm_compute in E; discriminate].
  exists tick. split; [reflexivity|].
  assert (Hprice : 0 <= md_price tick).
  { revert E. vm_compute. intros [= _ <-]. simpl. discriminate. }
  destruct (generate_market_data_tick _ _ _ _ _ _ _ E Hprice
              ltac:(split; discriminate) ltac:(split; discriminate))
    as (_ & _ & _ & Hb & Ha & _ & _ & _ & Hl & Hh & _).
  auto.
Defined.

(** X20. Generating a tick touches nothing but the base price of the
    asset it is generated for: the other assets, that asset's other
    attributes, the portfolio, the trade log, the stored ticks, the risk
    manager and the running flag are as before; an unknown symbol raises
    KeyError and changes nothing. *)
Theorem generate_market_data_frame sim current_hour now rnd symbol :
  match generate_market_data sim current_hour now rnd symbol with
  | Some (sim', tick) =>
      exists asset, assets sim !! symbol = Some asset /\
        assets sim' = <[symbol := set_base_price asset (md_price tick)]> (assets sim) /\
        (forall other, other <> symbol -> assets sim' !! other = assets sim !! other) /\
        portfolio sim' = portfolio sim /\ trades sim' = trades sim /\
        market_data sim' = market_data sim /\ risk_manager sim' = risk_manager sim /\
        running sim' = running sim
  | None => assets sim !! symbol = None
  end.
Proof.
  unfold generate_market_data.
  destruct (assets sim !! symbol) as [asset|] eqn:Ha; simpl; [|reflexivity].
  exists asset. repeat split; try reflexivity.
  intros other Hne. apply lookup_insert_ne. congruence.
Qed.

(** X21. Tick volume: for a unit draw in [0, 1] the volume of a stock tick
    is between 700,000 and 1,300,000, that of any other asset between
    70,000 and 130,000. *)
Theorem generate_market_data_volume sim current_hour now rnd symbol sim' tick :
  generate_market_data sim current_hour now rnd symbol = Some (sim', tick) ->
  0 <= r_volume rnd <= 1 ->
  exists asset, assets sim !! symbol = Some asset /\
    let base_volume :=
      if AssetType_eqb (asset_type asset) STOCK then 1000000%Z else 100000%Z in
    (7 * base_volume <= 10 * md_volume tick <= 13 * base_volume)%Z.
Proof.
  unfold generate_market_data. intros H Hr.
  destruct (assets sim !! symbol) as [asset|]; simpl in H; [|discriminate].
  exists asset. split; [reflexivity|].
  injection H as _ <-. simpl. unfold uniform.
  set (x := inject_Z _ * _).
  destruct (AssetType_eqb (asset_type asset) STOCK).
  - assert (Hx : 700000 <= x <= 1300000).
    { subst x. change (inject_Z 1000000) with 1000000. lra. }
    pose proof (py_int_ge 700000 x ltac:(lia) ltac:(change (inject_Z 700000) with 700000; lra)).
    pose proof (py_int_le 1300000 x ltac:(lra) ltac:(change (inject_Z 1300000) with 1300000; lra)).
    lia.
  - assert (Hx : 70000 <= x <= 130000).
    { subst x. change (inject_Z 100000) with 100000. lra. }
    pose proof (py_int_ge 70000 x ltac:(lia) ltac:(change (inject_Z 70000) with 70000; lra)).
    pose proof (py_int_le 130000 x ltac:(lra) ltac:(change (inject_Z 130000) with 130000; lra)).
    lia.
Qed.

Lemma generate_market_data_volume_witness :
  exists tick,
    snd <$> generate_market_data AdvancedTradingSimulator_init 10 7
              (mkDraws (-2) (1 # 3) (1 # 4) (3 # 4)) "GOLD" = Some tick /\
    (70000 <= md_volume tick <= 130000)%Z.
Proof.
  destruct (generate_market_data AdvancedTradingSimulator_init 10 7
              (mkDraws (-2) (1 # 3) (1 # 4) (3 # 4)) "GOLD") as [[sim' tick]|] eqn:E;
    [|vm_compute in E; discriminate].
  exists tick. split; [reflexivity|].
  destruct (generate_market_data_volume _ _ _ _ _ _ _ E ltac:(split; discriminate))
    as (asset & Ha & H).
  vm_compute in Ha. injection Ha as <-. simpl in H. lia.
Defined.

(** ** Portfolio ledger *)

#[local] Instance add_position_value_proper market_data symbol quantity :
  Proper (Qeq ==> Qeq) (add_position_value market_data symbol quantity).
Proof.
  intros a b Hab. unfold add_position_value.
  destruct (negb (quantity =? 0)%Z); [|exact Hab].
  destruct (market_data !! symbol); [rewrite Hab; reflexivity | exact Hab].
Qed.

Lemma add_position_value_comm market_data s1 q1 s2 q2 total :
  add_position_value market_data s1 q1 (add_position_value market_data s2 q2 total)
  == add_position_value market_data s2 q2 (add_position_value market_data s1 q1 total).
Proof.
  unfold add_position_value.
  destruct (negb (q1 =? 0)%Z), (negb (q2 =? 0)%Z),
           (market_data !! s1), (market_data !! s2); simpl; ring.
Qed.

Lemma add_position_value_tick market_data symbol quantity total data :
  market_data !! symbol = Some data ->
  add_position_value market_data symbol quantity total
  == total + inject_Z quantity * md_price data.
Proof.
  intros Hd. unfold add_position_value. rewrite Hd.
  destruct (quantity =? 0)%Z eqn:E; simpl; [|reflexivity].
  apply Z.eqb_eq in E. subst. change (inject_Z 0) with 0. ring.
Qed.

(** The marked value with the position of [symbol] set to [quantity]. *)
Lemma mark_to_market_insert market_data c (m : gmap string Z) symbol quantity data :
  market_data !! symbol = Some data ->
  map_fold (add_position_value market_data) c (<[symbol := quantity]> m)
  == map_fold (add_position_value market_data) c m
     + inject_Z (quantity - default 0%Z (m !! symbol)) * md_price data.
Proof.
  intros Hd.
  assert (Hins : map_fold (add_position_value market_data) c (<[symbol := quantity]> m)
                 == map_fold (add_position_value market_data) c (delete symbol m)
                    + inject_Z quantity * md_price data).
  { rewrite <- (insert_delete_eq m).
    rewrite (map_fold_insert Qeq (add_position_value market_data)).
    - apply add_position_value_tick. exact Hd.
    - intros j z. apply add_position_value_proper.
    - intros j1 j2 z1 z2 y _ _ _. apply add_position_value_comm.
    - apply lookup_delete_eq. }
  rewrite Hins. destruct (m !! symbol) as [old|] eqn:Hold; simpl.
  - rewrite (map_fold_delete Qeq (add_position_value market_data) c symbol old m).
    + rewrite (add_position_value_tick _ _ _ _ _ Hd).
      unfold Zminus. rewrite inject_Z_plus, inject_Z_opp. ring.
    + intros j z. apply add_position_value_proper.
    + intros j1 j2 z1 z2 y _ _ _. apply add_position_value_comm.
    + exact Hold.
  - rewrite delete_id by exact Hold. rewrite Z.sub_0_r. reflexivity.
Qed.

Lemma map_fold_cash_shift market_data (m : gmap string Z) c d :
  map_fold (add_position_value market_data) (c + d) m
  == map_fold (add_position_value market_data) c m + d.
Proof.
  apply (map_fold_weak_ind
           (fun r m => forall r', r' = map_fold (add_position_value market_data) c m ->
                                  r == r' + d)
           (add_position_value market_data) (c + d)) with (m := m) (r' := map_fold (add_position_value market_data) c m);
    [| |reflexivity].
  - intros r' ->. rewrite map_fold_empty. reflexivity.
  - intros i x m0 r Hi IH r' ->.
    rewrite (map_fold_insert Qeq (add_position_value market_data) c i x m0).
    + specialize (IH _ eq_refl).
      set (F := map_fold (add_position_value market_data) c m0) in *.
      unfold add_position_value.
      destruct (negb (x =? 0)%Z); [|exact IH].
      destruct (market_data !! i); [rewrite IH; ring | exact IH].
    + intros j z. apply add_position_value_proper.
    + intros j1 j2 z1 z2 y _ _ _. apply add_position_value_comm.
    + exact Hi.
Qed.

(** X22. What a trade costs: when the symbol has a stored tick, an
    executed BUY changes the marked-to-market value (cash plus positions
    at tick prices, the figure update_portfolio_value stores) by minus the
    fee minus quantity * (trade price - tick price), an executed SELL by
    minus the fee plus quantity * (trade price - tick price); at the tick
    price a trade costs exactly its fee. *)
Theorem execute_trade_mark_to_market sim now symbol side quantity price strategy data :
  let out := execute_trade sim now symbol side quantity price strategy in
  let value s := mark_to_market (portfolio s) (market_data s) in
  let fee := inject_Z quantity * price * (1 # 1000) in
  market_data sim !! symbol = Some data -> snd out = Some true ->
  (side = "BUY" ->
     value (fst out)
     == value sim - fee - inject_Z quantity * (price - md_price data)) /\
  (side <> "BUY" ->
     value (fst out)
     == value sim - fee + inject_Z quantity * (price - md_price data)).
Proof.
  cbv zeta. intros Hd. unfold mark_to_market.
  execute_trade_cases; try discriminate; intros _.
  - apply String.eqb_eq in Hside. split; [intros _|congruence].
    rewrite (mark_to_market_insert _ _ _ _ _ _ Hd). unfold Qminus at 1.
    rewrite map_fold_cash_shift. unfold held.
    replace (default 0%Z (positions (portfolio sim) !! symbol) + quantity
             - default 0%Z (positions (portfolio sim) !! symbol))%Z
      with quantity by lia.
    ring.
  - apply String.eqb_neq in Hside. split; [congruence|intros _].
    rewrite (mark_to_market_insert _ _ _ _ _ _ Hd).
    rewrite map_fold_cash_shift. unfold held.
    replace (default 0%Z (positions (portfolio sim) !! symbol) - quantity
             - default 0%Z (positions (portfolio sim) !! symbol))%Z
      with (- quantity)%Z by lia.
    rewrite inject_Z_opp. ring.
Qed.

Lemma execute_trade_mark_to_market_witness :
  let tick := mkMarketData "AAPL" 100 1000000 101 99 100 0 (9995 # 100)
                (10005 # 100) (1 # 10) in
  let sim := set_market_data (fresh_simulator RiskManager_default initial_portfolio)
               "AAPL" tick in
  let out := execute_trade sim 0 "AAPL" "BUY" 100 100 "combined" in
  mark_to_market (portfolio (fst out)) (market_data (fst out))
  == mark_to_market (portfolio sim) (market_data sim) - 100 * 100 * (1 # 1000)
     - 100 * (100 - 100).
Proof.
  intros tick sim out.
  refine (proj1 (execute_trade_mark_to_market sim 0 "AAPL" "BUY" 100 100 "combined"
                   tick _ _) eq_refl).
  - vm_compute. reflexivity.
  - reflexivity.
Defined.

Lemma calculate_advanced_metrics_books math_sqrt p metrics :
  let p' := fst (calculate_advanced_metrics math_sqrt p metrics) in
  cash p' = cash p /\ positions p' = positions p /\
  total_value p' = total_value p /\ daily_pnl p' = daily_pnl p.
Proof.
  cbv zeta. unfold calculate_advanced_metrics.
  destruct (len metrics <? 2)%Z; [auto|].
  destruct (match map s_total_value metrics with [] => [] | f :: r => value_returns f r end);
    [auto|].
  destruct (drawdown_loop _ _ _); simpl; auto.
Qed.

Lemma update_portfolio_value_books math_sqrt sim metrics now :
  let out := update_portfolio_value math_sqrt sim metrics now in
  let sim' := fst (fst out) in
  let value := mark_to_market (portfolio sim) (market_data sim) in
  cash (portfolio sim') = cash (portfolio sim) /\
  positions (portfolio sim') = positions (portfolio sim) /\
  market_data sim' = market_data sim /\ trades sim' = trades sim /\
  assets sim' = assets sim /\
  total_value (portfolio sim') = value /\
  daily_pnl (portfolio sim')
  = match last metrics with Some m => value - s_total_value m | None => 0 end /\
  snd (fst out)
  = metrics ++ [mkSnapshot now value (cash (portfolio sim))
                  (daily_pnl (portfolio sim'))].
Proof.
  cbv zeta. unfold update_portfolio_value.
  set (p1 := set_value_pnl _ _ _).
  set (m1 := metrics ++ _).
  pose proof (calculate_advanced_metrics_books math_sqrt p1 m1) as (Hc & Hp & Hv & Hd).
  destruct (calculate_advanced_metrics math_sqrt p1 m1) as [p2 outcome].
  simpl in *. rewrite Hc, Hp, Hv, Hd. subst p1 m1. simpl. repeat split.
Qed.

(** X23. The ledger update leaves cash, positions, ticks, assets and the
    trade log alone, stores cash plus positions at tick prices as
    total_value, and appends one snapshot carrying it; run twice with
    nothing in between, the second run stores the same total_value, a
    daily_pnl equal to 0, and the history is two snapshots longer. *)
Theorem update_portfolio_value_twice math_sqrt sim metrics now now' :
  let once := update_portfolio_value math_sqrt sim metrics now in
  let twice := update_portfolio_value math_sqrt (fst (fst once)) (snd (fst once)) now' in
  let sim1 := fst (fst once) in
  let sim2 := fst (fst twice) in
  cash (portfolio sim1) = cash (portfolio sim) /\
  positions (portfolio sim1) = positions (portfolio sim) /\
  trades sim1 = trades sim /\
  total_value (portfolio sim1) = mark_to_market (portfolio sim) (market_data sim) /\
  (s_total_value <$> last (snd (fst once))) = Some (total_value (portfolio sim1)) /\
  total_value (portfolio sim2) = total_value (portfolio sim1) /\
  daily_pnl (portfolio sim2) == 0 /\
  length (snd (fst twice)) = (length metrics + 2)%nat.
Proof.
  cbv zeta.
  pose proof (update_portfolio_value_books math_sqrt sim metrics now)
    as (Hc & Hp & Hm & Ht & _ & Hv & _ & Hs).
  cbv zeta in *.
  set (once := update_portfolio_value math_sqrt sim metrics now) in *.
  pose proof (update_portfolio_value_books math_sqrt (fst (fst once)) (snd (fst once))
                now') as (_ & _ & _ & _ & _ & Hv2 & Hd2 & Hs2).
  cbv zeta in *.
  assert (Hsame : mark_to_market (portfolio (fst (fst once)))
                    (market_data (fst (fst once)))
                  = mark_to_market (portfolio sim) (market_data sim)).
  { unfold mark_to_market. rewrite Hc, Hp, Hm. reflexivity. }
  repeat split; try assumption.
  - rewrite Hs, last_snoc. simpl. rewrite Hv. reflexivity.
  - rewrite Hv2, Hv. exact Hsame.
  - rewrite Hd2, Hs, last_snoc. simpl. rewrite Hsame. ring.
  - rewrite Hs2, Hs, !length_app. simpl. lia.
Qed.

(** ** Performance metrics *)

Lemma py_max_bounds lo hi a b : lo <= a <= hi -> lo <= b <= hi -> lo <= py_max a b <= hi.
Proof. intros Ha Hb. unfold py_max. destruct (Qgtb b a); assumption. Qed.

Lemma drawdown_loop_bounds values peak max_dd :
  Forall (fun v => 0 < v) values -> 0 < peak -> 0 <= max_dd < 1 ->
  exists r, drawdown_loop values peak max_dd = Some r /\ 0 <= r < 1.
Proof.
  intros Hv. revert peak max_dd.
  induction Hv as [|v values Hpos _ IH]; intros peak max_dd Hpeak Hdd; simpl.
  - eauto.
  - set (peak' := if Qgtb v peak then v else peak).
    assert (Hp' : 0 < peak' /\ v <= peak').
    { subst peak'. destruct (Qgtb v peak) eqn:E; [lra|].
      apply Qltb_ge in E. lra. }
    rewrite fdiv_Some by lra. simpl.
    apply IH; [lra|].
    assert (Hd : 0 <= (peak' - v) / peak' < 1).
    { split.
      - apply Qle_shift_div_l; lra.
      - apply Qlt_shift_div_r; lra. }
    unfold py_max. destruct (Qgtb ((peak' - v) / peak') max_dd); [exact Hd | exact Hdd].
Qed.

Lemma drawdown_loop_nondecreasing values peak max_dd :
  nondecreasing values -> 0 < peak -> max_dd == 0 ->
  (forall v, hd_error values = Some v -> peak <= v) ->
  exists r, drawdown_loop values peak max_dd = Some r /\ r == 0.
Proof.
  revert peak max_dd.
  induction values as [|v values IH]; intros peak max_dd Hnd Hpeak Hdd Hhd; simpl.
  - eauto.
  - specialize (Hhd v eq_refl).
    set (peak' := if Qgtb v peak then v else peak).
    assert (Hp' : peak' == v).
    { subst peak'. destruct (Qgtb v peak) eqn:E; [reflexivity|].
      apply Qltb_ge in E. lra. }
    rewrite fdiv_Some by lra. simpl.
    assert (Hd : (peak' - v) / peak' == 0).
    { rewrite Hp'. field. lra. }
    apply IH.
    + intros i a b Ha Hb. exact (Hnd (S i) a b Ha Hb).
    + lra.
    + unfold py_max.
      destruct (Qgtb ((peak' - v) / peak') max_dd); [exact Hd | exact Hdd].
    + intros w Hw. destruct values as [|w' values']; [discriminate|].
      injection Hw as <-. rewrite Hp'. exact (Hnd 0%nat v w' eq_refl eq_refl).
Qed.

Lemma win_rate_bounds (returns : list Q) :
  returns <> [] ->
  0 <= inject_Z (Z.of_nat (length (filter (fun r => Qgtb r 0 = true) returns)))
       / inject_Z (len returns) <= 1.
Proof.
  intros Hne.
  pose proof (length_filter (fun r => Qgtb r 0 = true) returns) as Hle.
  assert (Hn : 0 < inject_Z (len returns)).
  { apply inject_Z_pos. unfold len. destruct returns; [congruence|]. simpl. lia. }
  set (k := length (filter _ returns)) in *.
  assert (Hk : 0 <= inject_Z (Z.of_nat k) <= inject_Z (len returns)).
  { unfold len. split.
    - change 0 with (inject_Z 0). rewrite <- Zle_Qle. lia.
    - rewrite <- Zle_Qle. lia. }
  split.
  - apply Qle_shift_div_l; lra.
  - apply Qle_shift_div_r; lra.
Qed.

Lemma calculate_advanced_metrics_positive math_sqrt p metrics :
  (2 <= len metrics)%Z -> Forall (fun m => 0 < s_total_value m) metrics ->
  exists first values returns sharpe,
    map s_total_value metrics = first :: values /\ 0 < first /\
    Forall (fun v => 0 < v) (first :: values) /\ returns <> [] /\
    calculate_advanced_metrics math_sqrt p metrics
    = match drawdown_loop (first :: values) first 0 with
      | None => (set_sharpe p sharpe, None)
      | Some max_dd =>
          (set_drawdown_win_rate (set_sharpe p sharpe) max_dd
             (inject_Z (Z.of_nat (length (filter (fun r => Qgtb r 0 = true) returns)))
              / inject_Z (len returns)),
           Some tt)
      end.
Proof.
  intros Hlen Hpos. unfold calculate_advanced_metrics.
  destruct (len metrics <? 2)%Z eqn:E; [apply Z.ltb_lt in E; lia|].
  assert (Hvals : Forall (fun v => 0 < v) (map s_total_value metrics)).
  { apply Forall_map. exact Hpos. }
  destruct metrics as [|m0 [|m1 rest]]; unfold len in Hlen; simpl in Hlen; try lia.
  simpl map in *. inversion Hvals as [|? ? H0 Hrest]; subst.
  simpl value_returns. rewrite (Qgtb_pos _ H0).
  eexists _, _, _, _. split; [reflexivity|]. split; [exact H0|].
  split; [exact Hvals|]. split; [|reflexivity]. discriminate.
Qed.

(** X24. With at least two snapshots, all of positive total value, the
    metrics are computed without error, max_drawdown is in [0, 1) and
    win_rate in [0, 1]. *)
Theorem calculate_advanced_metrics_bounds math_sqrt p metrics :
  (2 <= len metrics)%Z -> Forall (fun m => 0 < s_total_value m) metrics ->
  let out := calculate_advanced_metrics math_sqrt p metrics in
  snd out = Some tt /\
  0 <= max_drawdown (fst out) < 1 /\ 0 <= win_rate (fst out) <= 1.
Proof.
  intros Hlen Hpos.
  destruct (calculate_advanced_metrics_positive math_sqrt p metrics Hlen Hpos)
    as (first & values & returns & sharpe & _ & H0 & Hvals & Hne & ->).
  destruct (drawdown_loop_bounds (first :: values) first 0 Hvals H0
              ltac:(split; [discriminate | reflexivity])) as (r & -> & Hr).
  simpl. split; [reflexivity|]. split; [exact Hr|].
  apply win_rate_bounds. exact Hne.
Qed.

Lemma calculate_advanced_metrics_bounds_witness :
  let out := calculate_advanced_metrics sqrt_floor initial_portfolio three_snapshots in
  snd out = Some tt /\
  0 <= max_drawdown (fst out) < 1 /\ 0 <= win_rate (fst out) <= 1.
Proof.
  apply calculate_advanced_metrics_bounds; [discriminate|].
  repeat constructor.
Defined.

(** X25. A total value that never falls has no drawdown: with at least two
    snapshots of positive, non-decreasing total value, max_drawdown is
    equal to 0. *)
Theorem calculate_advanced_metrics_no_drawdown math_sqrt p metrics :
  (2 <= len metrics)%Z -> Forall (fun m => 0 < s_total_value m) metrics ->
  nondecreasing (map s_total_value metrics) ->
  let out := calculate_advanced_metrics math_sqrt p metrics in
  snd out = Some tt /\ max_drawdown (fst out) == 0.
Proof.
  intros Hlen Hpos Hnd.
  destruct (calculate_advanced_metrics_positive math_sqrt p metrics Hlen Hpos)
    as (first & values & returns & sharpe & Hmap & H0 & Hvals & Hne & ->).
  rewrite Hmap in Hnd.
  destruct (drawdown_loop_nondecreasing (first :: values) first 0 Hnd H0
              ltac:(reflexivity)) as (r & -> & Hr).
  { intros v [= <-]. lra. }
  simpl. split; [reflexivity | exact Hr].
Qed.

Lemma calculate_advanced_metrics_no_drawdown_witness :
  let metrics := [mkSnapshot 0 1000000 1000000 0; mkSnapshot 1 1000000 500000 0;
                  mkSnapshot 2 1010000 500000 10000] in
  max_drawdown (fst (calculate_advanced_metrics sqrt_floor initial_portfolio metrics))
  == 0.
Proof.
  intros metrics.
  refine (proj2 (calculate_advanced_metrics_no_drawdown sqrt_floor initial_portfolio
                   metrics _ _ _)).
  - discriminate.
  - repeat constructor.
  - intros [|[|[|i]]] a b Ha Hb; simpl in *; try discriminate;
      injection Ha as <-; injection Hb as <-; discriminate.
Defined.

(** A first snapshot of total value 0 followed by a positive one and at
    least one more makes the drawdown loop divide by its zero peak. *)
Lemma calculate_advanced_metrics_zero_peak math_sqrt p m0 m1 m2 rest :
  s_total_value m0 == 0 -> 0 < s_total_value m1 ->
  snd (calculate_advanced_metrics math_sqrt p (m0 :: m1 :: m2 :: rest)) = None.
Proof.
  intros H0 H1. unfold calculate_advanced_metrics.
  assert (Hlen : (len (m0 :: m1 :: m2 :: rest) <? 2)%Z = false).
  { apply Z.ltb_ge. unfold len. simpl. lia. }
  rewrite Hlen. cbn [map value_returns].
  rewrite (Qgtb_nonpos (s_total_value m0)) by lra.
  rewrite (Qgtb_pos _ H1). cbn [hd drawdown_loop].
  assert (Hz : fdiv (s_total_value m0 - s_total_value m0) (s_total_value m0) = None).
  { unfold fdiv. apply Qeq_bool_iff in H0. rewrite H0. reflexivity. }
  destruct (Qgtb (s_total_value m0) (s_total_value m0)); rewrite Hz; reflexivity.
Qed.

(** ** The simulation step *)

Lemma execute_trade_healthy sim now symbol side quantity price strategy :
  healthy sim -> (0 <= quantity)%Z -> 0 <= price ->
  healthy (fst (execute_trade sim now symbol side quantity price strategy)).
Proof.
  intros (Hsolv & Hticks & Hassets) Hq Hp.
  pose proof (trade_value_nonneg _ _ Hq Hp) as Htv.
  pose proof (held_nonneg _ symbol Hsolv) as Hnonneg.
  pose proof (proj1 Hsolv) as Hc.
  execute_trade_cases; try exact (conj Hsolv (conj Hticks Hassets)).
  - apply Qltb_ge in Hfunds. split; [|split; assumption].
    apply solvent_set_cash_position; [assumption | lra | lia].
  - apply Z.ltb_ge in Hheld. split; [|split; assumption].
    apply solvent_set_cash_position; [assumption | lra | lia].
Qed.

Lemma trade_on_signal_healthy sim now symbol data signal confidence :
  healthy sim -> 0 <= md_bid data -> 0 <= md_ask data ->
  healthy (fst (trade_on_signal sim now symbol data signal confidence)).
Proof.
  intros Hh Hbid Hask. unfold trade_on_signal.
  destruct (negb (String.eqb signal "HOLD") && Qgtb confidence (3 # 10)) eqn:Hgo;
    [|exact Hh].
  apply andb_true_iff in Hgo. destruct Hgo as [_ Hc]. apply Qltb_lt in Hc.
  assert (Hq : (0 <= py_int (1000 * confidence))%Z).
  { apply (py_int_ge 0); [lia|]. change (inject_Z 0) with 0. lra. }
  destruct (String.eqb signal "BUY"); [|destruct (String.eqb signal "SELL")]; simpl.
  - apply execute_trade_healthy; assumption.
  - apply execute_trade_healthy; assumption.
  - exact Hh.
Qed.

Lemma trade_on_signal_frame sim now symbol data signal confidence :
  let sim' := fst (trade_on_signal sim now symbol data signal confidence) in
  market_data sim' = market_data sim /\ assets sim' = assets sim /\
  running sim' = running sim /\ trades sim `prefix_of` trades sim'.
Proof.
  cbv zeta. unfold trade_on_signal.
  destruct (negb (String.eqb signal "HOLD") && Qgtb confidence (3 # 10));
    [|repeat split; reflexivity].
  assert (H : forall side price,
    let out := execute_trade sim now symbol side (py_int (1000 * confidence)) price
                 "combined" in
    market_data (fst out) = market_data sim /\ assets (fst out) = assets sim /\
    running (fst out) = running sim /\ trades sim `prefix_of` trades (fst out)).
  { intros side price. cbv zeta. execute_trade_cases;
      repeat split; try reflexivity; apply prefix_app_r; reflexivity. }
  destruct (String.eqb signal "BUY"); [|destruct (String.eqb signal "SELL")]; simpl.
  - apply H.
  - apply H.
  - repeat split; reflexivity.
Qed.

Lemma trade_symbol_keeps math_sqrt inputs symbol sim strats :
  let sim' := fst (fst (trade_symbol math_sqrt inputs symbol sim strats)) in
  (healthy sim -> healthy sim') /\
  market_data sim' = market_data sim /\ assets sim' = assets sim /\
  running sim' = running sim /\ trades sim `prefix_of` trades sim'.
Proof.
  cbv zeta. unfold trade_symbol.
  destruct (market_data sim !! symbol) as [data|] eqn:Hd;
    [|split; [auto | repeat split; reflexivity]].
  destruct (strats !! symbol) as [[vwap mr]|]; [|split; [auto | repeat split; reflexivity]].
  destruct (vwap_generate_signal _ _ _ _) as [vwap' [[vs vc]|]];
    [|split; [auto | repeat split; reflexivity]].
  destruct (mr_generate_signal _ _ _) as [mr' [[ms mc]|]];
    [|split; [auto | repeat split; reflexivity]].
  destruct (combine_signals vs vc ms mc) as [signal confidence].
  pose proof (trade_on_signal_frame sim (order_time inputs symbol) symbol data signal
                confidence) as Hframe.
  pose proof (trade_on_signal_healthy sim (order_time inputs symbol) symbol data signal
                confidence) as Hhealthy.
  destruct (trade_on_signal _ _ _ _ _ _) as [sim' outcome]. simpl in *.
  split; [|exact Hframe].
  intros Hh. pose proof (proj1 (proj2 Hh) _ _ Hd) as [Hbid Hask].
  apply Hhealthy; assumption.
Qed.

Lemma trade_all_keeps math_sqrt inputs symbols sim strats :
  let sim' := fst (fst (trade_all math_sqrt inputs symbols sim strats)) in
  (healthy sim -> healthy sim') /\
  market_data sim' = market_data sim /\ assets sim' = assets sim /\
  running sim' = running sim /\ trades sim `prefix_of` trades sim'.
Proof.
  cbv zeta. revert sim strats.
  induction symbols as [|symbol rest IH]; intros sim strats; simpl.
  - split; [auto | repeat split; reflexivity].
  - pose proof (trade_symbol_keeps math_sqrt inputs symbol sim strats)
      as (Hh & Hm & Ha & Hr & Ht).
    destruct (trade_symbol math_sqrt inputs symbol sim strats)
      as [[sim1 strats1] [[]|]]; simpl in *.
    + destruct (IH sim1 strats1) as (Hh' & Hm' & Ha' & Hr' & Ht').
      split; [auto|]. split; [congruence|]. split; [congruence|].
      split; [congruence | etransitivity; eassumption].
    + split; [assumption|]. split; [assumption|]. split; [assumption|].
      split; assumption.
Qed.

Lemma generate_market_data_healthy sim current_hour now rnd symbol sim' tick :
  healthy sim -> - (100) <= z_price rnd ->
  generate_market_data sim current_hour now rnd symbol = Some (sim', tick) ->
  healthy (set_market_data sim' symbol tick) /\
  trades sim' = trades sim /\ running sim' = running sim.
Proof.
  intros (Hsolv & Hticks & Hassets) Hz. unfold generate_market_data.
  destruct (assets sim !! symbol) as [asset|] eqn:Ha; simpl; [|discriminate].
  intros [= <- <-]. simpl.
  destruct (Hassets _ _ Ha) as (Hbase & Hvol0 & Hvol1).
  set (tf := if AssetType_eqb (asset_type asset) STOCK
             then if ((current_hour <? fst (market_hours asset))
                      || (snd (market_hours asset) <? current_hour))%Z
                  then 1 # 10 else 1
             else 1).
  assert (Htf : 0 <= tf <= 1).
  { subst tf. destruct (AssetType_eqb _ _); [destruct (_ || _)|]; split; discriminate. }
  set (pct := if AssetType_eqb (asset_type asset) STOCK then 1 # 1000 else 1 # 100).
  assert (Hpct : 0 <= pct <= 1 # 100).
  { subst pct. destruct (AssetType_eqb _ _); split; discriminate. }
  set (np := base_price asset * (1 + gauss 0 (volatility asset * tf * (1 # 100))
                                     (z_price rnd))).
  assert (Hnp : 0 <= np).
  { subst np. unfold gauss. apply Qmult_le_0_compat; [exact Hbase|].
    clearbody tf. set (v := volatility asset) in *. set (z := z_price rnd) in *.
    assert (0 <= v * tf <= 1) by nra.
    set (s := v * tf) in *. clearbody s. nra. }
  assert (Hhalf : np * pct / 2 == np * pct * (1 # 2)) by field.
  assert (Hsp : 0 <= np * pct <= np * (1 # 100)).
  { clearbody np pct. split; nra. }
  split; [|split; reflexivity].
  split; [exact Hsolv|]. split.
  - apply map_Forall_insert_2; [|exact Hticks]. simpl.
    fold tf pct np. rewrite Hhalf. clearbody np pct. split; nra.
  - simpl. apply map_Forall_insert_2; [|exact Hassets]. simpl. auto.
Qed.

Lemma generate_market_data_unchanged_aux sim current_hour now rnd symbol sim' tick :
  generate_market_data sim current_hour now rnd symbol = Some (sim', tick) ->
  trades sim' = trades sim /\ running sim' = running sim /\
  portfolio sim' = portfolio sim.
Proof.
  unfold generate_market_data.
  destruct (assets sim !! symbol); simpl; [|discriminate].
  intros [= <- <-]. repeat split; reflexivity.
Qed.

Lemma generate_all_keeps inputs symbols sim :
  (forall symbol, - (100) <= z_price (draws_at inputs symbol)) ->
  let sim' := fst (generate_all inputs symbols sim) in
  (healthy sim -> healthy sim') /\
  trades sim' = trades sim /\ running sim' = running sim /\
  portfolio sim' = portfolio sim.
Proof.
  intros Hz. cbv zeta. revert sim.
  induction symbols as [|symbol rest IH]; intros sim; simpl.
  - auto.
  - pose proof (generate_market_data_healthy sim (hour_at inputs symbol)
                  (tick_time inputs symbol) (draws_at inputs symbol) symbol) as Hgen.
    pose proof (generate_market_data_unchanged_aux sim (hour_at inputs symbol)
                  (tick_time inputs symbol) (draws_at inputs symbol) symbol) as Hsame.
    destruct (generate_market_data _ _ _ _ _) as [[sim1 tick]|]; simpl; [|auto].
    destruct (Hsame sim1 tick eq_refl) as (Ht & Hr & Hp).
    destruct (IH (set_market_data sim1 symbol tick)) as (Hh' & Ht' & Hr' & Hp').
    split; [|split; [|split]].
    + intros Hh. apply Hh'. apply (Hgen sim1 tick Hh (Hz symbol) eq_refl).
    + rewrite Ht'. simpl. exact Ht.
    + rewrite Hr'. simpl. exact Hr.
    + rewrite Hp'. simpl. exact Hp.
Qed.

Lemma update_portfolio_value_keeps math_sqrt sim metrics now :
  let sim' := fst (fst (update_portfolio_value math_sqrt sim metrics now)) in
  (healthy sim -> healthy sim') /\
  trades sim' = trades sim /\ running sim' = running sim.
Proof.
  cbv zeta.
  pose proof (update_portfolio_value_books math_sqrt sim metrics now)
    as (Hc & Hp & Hm & Ht & Ha & _).
  cbv zeta in *.
  assert (Hr : running (fst (fst (update_portfolio_value math_sqrt sim metrics now)))
               = running sim).
  { unfold update_portfolio_value.
    destruct (calculate_advanced_metrics _ _ _). reflexivity. }
  split; [|split; assumption].
  intros ((Hcash & Hpos) & Hticks & Hassets).
  split; [|split].
  - split; [rewrite Hc | rewrite Hp]; assumption.
  - rewrite Hm. exact Hticks.
  - rewrite Ha. exact Hassets.
Qed.

Lemma run_simulation_step_keeps math_sqrt inputs w :
  (forall symbol, - (100) <= z_price (draws_at inputs symbol)) ->
  let w' := fst (run_simulation_step math_sqrt inputs w) in
  (healthy (simulator w) -> healthy (simulator w')) /\
  trades (simulator w) `prefix_of` trades (simulator w') /\
  running (simulator w') = running (simulator w) /\
  asset_order w' = asset_order w.
Proof.
  intros Hz. cbv zeta. unfold run_simulation_step.
  destruct (negb (running (simulator w))); [split; [auto | repeat split; reflexivity]|].
  pose proof (generate_all_keeps inputs (asset_order w) (simulator w) Hz)
    as (Hh1 & Ht1 & Hr1 & _).
  destruct (generate_all inputs (asset_order w) (simulator w)) as [sim1 [[]|]];
    simpl in *.
  2:{ split; [exact Hh1|]. split; [rewrite Ht1; reflexivity|]. split; [exact Hr1|].
      reflexivity. }
  pose proof (trade_all_keeps math_sqrt inputs (asset_order w) sim1 (strategies w))
    as (Hh2 & _ & _ & Hr2 & Ht2).
  destruct (trade_all math_sqrt inputs (asset_order w) sim1 (strategies w))
    as [[sim2 strats2] [[]|]]; simpl in *.
  2:{ split; [auto|]. split; [rewrite <- Ht1; exact Ht2|]. split; [congruence|].
      reflexivity. }
  pose proof (update_portfolio_value_keeps math_sqrt sim2 (performance_metrics w)
                (snapshot_time inputs)) as (Hh3 & Ht3 & Hr3).
  destruct (update_portfolio_value math_sqrt sim2 (performance_metrics w)
              (snapshot_time inputs)) as [[sim3 metrics3] outcome]; simpl in *.
  split; [auto|]. split; [rewrite Ht3, <- Ht1; exact Ht2|]. split; [congruence|].
  reflexivity.
Qed.

(** X26. The books stay sound through a whole simulation step: if cash and
    positions are not negative, no stored tick has a negative bid or ask,
    and every asset has a base price >= 0 and a volatility in [0, 1],
    then the same holds after run_simulation_step (also when it raises
    part-way), for any price draws of at least -100 standard deviations. *)
Theorem run_simulation_step_healthy math_sqrt inputs w :
  healthy (simulator w) ->
  (forall symbol, - (100) <= z_price (draws_at inputs symbol)) ->
  healthy (simulator (fst (run_simulation_step math_sqrt inputs w))).
Proof.
  intros Hh Hz. apply (run_simulation_step_keeps math_sqrt inputs w Hz). exact Hh.
Qed.

Lemma map_Forall_list_to_map_2 {A} (P : string -> A -> Prop) (l : list (string * A)) :
  Forall (fun kv => P (fst kv) (snd kv)) l ->
  map_Forall P (list_to_map l : gmap string A).
Proof.
  induction 1 as [|[k v] l Hkv _ IH]; simpl.
  - apply map_Forall_empty.
  - apply map_Forall_insert_2; assumption.
Qed.

Lemma AdvancedTradingSimulator_world_healthy :
  healthy (simulator (start AdvancedTradingSimulator_world)).
Proof.
  split; [|split]; simpl.
  - split; simpl; [discriminate | apply map_Forall_empty].
  - apply map_Forall_empty.
  - apply map_Forall_list_to_map_2.
    repeat (constructor; [simpl; repeat split; discriminate|]). constructor.
Qed.

Lemma run_simulation_step_healthy_witness :
  healthy (simulator (fst (run_simulation_step sqrt_floor quiet_inputs
                             (start AdvancedTradingSimulator_world)))).
Proof.
  apply run_simulation_step_healthy.
  - apply AdvancedTradingSimulator_world_healthy.
  - intros symbol. simpl. discriminate.
Defined.

(** X27. A simulation step never rewrites history: the trade log before
    the step is a prefix of the log after it, the running flag and the
    asset order are unchanged; a stopped simulator is left exactly as it
    was, and a running step that completes appends exactly one
    performance snapshot. *)
Theorem run_simulation_step_log math_sqrt inputs w :
  let out := run_simulation_step math_sqrt inputs w in
  trades (simulator w) `prefix_of` trades (simulator (fst out)) /\
  running (simulator (fst out)) = running (simulator w) /\
  asset_order (fst out) = asset_order w /\
  (running (simulator w) = false -> out = (w, Some tt)) /\
  (running (simulator w) = true -> snd out = Some tt ->
   length (performance_metrics (fst out)) = S (length (performance_metrics w))).
Proof.
  cbv zeta. unfold run_simulation_step.
  destruct (running (simulator w)) eqn:Hrun; simpl.
  2:{ split; [reflexivity|]. split; [exact Hrun|]. split; [reflexivity|].
      split; [reflexivity | discriminate]. }
  assert (Hgen : forall symbols sim,
            trades (fst (generate_all inputs symbols sim)) = trades sim /\
            running (fst (generate_all inputs symbols sim)) = running sim).
  { induction symbols as [|symbol rest IH]; intros sim; simpl; [auto|].
    pose proof (generate_market_data_unchanged_aux sim (hour_at inputs symbol)
                  (tick_time inputs symbol) (draws_at inputs symbol) symbol) as Hsame.
    destruct (generate_market_data _ _ _ _ _) as [[sim1 tick]|]; simpl; [|auto].
    destruct (Hsame sim1 tick eq_refl) as (Ht & Hr & _).
    destruct (IH (set_market_data sim1 symbol tick)) as [Ht' Hr'].
    split; [rewrite Ht'; exact Ht | rewrite Hr'; exact Hr]. }
  destruct (Hgen (asset_order w) (simulator w)) as [Ht1 Hr1].
  destruct (generate_all inputs (asset_order w) (simulator w)) as [sim1 [[]|]];
    simpl in *.
  2:{ rewrite Ht1. split; [reflexivity|]. split; [congruence|]. split; [reflexivity|].
      split; discriminate. }
  pose proof (trade_all_keeps math_sqrt inputs (asset_order w) sim1 (strategies w))
    as (_ & _ & _ & Hr2 & Ht2).
  destruct (trade_all math_sqrt inputs (asset_order w) sim1 (strategies w))
    as [[sim2 strats2] [[]|]]; simpl in *.
  2:{ rewrite <- Ht1. split; [exact Ht2|]. split; [congruence|].
      split; [reflexivity|]. split; discriminate. }
  pose proof (update_portfolio_value_keeps math_sqrt sim2 (performance_metrics w)
                (snapshot_time inputs)) as (_ & Ht3 & Hr3).
  pose proof (update_portfolio_value_books math_sqrt sim2 (performance_metrics w)
                (snapshot_time inputs)) as (_ & _ & _ & _ & _ & _ & _ & Hs).
  destruct (update_portfolio_value math_sqrt sim2 (performance_metrics w)
              (snapshot_time inputs)) as [[sim3 metrics3] outcome]; simpl in *.
  split; [rewrite Ht3, <- Ht1; exact Ht2|]. split; [congruence|].
  split; [reflexivity|]. split; [discriminate|].
  intros _ _. rewrite Hs, length_app. simpl. lia.
Qed.

Lemma run_simulation_step_log_witness :
  run_simulation_step sqrt_floor quiet_inputs AdvancedTradingSimulator_world
  = (AdvancedTradingSimulator_world, Some tt).
Proof.
  apply (run_simulation_step_log sqrt_floor quiet_inputs AdvancedTradingSimulator_world).
  reflexivity.
Defined.

(** One quiet step of the started simulator: every asset gets a tick, the
    strategies are still warming up, no trade is placed, and the first
    snapshot records the untouched million. *)
Example run_simulation_step_first :
  let out := run_simulation_step sqrt_floor quiet_inputs
               (start AdvancedTradingSimulator_world) in
  snd out = Some tt /\
  size (market_data (simulator (fst out))) = 10%nat /\
  trades (simulator (fst out)) = [] /\
  (s_total_value <$> performance_metrics (fst out)) = [1000000].
Proof. vm_compute. repeat split; reflexivity. Qed.

(** ** The dashboard's order path *)

(** X28. The dashboard's price update floors the new price: a stock never
    goes below 1.0 and a crypto asset never below 0.01, whatever the
    sentiment and the draws. *)
Theorem dashboard_price_floor sentiment asset r z :
  (Dashboard.type asset = "stock" -> 1 <= Dashboard.new_price sentiment asset r z) /\
  (Dashboard.type asset = "crypto" ->
     1 # 100 <= Dashboard.new_price sentiment asset r z).
Proof. apply dashboard_new_price_floor. Qed.

Lemma dashboard_price_floor_witness :
  1 <= Dashboard.new_price "bearish" dashboard_AAPL (9 # 10) (-200).
Proof.
  apply (proj1 (dashboard_price_floor "bearish" dashboard_AAPL (9 # 10) (-200))).
  reflexivity.
Defined.

(** X29. The dashboard clips an oversized order instead of rejecting it:
    when |quantity * price| exceeds total_value * max_position_size (price
    positive, cap not negative) the quantity becomes
    int(total_value * max_position_size / price), which is not negative
    and worth at most the cap. *)
Theorem dashboard_clip_within_cap p quantity price :
  0 < price ->
  0 <= Dashboard.total_value p * Dashboard.max_position_size p ->
  Dashboard.total_value p * Dashboard.max_position_size p
    < Qabs (inject_Z quantity * price) ->
  exists clipped,
    Dashboard.clip_quantity p quantity price = Some clipped /\
    clipped = py_int (Dashboard.total_value p * Dashboard.max_position_size p / price)
    /\ (0 <= clipped)%Z /\
    inject_Z clipped * price
      <= Dashboard.total_value p * Dashboard.max_position_size p.
Proof. apply dashboard_clip_quantity_bound. Qed.

Lemma dashboard_clip_within_cap_witness :
  exists clipped,
    Dashboard.clip_quantity Dashboard.initial_portfolio 2000 100 = Some clipped /\
    inject_Z clipped * 100 <= 1000000 * (15 # 100).
Proof.
  destruct (dashboard_clip_within_cap Dashboard.initial_portfolio 2000 100
              eq_refl ltac:(discriminate) eq_refl) as (c & Hc & _ & _ & Hb).
  exists c. split; [exact Hc | exact Hb].
Defined.

Lemma dashboard_clip_quantity_nonneg p quantity price clipped :
  0 < price -> (0 <= quantity)%Z ->
  0 <= Dashboard.total_value p * Dashboard.max_position_size p ->
  Dashboard.clip_quantity p quantity price = Some clipped -> (0 <= clipped)%Z.
Proof.
  intros Hprice Hq Hcap. unfold Dashboard.clip_quantity.
  destruct (Qgtb _ _); [|intros [= <-]; exact Hq].
  rewrite fdiv_Some by lra. simpl. intros [= <-].
  apply py_int_floor. apply Qle_shift_div_l; lra.
Qed.

Lemma dashboard_record_trade_books sim now symbol side quantity price fees :
  let out := Dashboard.record_trade sim now symbol side quantity price fees in
  Dashboard.cash (Dashboard.portfolio (fst out)) = Dashboard.cash (Dashboard.portfolio sim)
  /\ Dashboard.positions (Dashboard.portfolio (fst out))
     = Dashboard.positions (Dashboard.portfolio sim)
  /\ Dashboard.trade_count (fst out) = S (Dashboard.trade_count sim)
  /\ ((len (Dashboard.trades (Dashboard.portfolio sim)) <= 200)%Z ->
      (len (Dashboard.trades (Dashboard.portfolio (fst out))) <= 200)%Z).
Proof.
  cbv zeta. unfold Dashboard.record_trade.
  destruct (Dashboard.assets sim !! symbol) as [asset|]; simpl; [|auto].
  repeat split. intros Hlen.
  set (ts := Dashboard.trades (Dashboard.portfolio sim) ++ _).
  assert (Hts : len ts = (len (Dashboard.trades (Dashboard.portfolio sim)) + 1)%Z).
  { subst ts. unfold len. rewrite length_app. simpl. lia. }
  destruct (200 <? len ts)%Z eqn:E.
  - unfold pop0, len in *. destruct ts; simpl in *; lia.
  - apply Z.ltb_ge in E. exact E.
Qed.

(** X30. The dashboard's order path keeps its books sound: for a positive
    price, a quantity that is not negative and a position cap
    total_value * max_position_size that is not negative, cash and all
    positions stay >= 0 (also when recording the trade raises KeyError);
    past the daily-loss limit nothing changes at all; the trade counter
    grows by at most one and a trade log of at most 200 entries stays
    within 200. *)
Theorem dashboard_execute_trade_books sim now symbol side quantity price :
  let p := Dashboard.portfolio sim in
  let out := Dashboard.execute_trade sim now symbol side quantity price in
  dashboard_solvent p -> 0 < price -> (0 <= quantity)%Z ->
  0 <= Dashboard.total_value p * Dashboard.max_position_size p ->
  dashboard_solvent (Dashboard.portfolio (fst out)) /\
  (Dashboard.daily_pnl p < - Dashboard.total_value p * Dashboard.daily_loss_limit p ->
   fst out = sim) /\
  (Dashboard.trade_count sim <= Dashboard.trade_count (fst out)
   <= S (Dashboard.trade_count sim))%nat /\
  ((len (Dashboard.trades p) <= 200)%Z ->
   (len (Dashboard.trades (Dashboard.portfolio (fst out))) <= 200)%Z).
Proof.
  cbv zeta. intros [Hcash Hpos] Hprice Hq Hcap. unfold Dashboard.execute_trade.
  pose proof (dashboard_clip_quantity_nonneg (Dashboard.portfolio sim) quantity price)
    as Hclip.
  destruct (Dashboard.clip_quantity (Dashboard.portfolio sim) quantity price)
    as [q|]; [|repeat split; auto; lia].
  specialize (Hclip q Hprice Hq Hcap eq_refl).
  destruct (Qltb (Dashboard.daily_pnl _) _) eqn:Hloss; [repeat split; auto; lia|].
  assert (Hnoloss : Dashboard.daily_pnl (Dashboard.portfolio sim)
                    < - Dashboard.total_value (Dashboard.portfolio sim)
                      * Dashboard.daily_loss_limit (Dashboard.portfolio sim) ->
                    False).
  { intros H. apply Qltb_lt in H. congruence. }
  assert (Htv : 0 <= inject_Z q * price).
  { apply Qmult_le_0_compat; [|lra]. change 0 with (inject_Z 0).
    rewrite <- Zle_Qle. exact Hclip. }
  set (held := default 0%Z (Dashboard.positions (Dashboard.portfolio sim) !! symbol)).
  assert (Hheld : (0 <= held)%Z).
  { subst held. destruct (Dashboard.positions _ !! symbol) as [h|] eqn:E; simpl; [|lia].
    exact (Hpos _ _ E). }
  destruct (String.eqb side "BUY").
  - destruct (Qgeb _ _) eqn:Hfunds; [|repeat split; auto; try lia; contradiction].
    apply Qle_bool_iff in Hfunds.
    match goal with |- context [Dashboard.record_trade ?s ?n ?sy ?sd ?qq ?pr ?fe] =>
      pose proof (dashboard_record_trade_books s n sy sd qq pr fe) as (Hc & Hp & Hn & Hl)
    end.
    cbv zeta in *. rewrite Hn. unfold dashboard_solvent. rewrite Hc, Hp. simpl in *.
    split; [split; [lra | apply map_Forall_insert_2; [lia | exact Hpos]]|].
    split; [intros H; contradiction (Hnoloss H)|]. split; [lia | exact Hl].
  - destruct (q <=? held)%Z eqn:Hhas; [|repeat split; auto; try lia; contradiction].
    apply Z.leb_le in Hhas.
    match goal with |- context [Dashboard.record_trade ?s ?n ?sy ?sd ?qq ?pr ?fe] =>
      pose proof (dashboard_record_trade_books s n sy sd qq pr fe) as (Hc & Hp & Hn & Hl)
    end.
    cbv zeta in *. rewrite Hn. unfold dashboard_solvent. rewrite Hc, Hp. simpl in *.
    split; [split; [lra | apply map_Forall_insert_2; [lia | exact Hpos]]|].
    split; [intros H; contradiction (Hnoloss H)|]. split; [lia | exact Hl].
Qed.

Lemma dashboard_execute_trade_books_witness :
  let sim := Dashboard.mkTradingSimulator {[ "AAPL" := dashboard_AAPL ]}
               Dashboard.initial_portfolio 0 "neutral" in
  dashboard_solvent
    (Dashboard.portfolio (fst (Dashboard.execute_trade sim 0 "AAPL" "BUY" 2000 100))).
Proof.
  intros sim.
  refine (proj1 (dashboard_execute_trade_books sim 0 "AAPL" "BUY" 2000 100 _ _ _ _)).
  - split; simpl; [discriminate | apply map_Forall_empty].
  - reflexivity.
  - lia.
  - discriminate.
Defined.
